(** * Cart-to-kitchen assistant: a shallow embedding of the Python services

    The development follows the repository's layout:
    - [Py]: the fragment of Python's [str] and [re] the services rely on;
    - [RecipeStore]: [recipeservice/recipe_store.py];
    - [IngredientMatcher]: [ingredientmatcheragent/agent_server.py];
    - [Orchestrator]: [recipeservice/multi_tool_agent/agent.py];
    - [CartAdder]: [cartadderagent/agent_server.py];
    - [RecipeGenerator]: [recipeservice/multi_tool_agent/recipe_generator.py];
    - [GrpcServer]: [recipeservice/grpc_server.py].

    Strings are ASCII text (one [ascii] per character).  A [float] is a
    finite value, kept as the exact rational it denotes, an infinity or NaN:
    overflow to an infinity is modelled, the rounding of a finite result is
    not.  Remote services, the generative
    models, [json.loads] and [hashlib.md5] are oracles: section variables
    giving the outcome of each call.  A cache is the finite map it holds at
    the instant of a call; a started thread is recorded with its arguments
    and run by calling its target on them. *)

From Stdlib Require Import String Ascii List ZArith QArith Qround Qabs Lia Bool.
From Stdlib Require Import Permutation Sorted DecimalString Decimal.
From stdpp Require Import base gmap strings.
Import ListNotations.
Local Open Scope string_scope.
Local Open Scope list_scope.

(** ** Python values shared by the services *)

(** The exceptions the modelled code can raise. *)
Inductive py_exn : Type :=
| ZeroDivisionError
| ValueError (msg : string)
| OverflowError (msg : string)
| TypeError (msg : string)
| Exception (msg : string).

(** The outcome of a call that may raise. *)
Inductive result (A : Type) : Type :=
| Ok (a : A)
| Raise (e : py_exn).
Arguments Ok {A} a.
Arguments Raise {A} e.

(** A [float]: a finite value, an infinity or NaN.  The finite value is the
    rational the float denotes; the sign of a zero is not kept. *)
Inductive pyfloat : Type :=
| Finite (q : Q)
| Infinite (negative : bool)
| NaN.

Module Py.

(** [str.isspace] on ASCII: tab, newline, vertical tab, form feed, carriage
    return, the four separators 0x1c-0x1f and the space.  The same set is the
    class [\s] of [re]. *)
Definition is_space (c : ascii) : bool :=
  let n := nat_of_ascii c in
  (((9 <=? n) && (n <=? 13)) || ((28 <=? n) && (n <=? 32)))%nat.

Definition is_digit (c : ascii) : bool :=
  let n := nat_of_ascii c in ((48 <=? n) && (n <=? 57))%nat.

Definition is_upper (c : ascii) : bool :=
  let n := nat_of_ascii c in ((65 <=? n) && (n <=? 90))%nat.

Definition is_lower (c : ascii) : bool :=
  let n := nat_of_ascii c in ((97 <=? n) && (n <=? 122))%nat.

Definition is_alpha (c : ascii) : bool := is_upper c || is_lower c.

(** The class [\w] of [re]: letters, digits and the underscore. *)
Definition is_word (c : ascii) : bool :=
  is_alpha c || is_digit c || (nat_of_ascii c =? 95)%nat.

Definition lower_char (c : ascii) : ascii :=
  if is_upper c then ascii_of_nat (nat_of_ascii c + 32) else c.

Definition upper_char (c : ascii) : ascii :=
  if is_lower c then ascii_of_nat (nat_of_ascii c - 32) else c.

(** [s.lower()] *)
Fixpoint lower (s : string) : string :=
  match s with
  | EmptyString => EmptyString
  | String c s' => String (lower_char c) (lower s')
  end.

(** [s.title()]: the first letter of every run of letters is upper-cased,
    the other letters of the run are lower-cased. *)
Fixpoint title_from (prev_cased : bool) (s : string) : string :=
  match s with
  | EmptyString => EmptyString
  | String c s' =>
      String (if prev_cased then lower_char c else upper_char c)
             (title_from (is_alpha c) s')
  end.

Definition title (s : string) : string := title_from false s.

(** [s.lstrip()], [s.rstrip()] and [s.strip()] *)
Fixpoint lstrip (s : string) : string :=
  match s with
  | EmptyString => EmptyString
  | String c s' => if is_space c then lstrip s' else s
  end.

Fixpoint rstrip (s : string) : string :=
  match s with
  | EmptyString => EmptyString
  | String c s' =>
      match rstrip s' with
      | EmptyString => if is_space c then EmptyString else String c EmptyString
      | r => String c r
      end
  end.

Definition strip (s : string) : string := rstrip (lstrip s).

(** [s.startswith(p)] *)
Fixpoint startswith (p s : string) : bool :=
  match p, s with
  | EmptyString, _ => true
  | String a p', String b s' => Ascii.eqb a b && startswith p' s'
  | String _ _, EmptyString => false
  end.

(** [sub in s] *)
Fixpoint contains (sub s : string) : bool :=
  startswith sub s ||
  match s with
  | EmptyString => false
  | String _ s' => contains sub s'
  end.

(** [s.split(sep)] for a one-character separator: the pieces between the
    separators, the empty string giving one empty piece. *)
Fixpoint split_on (sep : ascii) (s : string) : list string :=
  match s with
  | EmptyString => [EmptyString]
  | String c s' =>
      if Ascii.eqb c sep then EmptyString :: split_on sep s'
      else match split_on sep s' with
           | piece :: rest => String c piece :: rest
           | [] => [String c EmptyString]
           end
  end.

(** [s.split()]: the maximal runs of characters that are not whitespace. *)
Fixpoint words_from (cur : string) (s : string) : list string :=
  match s with
  | EmptyString => match cur with EmptyString => [] | _ => [cur] end
  | String c s' =>
      if is_space c
      then match cur with
           | EmptyString => words_from EmptyString s'
           | _ => cur :: words_from EmptyString s'
           end
      else words_from (cur ++ String c EmptyString) s'
  end.

Definition split_ws (s : string) : list string := words_from EmptyString s.

(** [sep.join(l)] *)
Definition join (sep : string) (l : list string) : string := String.concat sep l.

(** [str(n)] for an [int] *)
Definition str_of_nat (n : nat) : string := NilZero.string_of_uint (Nat.to_uint n).
Definition str_of_Z (z : Z) : string := NilZero.string_of_int (Z.to_int z).

(** The character occurs in the string. *)
Fixpoint occurs (c : ascii) (s : string) : bool :=
  match s with
  | EmptyString => false
  | String x s' => Ascii.eqb x c || occurs c s'
  end.

(** Some character of the string is in the class. *)
Fixpoint any_of (p : ascii -> bool) (s : string) : bool :=
  match s with
  | EmptyString => false
  | String c s' => p c || any_of p s'
  end.

(** [x in l] for a list of strings *)
Definition mem (x : string) (l : list string) : bool :=
  existsb (String.eqb x) l.

(** [s.endswith(p)] *)
Definition endswith (p s : string) : bool :=
  (String.length p <=? String.length s)%nat
  && String.eqb (substring (String.length s - String.length p) (String.length p) s) p.

(** [s[n:]] and [s[:-n]] for a positive [n] *)
Definition drop (n : nat) (s : string) : string :=
  substring n (String.length s - n) s.

Definition drop_last (n : nat) (s : string) : string :=
  substring 0 (String.length s - n) s.

(** Every character of the string is in the class. *)
Fixpoint all_of (p : ascii -> bool) (s : string) : bool :=
  match s with
  | EmptyString => true
  | String c s' => p c && all_of p s'
  end.

(** The string does not begin with a character of the class. *)
Definition head_not (p : ascii -> bool) (s : string) : bool :=
  match s with
  | EmptyString => true
  | String c _ => negb (p c)
  end.

(** [sorted(l)] on strings: the ordered permutation of [l], built by
    insertion; strings are compared character by character. *)
Fixpoint insert_sorted (x : string) (l : list string) : list string :=
  match l with
  | [] => [x]
  | y :: l' => if String.leb x y then x :: l else y :: insert_sorted x l'
  end.

Fixpoint sorted (l : list string) : list string :=
  match l with
  | [] => []
  | x :: l' => insert_sorted x (sorted l')
  end.

(** *** Floats

    A result is rounded to the nearest float, a tie going to the even one, so
    it is an infinity exactly when its magnitude reaches 2^1024 - 2^970,
    half an ulp above the largest float. *)
Definition float_overflow : Z := (2 ^ 1024 - 2 ^ 970)%Z.

Definition overflows (q : Q) : bool :=
  Qle_bool (inject_Z float_overflow) (Qabs q).

Definition negative (q : Q) : bool := negb (Qle_bool 0 q).

Definition fround (q : Q) : pyfloat :=
  if overflows q then Infinite (negative q) else Finite q.

(** [math.isfinite(x)]: neither an infinity nor NaN. *)
Definition is_finite (x : pyfloat) : bool :=
  match x with
  | Finite q => negb (overflows q)
  | Infinite _ | NaN => false
  end.

(** [x * y] *)
Definition fmul (x y : pyfloat) : pyfloat :=
  match x, y with
  | NaN, _ | _, NaN => NaN
  | Finite a, Finite b => fround (a * b)
  | Infinite s, Finite b | Finite b, Infinite s =>
      if Qeq_bool b 0 then NaN else Infinite (xorb s (negative b))
  | Infinite s, Infinite t => Infinite (xorb s t)
  end.

(** [x + y] *)
Definition fadd (x y : pyfloat) : pyfloat :=
  match x, y with
  | NaN, _ | _, NaN => NaN
  | Finite a, Finite b => fround (a + b)
  | Infinite s, Finite _ | Finite _, Infinite s => Infinite s
  | Infinite s, Infinite t => if Bool.eqb s t then Infinite s else NaN
  end.

(** [x / y]: a division by zero raises, whatever [x] is; [None] stands for
    the [ZeroDivisionError]. *)
Definition fdiv (x y : pyfloat) : option pyfloat :=
  match y with
  | Finite b =>
      if Qeq_bool b 0 then None
      else match x with
           | Finite a => Some (fround (a / b))
           | Infinite s => Some (Infinite (xorb s (negative b)))
           | NaN => Some NaN
           end
  | Infinite _ =>
      match x with
      | Finite _ => Some (Finite 0)
      | Infinite _ | NaN => Some NaN
      end
  | NaN => Some NaN
  end.

End Py.

(** ** recipeservice/recipe_store.py *)

Module RecipeStore.

(** The protobuf messages [Ingredient] and [Recipe]. *)
Record Ingredient : Type := {
  name : string;
  quantity : pyfloat;
  unit : string
}.

Record Recipe : Type := {
  recipe_id : string;
  title : string;
  description : string;
  default_servings : Z;
  cook_time : string;
  ingredients : list Ingredient;
  instructions : list string
}.

(** [int(x)] for a finite [x]: truncation towards zero. *)
Definition int_of (x : Q) : Z :=
  if Qle_bool 0 x then Qfloor x else Qceiling x.

(** [round(x)] for a finite [x]: the nearest integer, a tie going to the
    even one. *)
Definition round (x : Q) : Z :=
  let f := Qfloor x in
  match ((x - inject_Z f) ?= (1 # 2))%Q with
  | Lt => f
  | Gt => (f + 1)%Z
  | Eq => if Z.even f then f else (f + 1)%Z
  end.

(** [f"{x:.1f}"]: one decimal place, rounded half to even, the sign kept
    even when the digits are all zero. *)
Definition format_1f (x : Q) : string :=
  let tenths := round (Qabs x * inject_Z 10)%Q in
  ((if Qle_bool 0 x then "" else "-")
     ++ Py.str_of_Z (tenths / 10) ++ "." ++ Py.str_of_Z (tenths mod 10))%string.

(** The text of one ingredient at a finite scaled quantity. *)
Definition finite_text (scaled_quantity : Q) (ingredient : Ingredient) : string :=
  if Py.mem (unit ingredient) ["pieces"; "cloves"; "packet"]
  then (Py.str_of_Z (round scaled_quantity) ++ " " ++ unit ingredient
          ++ " " ++ name ingredient)%string
  else if Qeq_bool scaled_quantity (inject_Z (int_of scaled_quantity))
  then (Py.str_of_Z (int_of scaled_quantity) ++ " " ++ unit ingredient
          ++ " " ++ name ingredient)%string
  else (format_1f scaled_quantity ++ " " ++ unit ingredient
          ++ " " ++ name ingredient)%string.

(** The body of the loop of [scale_ingredients]: the text of one ingredient
    at the scaled quantity.  Both branches first convert the quantity to an
    integer, with [round] or with [int], and the conversion raises on NaN
    and on an infinity. *)
Definition scaled_text (scaled_quantity : pyfloat) (ingredient : Ingredient)
  : result string :=
  match scaled_quantity with
  | Finite q => Ok (finite_text q ingredient)
  | Infinite _ =>
      Raise (OverflowError "cannot convert float infinity to integer")
  | NaN => Raise (ValueError "cannot convert float NaN to integer")
  end.

(** [target_servings / recipe.default_servings] after the substitution of the
    default for a nonpositive target; the division raises on a zero
    [default_servings]. *)
Definition scale_factor (recipe : Recipe) (target_servings : Z) : result Q :=
  let target_servings :=
    if (target_servings <=? 0)%Z then default_servings recipe
    else target_servings in
  if (default_servings recipe =? 0)%Z then Raise ZeroDivisionError
  else Ok (inject_Z target_servings / inject_Z (default_servings recipe))%Q.

(** [ingredient.quantity * scale_factor] *)
Definition scaled_quantity (scale_factor : Q) (ingredient : Ingredient)
  : pyfloat :=
  Py.fmul (quantity ingredient) (Finite scale_factor).

(** The loop over the ingredients: the first text that raises ends it. *)
Fixpoint scale_loop (scale_factor : Q) (ingredients : list Ingredient)
  : result (list string) :=
  match ingredients with
  | [] => Ok []
  | ingredient :: rest =>
      match scaled_text (scaled_quantity scale_factor ingredient) ingredient with
      | Raise e => Raise e
      | Ok scaled_text =>
          match scale_loop scale_factor rest with
          | Raise e => Raise e
          | Ok scaled_ingredients => Ok (scaled_text :: scaled_ingredients)
          end
      end
  end.

Definition scale_ingredients (recipe : Recipe) (target_servings : Z)
  : result (list string) :=
  match scale_factor recipe target_servings with
  | Raise e => Raise e
  | Ok scale_factor => scale_loop scale_factor (ingredients recipe)
  end.

(** The ingredient's text at its own quantity. *)
Definition unscaled_text (ingredient : Ingredient) : result string :=
  scaled_text (quantity ingredient) ingredient.

(** The quantity of the first ingredient of a recipe. *)
Definition quantity_of_first (recipe : Recipe) : option pyfloat :=
  match ingredients recipe with
  | ingredient :: _ => Some (quantity ingredient)
  | [] => None
  end.

(** The recipe of the worked example: one and a half cups of rice for four. *)
Definition jasmine_rice : Recipe := {|
  recipe_id := "rice_bowl";
  title := "Rice Bowl";
  description := "";
  default_servings := 4;
  cook_time := "20 minutes";
  ingredients :=
    [ {| name := "Jasmine Rice"; quantity := Finite (3 # 2); unit := "cups" |} ];
  instructions := []
|}.

(** The same recipe with a quantity that is not a number, as a data file
    with [NaN] for it gives. *)
Definition unmeasured_rice : Recipe := {|
  recipe_id := "rice_bowl";
  title := "Rice Bowl";
  description := "";
  default_servings := 4;
  cook_time := "20 minutes";
  ingredients := [ {| name := "Jasmine Rice"; quantity := NaN; unit := "cups" |} ];
  instructions := []
|}.

(** *** The rows of the data file

    An object of ["recipes"] in the data file and an object of its
    ["ingredients"]: a key may be missing, and reading a missing key with
    [row["key"]] raises a [KeyError], written here as an [Exception] with the
    quoted key for its text.  The quantity of a row is the float that
    [float(ing["quantity"])] gives: the data file may hold [NaN] or
    [Infinity] for it. *)
Record ingredient_row : Type := {
  row_name : option string;
  row_quantity : option pyfloat;
  row_unit : option string
}.

Record recipe_row : Type := {
  row_recipe_id : option string;
  row_title : option string;
  row_description : option string;
  row_default_servings : option Z;
  row_cook_time : option string;
  row_ingredients : option (list ingredient_row);
  row_instructions : option (list string)
}.

(** [row[key]] *)
Definition required {A : Type} (key : string) (x : option A) : result A :=
  match x with
  | Some v => Ok v
  | None => Raise (Exception ("'" ++ key ++ "'")%string)
  end.

(** [row.get(key, default)] *)
Definition optional {A : Type} (x : option A) (default : A) : A :=
  match x with Some v => v | None => default end.

Definition to_ingredient (ing : ingredient_row) : result Ingredient :=
  match required "name" (row_name ing) with
  | Raise e => Raise e
  | Ok n =>
      match required "quantity" (row_quantity ing) with
      | Raise e => Raise e
      | Ok q =>
          match required "unit" (row_unit ing) with
          | Raise e => Raise e
          | Ok u => Ok {| name := n; quantity := q; unit := u |}
          end
      end
  end.

(** The loop that converts the ingredients of a row. *)
Fixpoint to_ingredients (ings : list ingredient_row) : result (list Ingredient) :=
  match ings with
  | [] => Ok []
  | ing :: rest =>
      match to_ingredient ing with
      | Raise e => Raise e
      | Ok ingredient =>
          match to_ingredients rest with
          | Raise e => Raise e
          | Ok ingredients => Ok (ingredient :: ingredients)
          end
      end
  end.

(** The [Recipe] message built from a row, its ingredients first. *)
Definition to_recipe (recipe_data : recipe_row) : result Recipe :=
  match to_ingredients (optional (row_ingredients recipe_data) []) with
  | Raise e => Raise e
  | Ok ingredients =>
      match required "recipe_id" (row_recipe_id recipe_data) with
      | Raise e => Raise e
      | Ok rid =>
          match required "title" (row_title recipe_data) with
          | Raise e => Raise e
          | Ok t =>
              match required "default_servings" (row_default_servings recipe_data) with
              | Raise e => Raise e
              | Ok servings =>
                  Ok {| recipe_id := rid;
                        title := t;
                        description := optional (row_description recipe_data) "";
                        default_servings := servings;
                        cook_time := optional (row_cook_time recipe_data) "";
                        ingredients := ingredients;
                        instructions := optional (row_instructions recipe_data) [] |}
              end
          end
      end
  end.

(** What reading the data file gives: no file, a file that is not JSON, or
    an object with or without ["recipes"]. *)
Inductive data_file : Type :=
| FileNotFound
| InvalidJson
| Loaded (recipes : option (list recipe_row)).

Definition _load_recipes (file : data_file) : list recipe_row :=
  match file with
  | FileNotFound => []
  | InvalidJson => []
  | Loaded recipes => optional recipes []
  end.

(** [list_recipes]: every row converted, in order. *)
Fixpoint list_recipes (recipes : list recipe_row) : result (list Recipe) :=
  match recipes with
  | [] => Ok []
  | recipe_data :: rest =>
      match to_recipe recipe_data with
      | Raise e => Raise e
      | Ok recipe =>
          match list_recipes rest with
          | Raise e => Raise e
          | Ok others => Ok (recipe :: others)
          end
      end
  end.

(** [get_recipe]: the first row with the id, converted; [None] without one. *)
Fixpoint get_recipe (recipes : list recipe_row) (wanted : string)
  : result (option Recipe) :=
  match recipes with
  | [] => Ok None
  | recipe_data :: rest =>
      match required "recipe_id" (row_recipe_id recipe_data) with
      | Raise e => Raise e
      | Ok rid =>
          if String.eqb rid wanted then
            match to_recipe recipe_data with
            | Raise e => Raise e
            | Ok recipe => Ok (Some recipe)
            end
          else get_recipe rest wanted
      end
  end.

(** A store for the examples: a rice bowl for four, and a row without
    ingredients whose servings are zero. *)
Definition pantry : list recipe_row :=
  [ {| row_recipe_id := Some "rice_bowl"; row_title := Some "Rice Bowl";
       row_description := None; row_default_servings := Some 4%Z;
       row_cook_time := Some "20 minutes";
       row_ingredients :=
         Some [ {| row_name := Some "Jasmine Rice";
                   row_quantity := Some (Finite (3 # 2));
                   row_unit := Some "cups" |} ];
       row_instructions := None |};
    {| row_recipe_id := Some "empty_plate"; row_title := Some "Empty Plate";
       row_description := None; row_default_servings := Some 0%Z;
       row_cook_time := None; row_ingredients := None;
       row_instructions := None |} ].

End RecipeStore.

(** ** The fragment of Python's [re] used by the services

    A backtracking matcher in continuation-passing style: alternatives are
    tried left to right, repetition is greedy and gives characters back one at
    a time.  Repetition is over character classes, which is all the patterns of
    the services need; none of these patterns has an empty match. *)

Module Re.

Inductive regex : Type :=
| Eps                              (* the empty pattern *)
| Class (p : ascii -> bool)        (* one character of a class *)
| Seq (r1 r2 : regex)              (* r1r2 *)
| Alt (r1 r2 : regex)              (* r1|r2 *)
| Star (p : ascii -> bool)         (* c*, greedy *)
| Bol                              (* ^ *)
| Eol                              (* $ *)
| WordB                            (* \b *)
| Group (n : nat) (r : regex).     (* the n-th capturing group *)

(** The captured groups, the latest first. *)
Definition caps : Type := list (nat * string).

(** A continuation receives the last character consumed, the rest of the
    input and the groups captured so far. *)
Definition cont : Type := option ascii -> string -> caps -> option (string * caps).

Fixpoint star (p : ascii -> bool) (prev : option ascii) (s : string)
  (cs : caps) (k : cont) {struct s} : option (string * caps) :=
  match s with
  | String c s' =>
      if p c then
        match star p (Some c) s' cs k with
        | Some res => Some res
        | None => k prev s cs
        end
      else k prev s cs
  | EmptyString => k prev s cs
  end.

Definition word_before (prev : option ascii) : bool :=
  match prev with Some c => Py.is_word c | None => false end.

Definition word_after (s : string) : bool :=
  match s with String c _ => Py.is_word c | EmptyString => false end.

(** [$] matches at the end of the text and before a final newline. *)
Definition at_end (s : string) : bool :=
  match s with
  | EmptyString => true
  | String c EmptyString => Ascii.eqb c "010"
  | _ => false
  end.

Fixpoint run (r : regex) (prev : option ascii) (s : string) (cs : caps)
  (k : cont) {struct r} : option (string * caps) :=
  match r with
  | Eps => k prev s cs
  | Class p =>
      match s with
      | String c s' => if p c then k (Some c) s' cs else None
      | EmptyString => None
      end
  | Seq r1 r2 => run r1 prev s cs (fun prev' s' cs' => run r2 prev' s' cs' k)
  | Alt r1 r2 =>
      match run r1 prev s cs k with
      | Some res => Some res
      | None => run r2 prev s cs k
      end
  | Star p => star p prev s cs k
  | Bol => match prev with None => k prev s cs | Some _ => None end
  | Eol => if at_end s then k prev s cs else None
  | WordB => if xorb (word_before prev) (word_after s) then k prev s cs else None
  | Group n r' =>
      run r' prev s cs
        (fun prev' s' cs' =>
           k prev' s' ((n, substring 0 (String.length s - String.length s') s) :: cs'))
  end.

Definition accept : cont := fun _ s cs => Some (s, cs).

(** The last character consumed once [s] is read after [prev]. *)
Fixpoint after (prev : option ascii) (s : string) : option ascii :=
  match s with
  | EmptyString => prev
  | String c s' => after (Some c) s'
  end.

(** A match of [r] at the head of [s], [prev] being the character before:
    the text after the match and the groups. *)
Definition match_at (r : regex) (prev : option ascii) (s : string)
  : option (string * caps) :=
  run r prev s [] accept.

(** [m.group(n)] *)
Fixpoint group (n : nat) (cs : caps) : option string :=
  match cs with
  | [] => None
  | (m, g) :: cs' => if Nat.eqb n m then Some g else group n cs'
  end.

(** [re.match(r, s)] *)
Definition re_match (r : regex) (s : string) : option caps :=
  match match_at r None s with
  | Some (_, cs) => Some cs
  | None => None
  end.

(** [re.search(r, s)]: the match at the leftmost position that has one. *)
Fixpoint search_from (r : regex) (prev : option ascii) (s : string)
  : option caps :=
  match match_at r prev s with
  | Some (_, cs) => Some cs
  | None =>
      match s with
      | String c s' => search_from r (Some c) s'
      | EmptyString => None
      end
  end.

Definition search (r : regex) (s : string) : option caps := search_from r None s.

(** [re.sub(r, '', s)]: every match is deleted, scanning left to right;
    [skip] counts the characters of the current match still to drop. *)
Fixpoint sub_from (r : regex) (skip : nat) (prev : option ascii) (s : string)
  : string :=
  match s with
  | EmptyString => EmptyString
  | String c s' =>
      match skip with
      | S n => sub_from r n (Some c) s'
      | O =>
          match match_at r prev s with
          | Some (rest, _) =>
              match String.length s - String.length rest with
              | S n => sub_from r n (Some c) s'
              | O => String c (sub_from r O (Some c) s')
              end
          | None => String c (sub_from r O (Some c) s')
          end
      end
  end.

Definition sub (r : regex) (s : string) : string := sub_from r O None s.

(** [re.findall(r, s)] for a pattern without groups: the texts of the
    matches, scanning left to right; [skip] counts the characters of the
    current match still to pass. *)
Fixpoint findall_from (r : regex) (skip : nat) (prev : option ascii)
  (s : string) : list string :=
  match s with
  | EmptyString => []
  | String c s' =>
      match skip with
      | S n => findall_from r n (Some c) s'
      | O =>
          match match_at r prev s with
          | Some (rest, _) =>
              match String.length s - String.length rest with
              | S n => substring 0 (S n) s :: findall_from r n (Some c) s'
              | O => findall_from r O (Some c) s'
              end
          | None => findall_from r O (Some c) s'
          end
      end
  end.

Definition findall (r : regex) (s : string) : list string :=
  findall_from r O None s.

(** *** Pattern syntax *)

Definition digit : regex := Class Py.is_digit.                 (* \d *)
Definition space : regex := Class Py.is_space.                 (* \s *)
Definition dot : regex := Class (fun c => negb (Ascii.eqb c "010")).  (* . *)
Definition chr (c : ascii) : regex := Class (Ascii.eqb c).
(** A literal character under [re.IGNORECASE]. *)
Definition chr_i (c : ascii) : regex :=
  Class (fun x => Ascii.eqb (Py.lower_char x) (Py.lower_char c)).

Definition plus (p : ascii -> bool) : regex := Seq (Class p) (Star p).   (* c+ *)
Definition opt (r : regex) : regex := Alt r Eps.                         (* r? *)

Fixpoint seq (rs : list regex) : regex :=
  match rs with
  | [] => Eps
  | [r] => r
  | r :: rs' => Seq r (seq rs')
  end.

Fixpoint alt (rs : list regex) : regex :=
  match rs with
  | [] => Class (fun _ => false)
  | [r] => r
  | r :: rs' => Alt r (alt rs')
  end.

(** A literal word under [re.IGNORECASE]. *)
Fixpoint lit_i (s : string) : regex :=
  match s with
  | EmptyString => Eps
  | String c EmptyString => chr_i c
  | String c s' => Seq (chr_i c) (lit_i s')
  end.

(** [words?]: a literal word with an optional final s. *)
Definition lit_s (s : string) : regex := Seq (lit_i s) (opt (chr_i "s")).

(** The 256 characters. *)
Definition all_ascii : list ascii := map ascii_of_nat (List.seq 0 256).

(** Every match of [r] reads the character [c]: a sufficient test. *)
Fixpoint needs (c : ascii) (r : regex) : bool :=
  match r with
  | Class p => forallb (fun x => implb (p x) (Ascii.eqb x c)) all_ascii
  | Seq r1 r2 => needs c r1 || needs c r2
  | Alt r1 r2 => needs c r1 && needs c r2
  | Group _ r' => needs c r'
  | Eps | Star _ | Bol | Eol | WordB => false
  end.

(** Every match of [r] reads a character of the class [q]: a sufficient
    test. *)
Fixpoint needs_in (q : ascii -> bool) (r : regex) : bool :=
  match r with
  | Class p => forallb (fun x => implb (p x) (q x)) all_ascii
  | Seq r1 r2 => needs_in q r1 || needs_in q r2
  | Alt r1 r2 => needs_in q r1 && needs_in q r2
  | Group _ r' => needs_in q r'
  | Eps | Star _ | Bol | Eol | WordB => false
  end.

End Re.

(** ** ingredientmatcheragent/agent_server.py *)

Module IngredientMatcher.
Import Re.

(** *** [_parse_ingredients] *)

(** The unit vocabulary of the quantity prefix, in the order of the
    alternation. *)
Definition units : regex :=
  alt [ lit_s "cup"; lit_s "tablespoon"; lit_i "tbsp"; lit_s "teaspoon";
        lit_i "tsp"; lit_s "pound"; lit_i "pound"; lit_s "lb"; lit_i "lb";
        lit_s "ounce"; lit_i "ounce"; lit_i "oz"; lit_s "piece"; lit_i "piece";
        lit_s "clove"; lit_i "clove"; lit_s "slice"; lit_i "slice";
        lit_s "can"; lit_i "can"; lit_s "package"; lit_i "package";
        lit_i "pkg" ].

(** The words the alternation accepts, in lower case. *)
Definition unit_words : list string :=
  [ "cup"; "cups"; "tablespoon"; "tablespoons"; "tbsp"; "teaspoon";
    "teaspoons"; "tsp"; "pound"; "pounds"; "lb"; "lbs"; "ounce"; "ounces";
    "oz"; "piece"; "pieces"; "clove"; "cloves"; "slice"; "slices"; "can";
    "cans"; "package"; "packages"; "pkg" ].

(** [^\d+(?:\.\d+)?\s+(?:cups?|...|pkg)\s+] *)
Definition quantity_prefix : regex :=
  seq [ Bol; plus Py.is_digit; opt (Seq (chr ".") (plus Py.is_digit));
        plus Py.is_space; units; plus Py.is_space ].

(** The part of [quantity_prefix] after the integer digits. *)
Definition quantity_tail : regex :=
  seq [ opt (Seq (chr ".") (plus Py.is_digit));
        plus Py.is_space; units; plus Py.is_space ].

(** The five [modifiers] of [clean_ingredient_name], in order. *)
Definition modifiers : list regex :=
  [ seq [ WordB;
          alt [ lit_i "fresh"; lit_i "grated"; lit_i "chopped"; lit_i "diced";
                lit_i "sliced"; lit_i "minced"; lit_i "crushed"; lit_i "ground";
                lit_i "whole" ];
          WordB ];
    seq [ WordB;
          alt [ lit_i "thinly"; lit_i "finely"; lit_i "coarsely"; lit_i "roughly" ];
          plus Py.is_space;
          alt [ lit_i "sliced"; lit_i "chopped"; lit_i "diced"; lit_i "minced" ];
          WordB ];
    seq [ WordB;
          seq [ lit_i "cut"; plus Py.is_space; lit_i "into"; plus Py.is_space;
                alt [ lit_i "strips"; lit_i "pieces"; lit_i "chunks" ] ];
          WordB ];
    seq [ WordB;
          alt [ lit_i "mixed"; lit_i "large"; lit_i "small"; lit_i "medium" ];
          WordB ];
    seq [ plus Py.is_space;
          alt [ seq [ lit_i "cut"; plus Py.is_space; lit_i "into";
                      plus Py.is_space; lit_i "strips" ];
                seq [ lit_i "thinly"; plus Py.is_space; lit_i "sliced" ];
                seq [ lit_i "finely"; plus Py.is_space; lit_i "chopped" ] ];
          WordB ] ].

(** [clean_ingredient_name]: the modifiers are deleted one pattern after the
    other, then the whitespace is normalised. *)
Definition clean_ingredient_name (ingredient : string) : string :=
  let cleaned := fold_left (fun cleaned modifier_pattern =>
                              Re.sub modifier_pattern cleaned)
                           modifiers ingredient in
  let cleaned := Py.join " " (Py.split_ws cleaned) in
  Py.strip cleaned.
(** The synonym table, in the order of the dictionary literal. *)
Definition ingredient_mapping : list (string * string) :=
  [ ("chicken breast", "Chicken Breast");
    ("chicken", "Chicken Breast");
    ("ground beef", "Ground Beef");
    ("beef", "Ground Beef");
    ("salmon fillets", "Salmon Fillets");
    ("salmon", "Salmon Fillets");
    ("garlic", "Garlic");
    ("ginger", "Ginger");
    ("bell pepper", "Bell Peppers");
    ("bell peppers", "Bell Peppers");
    ("peppers", "Bell Peppers");
    ("yellow onion", "Yellow Onion");
    ("onion", "Yellow Onion");
    ("onions", "Yellow Onion");
    ("roma tomatoes", "Roma Tomatoes");
    ("tomatoes", "Roma Tomatoes");
    ("tomato", "Roma Tomatoes");
    ("lettuce", "Lettuce");
    ("carrots", "Carrots");
    ("carrot", "Carrots");
    ("celery", "Celery");
    ("cucumber", "Cucumber");
    ("mixed greens", "Mixed Greens");
    ("avocado", "Avocado");
    ("cheddar cheese", "Cheddar Cheese");
    ("cheese", "Cheddar Cheese");
    ("whole milk", "Whole Milk");
    ("milk", "Whole Milk");
    ("large eggs", "Large Eggs");
    ("eggs", "Large Eggs");
    ("flour tortillas", "Flour Tortillas");
    ("tortillas", "Flour Tortillas");
    ("whole wheat bread", "Whole Wheat Bread");
    ("bread", "Whole Wheat Bread");
    ("jasmine rice", "Jasmine Rice");
    ("rice", "Jasmine Rice");
    ("egg noodles", "Egg Noodles");
    ("noodles", "Egg Noodles");
    ("olive oil", "Olive Oil");
    ("sesame oil", "Sesame Oil");
    ("vegetable oil", "Vegetable Oil");
    ("soy sauce", "Soy Sauce");
    ("chicken broth", "Chicken Broth");
    ("vegetable broth", "Vegetable Broth");
    ("broth", "Chicken Broth");
    ("sea salt", "Sea Salt");
    ("salt", "Sea Salt");
    ("fresh thyme", "Fresh Thyme");
    ("thyme", "Fresh Thyme");
    ("fresh dill", "Fresh Dill");
    ("dill", "Fresh Dill");
    ("taco seasoning", "Taco Seasoning");
    ("taco shells", "Taco Shells");
    ("bananas", "Bananas");
    ("banana", "Bananas");
    ("lemon", "Lemon");
    ("lemons", "Lemon") ].

(** [ingredient_mapping[key]] *)
Fixpoint mapping_get (key : string) (table : list (string * string))
  : option string :=
  match table with
  | [] => None
  | (search_term, product_name) :: table' =>
      if String.eqb key search_term then Some product_name
      else mapping_get key table'
  end.

(** The first entry of the table whose search term occurs in the name. *)
Fixpoint mapping_partial (normalized_ingredient : string)
  (table : list (string * string)) : option string :=
  match table with
  | [] => None
  | (search_term, product_name) :: table' =>
      if Py.contains search_term normalized_ingredient then Some product_name
      else mapping_partial normalized_ingredient table'
  end.

(** The name under which a cleaned ingredient is recorded: its catalog name
    by exact lookup, else by the first partial hit, else itself. *)
Definition mapped_or_clean (clean_ingredient : string) : string :=
  let normalized_ingredient := Py.lower clean_ingredient in
  let mapped_ingredient :=
    match mapping_get normalized_ingredient ingredient_mapping with
    | Some product_name => Some product_name
    | None => mapping_partial normalized_ingredient ingredient_mapping
    end in
  match mapped_ingredient with
  | Some product_name => product_name
  | None => clean_ingredient
  end.

(** The removal of the quantity prefix: [re.sub] of [quantity_prefix]. *)
Definition strip_quantity (raw_ingredient : string) : string :=
  Re.sub quantity_prefix raw_ingredient.

(** The name a raw item is recorded under, if its cleaned form is not
    empty. *)
Definition recorded_name (raw_ingredient : string) : option string :=
  let clean_ingredient := clean_ingredient_name (strip_quantity raw_ingredient) in
  match clean_ingredient with
  | EmptyString => None
  | _ => Some (mapped_or_clean clean_ingredient)
  end.

(** One turn of the loop over [raw_ingredients]: a name not yet found is
    appended. *)
Definition add_ingredient (found_ingredients : list string)
  (raw_ingredient : string) : list string :=
  match recorded_name raw_ingredient with
  | None => found_ingredients
  | Some recorded =>
      if Py.mem recorded found_ingredients then found_ingredients
      else found_ingredients ++ [recorded]
  end.

(** [cart \(serves \d+\):\s*(.+)] *)
Definition cart_pattern : regex :=
  seq [ lit_i "cart (serves "; plus Py.is_digit; lit_i "):"; Star Py.is_space;
        Group 1 (plus (fun c => negb (Ascii.eqb c "010"))) ].

(** [check ingredient availability:\s*(.+)] *)
Definition availability_pattern : regex :=
  seq [ lit_i "check ingredient availability:"; Star Py.is_space;
        Group 1 (plus (fun c => negb (Ascii.eqb c "010"))) ].

(** The comma-separated items of a text, each stripped. *)
Definition raw_items (ingredient_text : string) : list string :=
  map Py.strip (Py.split_on "," ingredient_text).

Definition _parse_ingredients (text : string) : list string :=
  let found :=
    match Re.search cart_pattern text with
    | Some m => Some m
    | None => Re.search availability_pattern text
    end in
  match found with
  | Some m =>
      match Re.group 1 m with
      | Some ingredient_text =>
          fold_left add_ingredient (raw_items ingredient_text) []
      | None => []
      end
  | None =>
      if Py.contains "," text
      then fold_left add_ingredient (raw_items text) []
      else []
  end.

(** *** [_search_products] and [_mock_search_products] *)

(** A product dictionary of the reply; the mock entries have no
    ["categories"] key. *)
Record product : Type := {
  id : string;
  name : string;
  description : string;
  price : string;
  categories : option (list string)
}.

(** A [Product] message of the catalog, its price being a [Money] message of
    [units] and [nanos]. *)
Record catalog_product : Type := {
  cp_id : string;
  cp_name : string;
  cp_description : string;
  cp_units : Z;
  cp_nanos : Z;
  cp_categories : list string
}.

(** [f"{n:02d}"] *)
Definition format_02d (n : Z) : string :=
  if ((0 <=? n) && (n <? 10))%Z then ("0" ++ Py.str_of_Z n)%string
  else Py.str_of_Z n.

(** [f"${units}.{nanos//10000000:02d}"] *)
Definition price_text (units nanos : Z) : string :=
  ("$" ++ Py.str_of_Z units ++ "." ++ format_02d (nanos / 10000000))%string.

Definition product_of_catalog (p : catalog_product) : product := {|
  id := cp_id p;
  name := cp_name p;
  description := cp_description p;
  price := price_text (cp_units p) (cp_nanos p);
  categories := Some (cp_categories p)
|}.

Definition mock_product (i n d p : string) : product :=
  {| id := i; name := n; description := d; price := p; categories := None |}.

Definition mock_products : list (string * list product) :=
  [ ("Chicken Breast",
     [mock_product "CHICKEN001" "Chicken Breast"
        "Fresh boneless, skinless chicken breast" "$8.99"]);
    ("Ground Beef",
     [mock_product "BEEF001" "Ground Beef"
        "Fresh lean ground beef, 80/20 blend" "$6.99"]);
    ("Garlic",
     [mock_product "GARLIC001" "Garlic" "Fresh garlic bulbs" "$1.49"]);
    ("Bell Peppers",
     [mock_product "BELLPEPPER001" "Bell Peppers"
        "Fresh colorful bell peppers" "$2.49"]);
    ("Yellow Onion",
     [mock_product "ONION001" "Yellow Onion" "Fresh yellow onions" "$1.99"]);
    ("Roma Tomatoes",
     [mock_product "TOMATO001" "Roma Tomatoes" "Fresh Roma tomatoes" "$3.49"]);
    ("Salmon Fillets",
     [mock_product "SALMON001" "Salmon Fillets"
        "Fresh Atlantic salmon fillets" "$14.99"]);
    ("Mixed Greens",
     [mock_product "MIXEDGREENS001" "Mixed Greens"
        "Fresh mixed salad greens" "$4.49"]);
    ("Avocado",
     [mock_product "AVOCADO001" "Avocado" "Fresh ripe avocados" "$3.99"]) ].

Fixpoint mock_get (ingredient : string) (table : list (string * list product))
  : option (list product) :=
  match table with
  | [] => None
  | (key, products) :: table' =>
      if String.eqb ingredient key then Some products
      else mock_get ingredient table'
  end.

Fixpoint mock_partial (ingredient : string)
  (table : list (string * list product)) : option (list product) :=
  match table with
  | [] => None
  | (key, products) :: table' =>
      if Py.contains (Py.lower key) (Py.lower ingredient)
         || Py.contains (Py.lower ingredient) (Py.lower key)
      then Some products
      else mock_partial ingredient table'
  end.

Definition _mock_search_products (ingredient : string) : list product :=
  match mock_get ingredient mock_products with
  | Some products => products
  | None =>
      match mock_partial ingredient mock_products with
      | Some products => products
      | None => []
      end
  end.

Section Matching.

(** The product catalog: the outcome of [stub.SearchProducts] for a query,
    either the results or a raised error (the service cannot be reached, the
    call fails). *)
Variable SearchProducts : string -> result (list catalog_product).

(** A failing call falls back to the mock table. *)
Definition _search_products (ingredient : string) : list product :=
  match SearchProducts ingredient with
  | Ok results => map product_of_catalog results
  | Raise _ => _mock_search_products ingredient
  end.

(** One turn of the loop of [match_ingredients_from_text] over the state
    [(matched_products, unmatched_ingredients)]. *)
Definition match_step (acc : list product * list string) (ingredient : string)
  : list product * list string :=
  let '(matched_products, unmatched_ingredients) := acc in
  match _search_products ingredient with
  | [] => (matched_products, unmatched_ingredients ++ [ingredient])
  | products => (matched_products ++ products, unmatched_ingredients)
  end.

(** The ingredients the search has no product for. *)
Definition found_nothing (ingredient : string) : bool :=
  match _search_products ingredient with [] => true | _ => false end.

Definition match_loop (ingredients : list string) : list product * list string :=
  fold_left match_step ingredients ([], []).

(** The reply of the agent, before [json.dumps]. *)
Inductive match_reply : Type :=
| NoIngredients (message : string)
| Matched (matched_ingredients unmatched_ingredients product_ids : list string)
          (products : list product) (message : string).

Definition match_ingredients (ingredients : list string) : match_reply :=
  let '(matched_products, unmatched_ingredients) := match_loop ingredients in
  Matched
    (List.filter (fun ingredient => negb (Py.mem ingredient unmatched_ingredients))
            ingredients)
    unmatched_ingredients
    (map id matched_products)
    matched_products
    ("Successfully matched "
       ++ Py.str_of_nat (List.length ingredients - List.length unmatched_ingredients)
       ++ " of " ++ Py.str_of_nat (List.length ingredients)
       ++ " ingredients to " ++ Py.str_of_nat (List.length matched_products)
       ++ " products")%string.

Definition match_ingredients_from_text (text : string) : match_reply :=
  match _parse_ingredients text with
  | [] => NoIngredients text
  | ingredients => match_ingredients ingredients
  end.

End Matching.

(** The catalog names that the cleaning leaves recognisable: the names of
    the synonym table but "Mixed Greens", whose first word is a modifier. *)
Definition stable_names : list string :=
  [ "Chicken Breast"; "Ground Beef"; "Salmon Fillets"; "Garlic"; "Ginger";
    "Bell Peppers"; "Yellow Onion"; "Roma Tomatoes"; "Lettuce"; "Carrots";
    "Celery"; "Cucumber"; "Avocado"; "Cheddar Cheese"; "Whole Milk";
    "Large Eggs"; "Flour Tortillas"; "Whole Wheat Bread"; "Jasmine Rice";
    "Egg Noodles"; "Olive Oil"; "Sesame Oil"; "Vegetable Oil"; "Soy Sauce";
    "Chicken Broth"; "Vegetable Broth"; "Sea Salt"; "Fresh Thyme";
    "Fresh Dill"; "Taco Seasoning"; "Taco Shells"; "Bananas"; "Lemon" ].

(** What makes a name come back from a second parse, in a list joined with
    a comma and the padding [pad]. *)
Definition comes_back (pad x : string) : bool :=
  negb (Py.occurs "," x) && negb (Py.occurs ":" x)
  && match recorded_name (Py.strip x) with
     | Some y => String.eqb y x
     | None => false
     end
  && match recorded_name (Py.strip (pad ++ x)) with
     | Some y => String.eqb y x
     | None => false
     end.

(** Two catalogs for the examples: one that cannot be reached, one that
    knows no product. *)
Definition catalog_down (query : string) : result (list catalog_product) :=
  Raise (Exception "failed to connect to all addresses").

Definition catalog_empty (query : string) : result (list catalog_product) :=
  Ok [].

End IngredientMatcher.

(** ** recipeservice/multi_tool_agent/agent.py *)

Module Orchestrator.

(** The dictionary [call_a2a_agent] returns: a success with the text of the
    reply, or an error. *)
Inductive a2a_result : Type :=
| A2ASuccess (response_text : string)
| A2AError (error : string).

(** An entry of ["products"] in the matcher's reply; both keys are read with
    a default. *)
Record product_detail : Type := {
  pd_id : option string;
  pd_name : option string
}.

(** The matcher's reply once decoded; a missing key reads as the empty
    list. *)
Record ingredient_response : Type := {
  product_ids : list string;
  products : list product_detail;
  matched_ingredients : list string;
  unmatched_ingredients : list string
}.

(** The values of the result dictionary. *)
Inductive value : Type :=
| VStr (s : string)
| VList (l : list string)
| VProducts (l : list product_detail).

(** A dictionary, its keys in insertion order. *)
Definition dict : Type := list (string * value).

Fixpoint dict_get (key : string) (d : dict) : option value :=
  match d with
  | [] => None
  | (k, v) :: d' => if String.eqb key k then Some v else dict_get key d'
  end.

Definition keys (d : dict) : list string := map fst d.

Definition matcher_url : string := "http://ingredientmatcheragent:8080".
Definition adder_url : string := "http://cartadderagent:8080".

(** [[i.strip() for i in recipe_text.split(",")]] *)
Definition extract_ingredients (recipe_text : string) : list string :=
  map Py.strip (Py.split_on "," recipe_text).

(** The [except Exception] branch of [process_recipe]. *)
Definition fallback_result (recipe_text : string) : dict :=
  let ingredients := extract_ingredients recipe_text in
  [ ("status", VStr "success");
    ("message",
     VStr ("Recipe processed successfully (fallback). Extracted "
             ++ Py.str_of_nat (List.length ingredients) ++ " ingredients: "
             ++ Py.join ", " ingredients)%string);
    ("ingredients", VList ingredients) ].

Definition ingredients_message (ingredients : list string) : string :=
  ("Match these ingredients to product IDs: " ++ Py.join ", " ingredients)%string.

Definition cart_message (user_id : string) (matched_products : list string)
  : string :=
  ("Add these products to cart for user " ++ user_id ++ ": "
     ++ Py.join ", " matched_products)%string.

(** The message of [get_cart_contents]. *)
Definition contents_message (user_id : string) : string :=
  ("Get cart contents for user: " ++ user_id)%string.

(** [f"{product_id} ({product_name})"] with the defaults of the two reads. *)
Definition matching_detail (product : product_detail) : string :=
  (match pd_id product with Some i => i | None => "unknown" end
     ++ " ("
     ++ match pd_name product with Some n => n | None => "Unknown Product" end
     ++ ")")%string.

Definition empty_response : ingredient_response :=
  {| product_ids := []; products := []; matched_ingredients := [];
     unmatched_ingredients := [] |}.

(** [not recipe_text.lower().startswith("check ingredient availability")] *)
Definition should_add_to_cart (recipe_text : string) : bool :=
  negb (Py.startswith "check ingredient availability" (Py.lower recipe_text)).

Section Process.

(** The two remote agents: the outcome of [call_a2a_agent(agent_url, message_text)]. *)
Variable call_a2a_agent : string -> string -> a2a_result.

(** [json.loads] on the matcher's reply, [None] for a [JSONDecodeError]. *)
Variable json_loads : string -> option ingredient_response.

(** The inner [try]: the reply is decoded, an empty or undecodable reply
    leaving every list empty. *)
Definition parse_match_response (response_text : string) : ingredient_response :=
  match response_text with
  | EmptyString => empty_response
  | _ =>
      match json_loads response_text with
      | Some ingredient_response => ingredient_response
      | None => empty_response
      end
  end.

Definition final_result (ingredients : list string) (r : ingredient_response)
  : dict :=
  let matching_details := map matching_detail (products r) in
  let detailed_message :=
    match matching_details with
    | [] =>
        ("Recipe processed via A2A protocol. No products matched from ingredients: "
           ++ Py.join ", " ingredients)%string
    | _ =>
        ("Recipe processed via A2A protocol. "
           ++ ("Matched products: " ++ Py.join ", " matching_details) ++ ". "
           ++ ("From ingredients: " ++ Py.join ", " (matched_ingredients r)))%string
    end in
  [ ("status", VStr "success");
    ("message", VStr detailed_message);
    ("matched_products", VList (product_ids r));
    ("ingredients", VList ingredients);
    ("product_details", VProducts (products r));
    ("matched_ingredients", VList (matched_ingredients r));
    ("unmatched_ingredients", VList (unmatched_ingredients r)) ].

Definition process_recipe (recipe_text user_id : string) : dict :=
  let ingredients := extract_ingredients recipe_text in
  match call_a2a_agent matcher_url (ingredients_message ingredients) with
  | A2AError _ => fallback_result recipe_text
  | A2ASuccess response_text =>
      let r := parse_match_response response_text in
      if should_add_to_cart recipe_text then
        match call_a2a_agent adder_url (cart_message user_id (product_ids r)) with
        | A2AError _ => fallback_result recipe_text
        | A2ASuccess _ => final_result ingredients r
        end
      else final_result ingredients r
  end.

(** [get_cart_contents]: the cart adder is asked, and whatever it answers
    the list of items is left empty. *)
Definition get_cart_contents (user_id : string) : dict :=
  match call_a2a_agent adder_url (contents_message user_id) with
  | A2AError _ =>
      [ ("status", VStr "success");
        ("message", VStr ("Cart contents for user " ++ user_id ++ " (fallback)")%string);
        ("cart_items", VList []) ]
  | A2ASuccess _ =>
      [ ("status", VStr "success");
        ("message",
         VStr ("Cart contents retrieved for user " ++ user_id
                 ++ " via A2A protocol")%string);
        ("cart_items", VList []) ]
  end.

End Process.

(** Two worlds for the examples: the matcher cannot be reached; the matcher
    answers with one product and the cart adder cannot be reached. *)
Definition matcher_down (agent_url message_text : string) : a2a_result :=
  A2AError "connection refused".

Definition adder_down (agent_url message_text : string) : a2a_result :=
  if String.eqb agent_url matcher_url then A2ASuccess "reply"
  else A2AError "connection refused".

Definition one_garlic (response_text : string) : option ingredient_response :=
  Some {| product_ids := ["GARLIC001"];
          products := [ {| pd_id := Some "GARLIC001"; pd_name := Some "Garlic" |} ];
          matched_ingredients := ["Garlic"];
          unmatched_ingredients := ["quinoa"] |}.

End Orchestrator.

(** ** cartadderagent/agent_server.py *)

Module CartAdder.

(** [\b[A-Z]+\d+\b] *)
Definition product_pattern : Re.regex :=
  Re.seq [ Re.WordB; Re.plus Py.is_upper; Re.plus Py.is_digit; Re.WordB ].

(** The class [[:\s]] and the class [[a-zA-Z0-9\-]]. *)
Definition is_colon_or_space (c : ascii) : bool :=
  Ascii.eqb c ":" || Py.is_space c.

Definition is_user_char (c : ascii) : bool :=
  Py.is_alpha c || Py.is_digit c || Ascii.eqb c "-".

(** [user[:\s]+([a-zA-Z0-9\-]+)] under [re.IGNORECASE]. *)
Definition user_pattern : Re.regex :=
  Re.seq [ Re.lit_i "user"; Re.plus is_colon_or_space;
           Re.Group 1 (Re.plus is_user_char) ].

(** What [_parse_product_data] returns. *)
Record product_data : Type := {
  product_ids : list string;
  user_id : string;
  source : string
}.

(** What decoding a text that starts with a brace comes to: the decoding or
    the reads of the value raise; the object has ["product_ids"], with or
    without ["user_id"]; or ["product_ids"] is not in the value. *)
Inductive decoded : Type :=
| DecodeError
| WithProductIds (ids : list string) (user : option string)
| WithoutProductIds.

(** An item of the cart, as [GetCart] lists it. *)
Record cart_item : Type := {
  product_id : string;
  quantity : Z
}.

(** The reply of the agent, before [json.dumps]. *)
Inductive cart_reply : Type :=
| NoProductIds (message : string)
| CartResult (user : string) (added_items : list string)
             (total_cart_items : nat) (cart_contents : list cart_item)
             (message : string).

Section Cart.

(** [json.loads] and the reads of its value. *)
Variable json_loads : string -> decoded.

(** [list(set(l))]: the distinct elements of [l], in the order of the set. *)
Variable list_of_set : list string -> list string.

(** The cart service: the outcome of the n-th [AddItem] call of a request,
    for a user and a product, and the outcome of [GetCart] for a user. *)
Variable AddItem : nat -> string -> string -> result unit.
Variable GetCart : string -> result (list cart_item).

(** The fallback of [_parse_product_data]: the ids and the user are read off
    the text. *)
Definition parse_text (text : string) : product_data :=
  let product_ids := Re.findall product_pattern text in
  let user_id :=
    match Re.search user_pattern text with
    | Some user_match =>
        match Re.group 1 user_match with
        | Some u => u
        | None => "default_user"
        end
    | None => "default_user"
    end in
  {| product_ids := list_of_set product_ids;
     user_id := user_id;
     source := "text_parsing" |}.

Definition _parse_product_data (text : string) : product_data :=
  if Py.startswith "{" (Py.strip text) then
    match json_loads text with
    | DecodeError =>
        {| product_ids := []; user_id := "default_user"; source := "error" |}
    | WithProductIds ids user =>
        {| product_ids := ids;
           user_id := match user with Some u => u | None => "default_user" end;
           source := "ingredient_matcher" |}
    | WithoutProductIds => parse_text text
    end
  else parse_text text.

(** A failing call is logged and answered with [False]. *)
Definition _add_item_to_cart (call : nat) (user product : string) : bool :=
  match AddItem call user product with
  | Ok _ => true
  | Raise _ => false
  end.

(** A failing call is answered with the empty list. *)
Definition _get_cart_contents (user : string) : list cart_item :=
  match GetCart user with
  | Ok items => items
  | Raise _ => []
  end.

(** The loop over the product ids, [call] numbering the calls. *)
Fixpoint add_items (call : nat) (user : string) (ids : list string)
  : list string :=
  match ids with
  | [] => []
  | product :: rest =>
      if _add_item_to_cart call user product
      then product :: add_items (S call) user rest
      else add_items (S call) user rest
  end.

Definition process_cart_request (text : string) : cart_reply :=
  let data := _parse_product_data text in
  match product_ids data with
  | [] => NoProductIds text
  | ids =>
      let user := user_id data in
      let added_items := add_items 0 user ids in
      let cart_contents := _get_cart_contents user in
      CartResult user added_items (List.length cart_contents)
        (firstn 5 cart_contents)
        ("Successfully added " ++ Py.str_of_nat (List.length added_items)
           ++ " items to cart for user " ++ user)%string
  end.

End Cart.

(** A cart service for the examples: it refuses the product ["BEEF001"] and
    holds seven items. *)
Definition picky_add (call : nat) (user product : string) : result unit :=
  if String.eqb product "BEEF001" then Raise (Exception "unavailable")
  else Ok tt.

Definition seven_items (user : string) : result (list cart_item) :=
  Ok (map (fun n => {| product_id := Py.str_of_nat n; quantity := 1 |})
          (List.seq 1 7)).

Definition from_matcher (text : string) : decoded :=
  WithProductIds ["GARLIC001"; "BEEF001"; "ONION001"] (Some "u1").

Definition distinct (l : list string) : list string := nodup string_dec l.

End CartAdder.

(** ** recipeservice/multi_tool_agent/recipe_generator.py *)

Module RecipeGenerator.

(** An entry of ["ingredients"] and a recipe dictionary.  [image_data] is
    the empty string on a fresh recipe, then the path of the image or
    [None]. *)
Record ingredient : Type := {
  name : string;
  quantity : pyfloat;
  unit : string
}.

Record recipe : Type := {
  recipe_id : string;
  title : string;
  description : string;
  default_servings : Z;
  cook_time : string;
  image_data : option string;
  image_url : string;
  ingredients : list ingredient;
  instructions : list string
}.

(** An element of the array the agent replies with: an object whose keys are
    all optional, or a value on which [_format_recipe] raises. *)
Inductive draft : Type :=
| DraftObject (d_name d_description d_prep_time : option string)
              (d_ingredients d_instructions : option (list string))
| DraftOther.

(** What [json.loads] makes of the cleaned reply: an array, a string (sliced
    and iterated character by character), or a value that cannot be sliced. *)
Inductive json_top : Type :=
| TopArray (recipes_data : list draft)
| TopString (s : string)
| TopOther.

(** The run of the agent under [asyncio.wait_for]: it times out, it raises,
    or the events end with a final text, if any. *)
Inductive adk_outcome : Type :=
| AdkTimeout
| AdkRaises
| AdkFinal (final_response_text : option string).

(** The positional arguments handed to a thread. *)
Inductive pyval : Type :=
| PRecipes (recipes : list recipe)
| PItems (cart_items : list string)
| PStr (s : string).

(** The generator: its two flags and its agent, the recipe cache at the
    instant of the call (expiry and eviction are left out), the carts the
    agent was run on, and the argument tuples of the threads started on
    [generate_images_for_recipes]. *)
Record state : Type := {
  adk_available : bool;
  recipe_agent : bool;
  genai_available : bool;
  cache : gmap string (list recipe);
  adk_runs : list (list string);
  threads : list (list pyval)
}.

Definition set_cache (st : state) (c : gmap string (list recipe)) : state :=
  {| adk_available := adk_available st; recipe_agent := recipe_agent st;
     genai_available := genai_available st; cache := c;
     adk_runs := adk_runs st; threads := threads st |}.

Definition log_adk_run (st : state) (cart_items : list string) : state :=
  {| adk_available := adk_available st; recipe_agent := recipe_agent st;
     genai_available := genai_available st; cache := cache st;
     adk_runs := adk_runs st ++ [cart_items]; threads := threads st |}.

Definition start_thread (st : state) (args : list pyval) : state :=
  {| adk_available := adk_available st; recipe_agent := recipe_agent st;
     genai_available := genai_available st; cache := cache st;
     adk_runs := adk_runs st; threads := threads st ++ [args] |}.

(** [x if x is given else default] *)
Definition get_or (x : option string) (default : string) : string :=
  match x with Some v => v | None => default end.

(** [l[0]], [l[1]] with the defaults of the guarded reads. *)
Definition first_or (l : list string) (default : string) : string :=
  match l with x :: _ => x | [] => default end.

Definition fallback_ingredients (items : list string) : list ingredient :=
  map (fun item =>
         {| name := Py.title item; quantity := Finite 1; unit := "piece" |})
      items.

Definition _get_fallback_recipes (cart_items : list string) : list recipe :=
  let main_ingredients :=
    if (4 <=? List.length cart_items)%nat then firstn 4 cart_items
    else cart_items in
  let pair_or (default : string) : string :=
    if (2 <=? List.length main_ingredients)%nat
    then Py.join ", " (firstn 2 main_ingredients) else default in
  let fallback_recipes :=
    [ {| recipe_id := "fallback_skillet_medley";
         title := "One-Skillet " ++ Py.join " & " (firstn 2 main_ingredients)
                    ++ " Medley";
         description := "A hearty one-pan dish that brings together your cart ingredients with simple seasonings for a satisfying meal.";
         default_servings := 4;
         cook_time := "25 minutes";
         image_data := Some "";
         image_url := "";
         ingredients := fallback_ingredients main_ingredients;
         instructions :=
           [ "Prepare all ingredients: wash and chop "
               ++ first_or main_ingredients "vegetables"
               ++ " into bite-sized pieces";
             "Heat a large skillet or pan over medium-high heat with a splash of oil";
             "Add " ++ first_or main_ingredients "main ingredient"
               ++ " to the pan and cook for 3-4 minutes until starting to soften";
             "Add " ++ (if (1 <? List.length main_ingredients)%nat
                        then Py.join ", " (firstn 2 (skipn 1 main_ingredients))
                        else "remaining ingredients")
               ++ " and stir to combine";
             "Season generously with salt and pepper, then reduce heat to medium";
             "Cover and cook for 8-10 minutes, stirring occasionally, until all ingredients are tender";
             "Taste and adjust seasoning, then serve hot as a complete meal" ] |};
      {| recipe_id := "fallback_fresh_combination";
         title := "Fresh " ++ first_or main_ingredients "Ingredient"
                    ++ " Combination";
         description := "A light and flavorful dish that showcases your ingredients with minimal cooking for maximum freshness.";
         default_servings := 3;
         cook_time := "15 minutes";
         image_data := Some "";
         image_url := "";
         ingredients := fallback_ingredients (firstn 3 main_ingredients);
         instructions :=
           [ "Clean and prepare " ++ first_or main_ingredients "ingredients"
               ++ " by removing any unwanted parts and cutting into uniform pieces";
             "If using " ++ first_or (skipn 1 main_ingredients) "second ingredient"
               ++ ", prepare it by chopping or slicing as appropriate";
             "Arrange prepared ingredients in a large mixing bowl or serving dish";
             "Lightly season with salt and pepper to enhance natural flavors";
             "Gently toss or combine all ingredients, allowing flavors to meld";
             "Let stand for 5 minutes to allow ingredients to release their natural juices";
             "Serve immediately as a fresh, healthy dish that highlights each ingredient's unique qualities" ] |};
      {| recipe_id := "fallback_roasted_blend";
         title := "Roasted "
                    ++ (if (2 <=? List.length main_ingredients)%nat
                        then Py.join " & " (firstn 2 main_ingredients)
                        else "Garden")
                    ++ " Blend";
         description := "Oven-roasted ingredients that develop deep, caramelized flavors through high-heat cooking.";
         default_servings := 4;
         cook_time := "30 minutes";
         image_data := Some "";
         image_url := "";
         ingredients := fallback_ingredients main_ingredients;
         instructions :=
           [ "Preheat your oven to 425°F (220°C) and line a large baking sheet with parchment paper";
             "Cut " ++ pair_or "all ingredients"
               ++ " into similar-sized pieces for even cooking";
             "Spread prepared ingredients in a single layer on the prepared baking sheet";
             "Drizzle lightly with oil and season generously with salt and pepper";
             "Toss everything together to ensure even coating of oil and seasonings";
             "Roast in preheated oven for 20-25 minutes, stirring once halfway through";
             "Continue cooking until ingredients are golden brown and tender when pierced with a fork";
             "Remove from oven and let cool for 2-3 minutes before serving hot" ] |} ]%string in
  firstn 3 fallback_recipes.

(** *** The quantity and the unit of an ingredient line

    The part of [_format_ingredients] that reads the quantity and the unit of
    a line; the alignment of the name to the cart is not modelled. *)

(** [known_units], a capturing group. *)
Definition known_units : Re.regex :=
  Re.alt [ Re.lit_s "cup"; Re.lit_i "cup"; Re.lit_s "tablespoon";
           Re.lit_i "tablespoon"; Re.lit_i "tbsp"; Re.lit_s "teaspoon";
           Re.lit_i "teaspoon"; Re.lit_i "tsp"; Re.lit_s "pound";
           Re.lit_i "pound"; Re.lit_s "lb"; Re.lit_i "lb"; Re.lit_s "ounce";
           Re.lit_i "ounce"; Re.lit_i "oz"; Re.lit_s "piece"; Re.lit_i "piece";
           Re.lit_s "clove"; Re.lit_i "clove"; Re.lit_s "slice";
           Re.lit_i "slice"; Re.lit_s "can"; Re.lit_i "can";
           Re.lit_s "package"; Re.lit_i "package"; Re.lit_i "pkg" ].

(** [^((?:\d+\s+)?\d+(?:\.\d+)?(?:/\d+)?)\s+(cups?|...|pkg)\s+(.+)$] *)
Definition measure_pattern : Re.regex :=
  Re.seq [ Re.Bol;
           Re.Group 1
             (Re.seq [ Re.opt (Re.Seq (Re.plus Py.is_digit) (Re.plus Py.is_space));
                       Re.plus Py.is_digit;
                       Re.opt (Re.Seq (Re.chr ".") (Re.plus Py.is_digit));
                       Re.opt (Re.Seq (Re.chr "/") (Re.plus Py.is_digit)) ]);
           Re.plus Py.is_space;
           Re.Group 2 known_units;
           Re.plus Py.is_space;
           Re.Group 3 (Re.plus (fun c => negb (Ascii.eqb c "010")));
           Re.Eol ].

(** The number a string of decimal digits denotes. *)
Fixpoint digits_value (acc : Z) (s : string) : Z :=
  match s with
  | EmptyString => acc
  | String c s' => digits_value (acc * 10 + Z.of_nat (nat_of_ascii c - 48)) s'
  end.

(** [float(s)] on the numerals the pattern lets through, digits with an
    optional decimal part: the float nearest to the number, an infinity for
    a number beyond the floats; [None] stands for a [ValueError]. *)
Definition float_of (s : string) : option pyfloat :=
  match Py.split_on "." s with
  | [whole] =>
      match whole with
      | EmptyString => None
      | _ => if Py.all_of Py.is_digit whole
             then Some (Py.fround (inject_Z (digits_value 0 whole))) else None
      end
  | [whole; decimals] =>
      match (whole ++ decimals)%string with
      | EmptyString => None
      | _ => if Py.all_of Py.is_digit whole && Py.all_of Py.is_digit decimals
             then Some (Py.fround
                          (inject_Z (digits_value 0 whole)
                           + inject_Z (digits_value 0 decimals)
                             / inject_Z (10 ^ Z.of_nat (String.length decimals)))%Q)
             else None
      end
  | _ => None
  end.

(** [float(numerator) / float(denominator)]; [None] stands for a
    [ValueError] or a [ZeroDivisionError]. *)
Definition fraction_of (numerator denominator : string) : option pyfloat :=
  match float_of numerator, float_of denominator with
  | Some n, Some d => Py.fdiv n d
  | _, _ => None
  end.

(** The quantity of a captured [quantity_str]: any error leaves 1.0. *)
Definition parse_quantity (quantity_str : string) : pyfloat :=
  let quantity_str := Py.strip quantity_str in
  let parsed :=
    if Py.contains "/" quantity_str then
      match Py.split_ws quantity_str with
      | [whole_str; fraction_str] =>
          match float_of whole_str with
          | None => None
          | Some whole =>
              match Py.split_on "/" fraction_str with
              | [numerator; denominator] =>
                  match fraction_of numerator denominator with
                  | Some f => Some (Py.fadd whole f)
                  | None => None
                  end
              | _ => Some whole
              end
          end
      | _ =>
          match Py.split_on "/" quantity_str with
          | [numerator; denominator] =>
              match Py.strip numerator, Py.strip denominator with
              | EmptyString, _ | _, EmptyString => Some (Finite 1)
              | _, _ => fraction_of numerator denominator
              end
          | _ => Some (Finite 1)
          end
      end
    else float_of quantity_str in
  match parsed with
  | Some quantity => quantity
  | None => Finite 1
  end.

Definition unit_mapping : list (string * string) :=
  [ ("cup", "cup"); ("cups", "cup"); ("tablespoon", "tablespoon");
    ("tablespoons", "tablespoon"); ("tbsp", "tablespoon");
    ("teaspoon", "teaspoon"); ("teaspoons", "teaspoon"); ("tsp", "teaspoon");
    ("pound", "pound"); ("pounds", "pound"); ("lb", "pound"); ("lbs", "pound");
    ("ounce", "ounce"); ("ounces", "ounce"); ("oz", "ounce");
    ("piece", "piece"); ("pieces", "piece"); ("clove", "clove");
    ("cloves", "clove"); ("slice", "slice"); ("slices", "slice");
    ("can", "can"); ("cans", "can"); ("package", "package");
    ("packages", "package"); ("pkg", "package") ].

Fixpoint unit_get (unit_lower : string) (table : list (string * string))
  (default : string) : string :=
  match table with
  | [] => default
  | (key, standard) :: table' =>
      if String.eqb unit_lower key then standard
      else unit_get unit_lower table' default
  end.

(** The [quantity] and the [unit] of the entry made for a line: those read
    from the line when it matches the pattern, else 1.0 and "piece". *)
Definition quantity_and_unit (ingredient : string) : pyfloat * string :=
  let ingredient := Py.strip ingredient in
  match Re.re_match measure_pattern ingredient with
  | Some groups =>
      match Re.group 1 groups, Re.group 2 groups with
      | Some quantity_str, Some unit_str =>
          (match quantity_str with
           | EmptyString => Finite 1
           | _ => parse_quantity quantity_str
           end,
           match unit_str with
           | EmptyString => "piece"
           | _ => unit_get (Py.lower unit_str) unit_mapping unit_str
           end)
      | _, _ => (Finite 1, "piece")
      end
  | None => (Finite 1, "piece")
  end.

(** Every cached set has at most three recipes. *)
Definition cache_bounded (st : state) : Prop :=
  forall (key : string) (recipes : list recipe),
    cache st !! key = Some recipes -> (List.length recipes <= 3)%nat.

(** What every recipe built by [_format_recipe] has, whatever the draft:
    four servings, an empty image, and an id made of "suggested_" and at
    most eight characters. *)
Definition formatted (r : recipe) : Prop :=
  default_servings r = 4%Z /\ image_data r = Some "" /\ image_url r = ""
  /\ Py.startswith "suggested_" (recipe_id r) = true
  /\ (String.length (recipe_id r) <= 18)%nat.

Section Generator.

(** [hashlib.md5(s.encode()).hexdigest()] *)
Variable md5_hexdigest : string -> string.

(** The run of the recipe agent on the prompt built from the cart items. *)
Variable adk_agent : list string -> adk_outcome.

(** [json.loads] on the cleaned reply, [None] for a [JSONDecodeError]. *)
Variable json_loads : string -> option json_top.

(** [_format_ingredients]: the structured form of the ingredient lines of a
    draft, aligned to the cart items. *)
Variable _format_ingredients : list string -> list string -> list ingredient.

(** The image generated for a recipe: its path, or [None] when the generation
    fails or is not available; and the address a path is served under. *)
Variable generate_image : recipe -> option string.
Variable image_url_of : string -> string.

Definition _generate_cache_key (cart_items : list string) (session_id : string)
  : string :=
  let sorted_items := Py.sorted cart_items in
  let content := (Py.join "," sorted_items ++ ":" ++ session_id)%string in
  md5_hexdigest content.

(** The result is [None] when the formatting raises. *)
Definition _format_recipe (recipe_data : draft) (index : nat)
  (cart_items : list string) : option recipe :=
  match recipe_data with
  | DraftOther => None
  | DraftObject d_name d_description d_prep_time d_ingredients d_instructions =>
      Some {|
        recipe_id :=
          ("suggested_"
             ++ substring 0 8
                  (md5_hexdigest
                     (get_or d_name ("recipe_" ++ Py.str_of_nat index))))%string;
        title := get_or d_name ("Suggested Recipe " ++ Py.str_of_nat (index + 1))%string;
        description :=
          get_or d_description "A delicious recipe made with your cart items";
        default_servings := 4;
        cook_time := get_or d_prep_time "20 minutes";
        image_data := Some "";
        image_url := "";
        ingredients :=
          _format_ingredients
            (match d_ingredients with Some l => l | None => [] end) cart_items;
        instructions :=
          match d_instructions with
          | Some l => l
          | None => ["Prepare ingredients"; "Cook as desired"]
          end
      |}
  end.

(** The markdown fences are removed from the reply. *)
Definition clean_response (final_response_text : string) : string :=
  let cleaned_response := Py.strip final_response_text in
  let cleaned_response :=
    if Py.startswith "```json" cleaned_response
    then Py.drop 7 cleaned_response else cleaned_response in
  let cleaned_response :=
    if Py.startswith "```" cleaned_response
    then Py.drop 3 cleaned_response else cleaned_response in
  let cleaned_response :=
    if Py.endswith "```" cleaned_response
    then Py.drop_last 3 cleaned_response else cleaned_response in
  Py.strip cleaned_response.

(** The loop over [enumerate(recipes_data[:3])]: the drafts that format are
    kept. *)
Fixpoint format_all (index : nat) (recipes_data : list draft)
  (cart_items : list string) : list recipe :=
  match recipes_data with
  | [] => []
  | recipe_data :: rest =>
      match _format_recipe recipe_data index cart_items with
      | Some recipe => recipe :: format_all (S index) rest cart_items
      | None => format_all (S index) rest cart_items
      end
  end.

(** The characters of a string, as the drafts a sliced string yields. *)
Fixpoint chars_as_drafts (s : string) : list draft :=
  match s with
  | EmptyString => []
  | String _ s' => DraftOther :: chars_as_drafts s'
  end.

(** [_run_adk_agent] from the final text on: it raises without a final
    text, on a reply that does not decode and on one that cannot be sliced. *)
Definition _run_adk_agent (final_response_text : option string)
  (cart_items : list string) : result (list recipe) :=
  match final_response_text with
  | None => Raise (Exception "No final response received from ADK agent")
  | Some text =>
      match Py.strip text with
      | EmptyString => Raise (Exception "No final response received from ADK agent")
      | stripped =>
          match json_loads (clean_response stripped) with
          | None => Raise (Exception "Invalid JSON response from ADK agent")
          | Some TopOther => Raise (TypeError "object is not subscriptable")
          | Some (TopString s) =>
              Ok (format_all 0 (firstn 3 (chars_as_drafts s)) cart_items)
          | Some (TopArray recipes_data) =>
              Ok (format_all 0 (firstn 3 recipes_data) cart_items)
          end
      end
  end.

(** [_generate_with_adk]: a timeout is answered with the fallback recipes,
    any other exception is passed on. *)
Definition _generate_with_adk (cart_items : list string) : result (list recipe) :=
  match adk_agent cart_items with
  | AdkTimeout => Ok (_get_fallback_recipes cart_items)
  | AdkRaises => Raise (Exception "ADK agent failed")
  | AdkFinal final_response_text => _run_adk_agent final_response_text cart_items
  end.

(** [_generate_single_recipe_image_async]: a copy of the recipe with its
    image, or with [None] for it. *)
Definition with_image (r : recipe) : recipe :=
  match generate_image r with
  | Some image_file_path =>
      {| recipe_id := recipe_id r; title := title r; description := description r;
         default_servings := default_servings r; cook_time := cook_time r;
         image_data := Some image_file_path;
         image_url := image_url_of image_file_path;
         ingredients := ingredients r; instructions := instructions r |}
  | None =>
      {| recipe_id := recipe_id r; title := title r; description := description r;
         default_servings := default_servings r; cook_time := cook_time r;
         image_data := None; image_url := "";
         ingredients := ingredients r; instructions := instructions r |}
  end.

(** [_add_images_to_recipes_parallel]: one result per recipe, in order. *)
Definition _add_images_to_recipes_parallel (recipes : list recipe) : list recipe :=
  map with_image recipes.

(** [generate_images_for_recipes(self, recipes, cart_items, session_id)] as
    a thread calls it, its target applied to its argument tuple: the three
    parameters are bound to the arguments by position, a missing one raising [TypeError].
    The call sites pass a recipe list, a cart and a session id; other
    values are rejected here. *)
Definition generate_images_for_recipes (st : state) (args : list pyval)
  : result state :=
  match args with
  | [PRecipes recipes; PItems cart_items; PStr session_id] =>
      if negb (genai_available st) then Ok st
      else
        let cache_key := _generate_cache_key cart_items session_id in
        let enhanced_recipes := _add_images_to_recipes_parallel recipes in
        match enhanced_recipes with
        | [] => Ok st
        | _ => Ok (set_cache st (<[cache_key := enhanced_recipes]> (cache st)))
        end
  | [_; _] =>
      Raise (TypeError "RecipeGenerator.generate_images_for_recipes() missing 1 required positional argument: 'session_id'")
  | _ => Raise (TypeError "RecipeGenerator.generate_images_for_recipes() got unexpected arguments")
  end.

Definition generate_suggested_recipes (st : state) (cart_items : list string)
  (session_id : string) : list recipe * state :=
  if (List.length cart_items <? 2)%nat
  then (_get_fallback_recipes cart_items, st)
  else
    let cache_key := _generate_cache_key cart_items session_id in
    match cache st !! cache_key with
    | Some recipes =>
        (recipes, start_thread st [PRecipes recipes; PStr session_id])
    | None =>
        let generated :=
          if adk_available st && recipe_agent st
          then (_generate_with_adk cart_items, log_adk_run st cart_items)
          else (Ok (_get_fallback_recipes cart_items), st) in
        match generated with
        | (Ok recipes, st) =>
            let st := set_cache st (<[cache_key := recipes]> (cache st)) in
            (recipes,
             start_thread st [PRecipes recipes; PItems cart_items; PStr session_id])
        | (Raise _, st) => (_get_fallback_recipes cart_items, st)
        end
    end.

End Generator.

End RecipeGenerator.

(** A world for the examples: the digest is the text itself, the agent
    answers with an empty array, no image can be generated. *)
Module World.
Import RecipeGenerator.

Definition md5_hexdigest (s : string) : string := s.
Definition adk_agent (cart_items : list string) : adk_outcome :=
  AdkFinal (Some "[]").
Definition json_loads (s : string) : option json_top := Some (TopArray []).
Definition _format_ingredients (lines cart_items : list string)
  : list ingredient := [].
Definition generate_image (r : recipe) : option string := None.
Definition image_url_of (path : string) : string := "".

Definition started : state := {|
  adk_available := true; recipe_agent := true; genai_available := true;
  cache := ∅; adk_runs := []; threads := []
|}.

Definition garlic_lemon : list recipe := _get_fallback_recipes ["Garlic"; "Lemon"].

(** The generator after it cached the fallback set for garlic and lemon
    under session s1. *)
Definition warmed : state := {|
  adk_available := true; recipe_agent := true; genai_available := true;
  cache := {[ "Garlic,Lemon:s1" := garlic_lemon ]};
  adk_runs := []; threads := []
|}.

End World.

(** ** recipeservice/grpc_server.py *)

Module GrpcServer.

(** [str(e)] *)
Definition exn_text (e : py_exn) : string :=
  match e with
  | ZeroDivisionError => "division by zero"
  | ValueError msg => msg
  | OverflowError msg => msg
  | TypeError msg => msg
  | Exception msg => msg
  end.

(** The request and response messages; a field that is not set reads as the
    empty string or as zero. *)
Record ProcessRecipeRequestMsg : Type := {
  recipe_id : string;
  servings : Z;
  message : string;
  user_id : string
}.

Record ProcessRecipeResponse : Type := {
  success : bool;
  response_message : string;
  matched_products : list string;
  ingredients : list string;
  unmatched_ingredients : list string
}.

Definition failure (text : string) : ProcessRecipeResponse :=
  {| success := false; response_message := text; matched_products := [];
     ingredients := []; unmatched_ingredients := [] |}.

(** [result.get(key, [])] for a key that holds a list of strings. *)
Definition get_list (key : string) (result : Orchestrator.dict) : list string :=
  match Orchestrator.dict_get key result with
  | Some (Orchestrator.VList l) => l
  | _ => []
  end.

(** [result.get(key, default)] for a key that holds a string. *)
Definition get_text (key : string) (result : Orchestrator.dict)
  (default : string) : string :=
  match Orchestrator.dict_get key result with
  | Some (Orchestrator.VStr text) => text
  | _ => default
  end.

(** [d[key]] for a key that holds a string: without the key the read
    raises [KeyError], whose text is the quoted key. *)
Definition read_text (key : string) (d : Orchestrator.dict) : result string :=
  match Orchestrator.dict_get key d with
  | Some (Orchestrator.VStr text) => Ok text
  | _ => Raise (Exception ("'" ++ key ++ "'")%string)
  end.

(** The handler's [except Exception as e]. *)
Definition caught (e : py_exn) : ProcessRecipeResponse :=
  failure ("Error processing recipe: " ++ exn_text e)%string.

(** [x or default] on strings and on integers. *)
Definition or_text (x default : string) : string :=
  match x with EmptyString => default | _ => x end.

Definition or_int (x default : Z) : Z :=
  if (x =? 0)%Z then default else x.

Section Service.

(** The rows of the recipe store and the two agents behind [process_recipe]. *)
Variable recipes : list RecipeStore.recipe_row.
Variable call_a2a_agent : string -> string -> Orchestrator.a2a_result.
Variable json_loads : string -> option Orchestrator.ingredient_response.

Definition process_recipe : string -> string -> Orchestrator.dict :=
  Orchestrator.process_recipe call_a2a_agent json_loads.

(** The answer built from the result of [process_recipe]: [result["status"]]
    is read first, and [text], the message of a success, only for a
    success. *)
Definition respond (text : result string) (result : Orchestrator.dict)
  : ProcessRecipeResponse :=
  match read_text "status" result with
  | Raise e => caught e
  | Ok status =>
      if String.eqb status "success" then
        match text with
        | Raise e => caught e
        | Ok text =>
            {| success := true;
               response_message := text;
               matched_products := get_list "matched_products" result;
               ingredients := get_list "ingredients" result;
               unmatched_ingredients := get_list "unmatched_ingredients" result |}
        end
      else failure (get_text "error_message" result "Unknown error")
  end.

(** The structured branch of [ProcessRecipeRequest], once the recipe is
    found. *)
Definition process_structured (recipe : RecipeStore.Recipe)
  (request : ProcessRecipeRequestMsg) : ProcessRecipeResponse :=
  let target_servings :=
    or_int (servings request) (RecipeStore.default_servings recipe) in
  match RecipeStore.scale_ingredients recipe target_servings with
  | Raise e => caught e
  | Ok scaled_ingredients =>
      let ingredients_text := Py.join ", " scaled_ingredients in
      let recipe_text :=
        ("Recipe: " ++ RecipeStore.title recipe ++ " (serves "
           ++ Py.str_of_Z target_servings ++ "). Ingredients: "
           ++ ingredients_text)%string in
      let result :=
        process_recipe recipe_text (or_text (user_id request) "default_user") in
      respond
        (Ok ("Successfully processed " ++ RecipeStore.title recipe ++ " for "
               ++ Py.str_of_Z target_servings ++ " servings")%string)
        result
  end.

Definition ProcessRecipeRequest (request : ProcessRecipeRequestMsg)
  : ProcessRecipeResponse :=
  match recipe_id request with
  | EmptyString =>
      let result :=
        process_recipe (message request)
          (or_text (user_id request) "default_user") in
      respond (read_text "message" result) result
  | wanted =>
      match RecipeStore.get_recipe recipes wanted with
      | Raise e => caught e
      | Ok None => failure ("Recipe " ++ wanted ++ " not found")%string
      | Ok (Some recipe) => process_structured recipe request
      end
  end.

End Service.

End GrpcServer.

(** * Properties *)

(** ** Scaling the ingredients of a stored recipe *)

Section RecipeStoreFacts.
Import RecipeStore.
Local Open Scope Q_scope.

(** The texts depend on the value of the quantity, not on the fraction that
    denotes it. *)
Lemma int_of_comp (x y : Q) : x == y -> int_of x = int_of y.
Proof.
  intros H. unfold int_of.
  rewrite (Qfloor_comp _ _ H), (Qceiling_comp _ _ H).
  assert (E : Qle_bool 0 x = Qle_bool 0 y).
  { apply eq_true_iff_eq. rewrite !Qle_bool_iff. now rewrite H. }
  now rewrite E.
Qed.

Lemma round_comp (x y : Q) : x == y -> round x = round y.
Proof.
  intros H. unfold round.
  rewrite (Qfloor_comp _ _ H).
  assert (E : (x - inject_Z (Qfloor y) ?= 1 # 2)
              = (y - inject_Z (Qfloor y) ?= 1 # 2)).
  { apply Qcompare_comp; [now rewrite H | reflexivity]. }
  now rewrite E.
Qed.

Lemma format_1f_comp (x y : Q) : x == y -> format_1f x = format_1f y.
Proof.
  intros H. unfold format_1f.
  assert (E : Qle_bool 0 x = Qle_bool 0 y).
  { apply eq_true_iff_eq. rewrite !Qle_bool_iff. now rewrite H. }
  rewrite E.
  rewrite (round_comp (Qabs x * inject_Z 10) (Qabs y * inject_Z 10));
    [reflexivity|].
  now rewrite H.
Qed.

Lemma finite_text_comp (x y : Q) (i : Ingredient) :
  x == y -> finite_text x i = finite_text y i.
Proof.
  intros H. unfold finite_text.
  rewrite (round_comp x y H), (int_of_comp x y H), (format_1f_comp x y H).
  assert (E : Qeq_bool x (inject_Z (int_of y))
              = Qeq_bool y (inject_Z (int_of y))).
  { apply eq_true_iff_eq. rewrite !Qeq_bool_iff. now rewrite H. }
  now rewrite E.
Qed.

Lemma overflows_comp (x y : Q) : x == y -> Py.overflows x = Py.overflows y.
Proof.
  intros H. unfold Py.overflows.
  apply eq_true_iff_eq. rewrite !Qle_bool_iff. now rewrite H.
Qed.

Lemma scale_factor_default (recipe : Recipe) (target_servings : Z) :
  (0 < default_servings recipe)%Z ->
  (target_servings <= 0)%Z ->
  scale_factor recipe target_servings
  = Ok (inject_Z (default_servings recipe) / inject_Z (default_servings recipe)).
Proof.
  intros Hd Ht. unfold scale_factor.
  destruct (Z.leb_spec target_servings 0) as [_|]; [|lia].
  destruct (Z.eqb_spec (default_servings recipe) 0) as [|_]; [lia|].
  reflexivity.
Qed.

Lemma Qdiv_self (d : Z) : (0 < d)%Z -> inject_Z d / inject_Z d == 1.
Proof.
  intros Hd. apply Qmult_inv_r. intros H.
  assert (H' : inject_Z d == inject_Z 0) by exact H.
  rewrite inject_Z_injective in H'. lia.
Qed.

(** A product is a finite float, an infinity or NaN: it is never a finite
    value beyond the floats. *)
Lemma fmul_not_finite (x y : pyfloat) :
  Py.is_finite (Py.fmul x y) = false ->
  Py.fmul x y = NaN \/ exists s, Py.fmul x y = Infinite s.
Proof.
  destruct x as [a|s|], y as [b|t|]; cbn [Py.fmul]; eauto.
  - unfold Py.fround. destruct (Py.overflows (a * b)) eqn:E; [eauto|].
    cbn [Py.is_finite]. rewrite E. discriminate.
  - destruct (Qeq_bool a 0); eauto.
  - destruct (Qeq_bool b 0); eauto.
Qed.

Lemma scaled_text_finite (x : pyfloat) (i : Ingredient) :
  Py.is_finite x = true -> exists text, scaled_text x i = Ok text.
Proof. destruct x; [eauto | discriminate | discriminate]. Qed.

(** The loop goes through when every scaled quantity is a finite float, and
    raises on the first one that is not. *)
Lemma scale_loop_ok (f : Q) (l : list Ingredient) :
  Forall (fun i => Py.is_finite (scaled_quantity f i) = true) l ->
  exists texts,
    scale_loop f l = Ok texts
    /\ Forall2 (fun i text => scaled_text (scaled_quantity f i) i = Ok text)
         l texts.
Proof.
  induction 1 as [|i l Hi _ (texts & E & IH)]; cbn [scale_loop].
  - exists []. split; [reflexivity | constructor].
  - destruct (scaled_text_finite _ i Hi) as [text Et]. rewrite Et, E.
    exists (text :: texts). split; [reflexivity | now constructor].
Qed.

Lemma scale_loop_raises (f : Q) (l : list Ingredient) :
  Exists (fun i => Py.is_finite (scaled_quantity f i) = false) l ->
  exists msg,
    scale_loop f l = Raise (ValueError msg)
    \/ scale_loop f l = Raise (OverflowError msg).
Proof.
  induction l as [|i l IH]; intros H; [inversion H|].
  cbn [scale_loop].
  destruct (Py.is_finite (scaled_quantity f i)) eqn:Hi.
  - destruct (scaled_text_finite _ i Hi) as [text ->].
    inversion H as [? ? Hh | ? ? Ht]; subst; [congruence|].
    destruct (IH Ht) as [msg [-> | ->]]; eauto.
  - unfold scaled_quantity in *.
    destruct (fmul_not_finite _ _ Hi) as [-> | [s ->]]; cbn [scaled_text]; eauto.
Qed.

(** Scaled by a factor that is one, a quantity is the float it was. *)
Lemma scaled_by_one (f : Q) (i : Ingredient) :
  f == 1 ->
  Py.is_finite (scaled_quantity f i) = Py.is_finite (quantity i)
  /\ (Py.is_finite (quantity i) = true ->
      scaled_text (scaled_quantity f i) i = unscaled_text i).
Proof.
  intros Hf. unfold scaled_quantity, unscaled_text.
  destruct (quantity i) as [q|s|]; cbn [Py.fmul Py.is_finite].
  - assert (E : Py.overflows (q * f) = Py.overflows q).
    { apply overflows_comp. rewrite Hf. apply Qmult_1_r. }
    unfold Py.fround. rewrite E.
    destruct (Py.overflows q); cbn [Py.is_finite negb]; [split; [reflexivity | discriminate]|].
    rewrite E. split; [reflexivity|]. intros _. cbn [scaled_text]. f_equal.
    apply finite_text_comp. rewrite Hf. apply Qmult_1_r.
  - assert (E : Qeq_bool f 0 = false).
    { apply not_true_is_false. intros H. apply Qeq_bool_eq in H.
      rewrite Hf in H. discriminate. }
    rewrite E. split; [reflexivity | discriminate].
  - split; [reflexivity | discriminate].
Qed.

(** C8, as the code has it: one and a half cups for four servings, scaled to
    eight servings, read "3 cups Jasmine Rice"; the result is integral and is
    written without a decimal place. *)
Theorem scale_jasmine_rice_to_eight :
  scale_ingredients jasmine_rice 8 = Ok ["3 cups Jasmine Rice"].
Proof. vm_compute. reflexivity. Qed.

(** C8 as stated fails: the text is not "3.0 cups Jasmine Rice". *)
Lemma scale_jasmine_rice_not_3_0 :
  quantity_of_first jasmine_rice = Some (Finite (3 # 2))
  /\ default_servings jasmine_rice = 4%Z
  /\ scale_ingredients jasmine_rice 8 <> Ok ["3.0 cups Jasmine Rice"].
Proof. repeat split. vm_compute. discriminate. Qed.

(** C10, as the code has it: for a recipe with positive [default_servings]
    and a target of zero or less, the default is substituted for the target:
    the scale factor is the one of the default (it is 1) and the call does
    what the call with the default for target does, so no division by zero
    occurs.  When every quantity is a finite float, the texts are those of
    the unscaled quantities; when a quantity is NaN or an infinity, the
    conversion of it to an integer raises [ValueError] or [OverflowError]. *)
Theorem scale_ingredients_nonpositive_target
  (recipe : Recipe) (target_servings : Z) :
  (0 < default_servings recipe)%Z ->
  (target_servings <= 0)%Z ->
  scale_factor recipe target_servings
  = scale_factor recipe (default_servings recipe)
  /\ (exists f, scale_factor recipe target_servings = Ok f /\ f == 1)
  /\ scale_ingredients recipe target_servings
     = scale_ingredients recipe (default_servings recipe)
  /\ (Forall (fun i => Py.is_finite (quantity i) = true) (ingredients recipe) ->
      exists texts,
        scale_ingredients recipe target_servings = Ok texts
        /\ Forall2 (fun i text => unscaled_text i = Ok text)
             (ingredients recipe) texts)
  /\ (Exists (fun i => Py.is_finite (quantity i) = false) (ingredients recipe) ->
      exists msg,
        scale_ingredients recipe target_servings = Raise (ValueError msg)
        \/ scale_ingredients recipe target_servings = Raise (OverflowError msg)).
Proof.
  intros Hd Ht.
  pose proof (scale_factor_default recipe target_servings Hd Ht) as E.
  pose proof (Qdiv_self (default_servings recipe) Hd) as E1.
  assert (E0 : scale_factor recipe target_servings
               = scale_factor recipe (default_servings recipe)).
  { rewrite E. unfold scale_factor.
    destruct (Z.leb_spec (default_servings recipe) 0); [lia|].
    destruct (Z.eqb_spec (default_servings recipe) 0) as [|_]; [lia|].
    reflexivity. }
  split; [exact E0|]. split; [eexists; split; [exact E | exact E1]|].
  split; [unfold scale_ingredients; now rewrite E0|].
  unfold scale_ingredients. rewrite E.
  set (f := inject_Z (default_servings recipe) / inject_Z (default_servings recipe)) in *.
  split.
  - intros Hall.
    destruct (scale_loop_ok f (ingredients recipe)) as (texts & Hl & Ht2).
    { eapply List.Forall_impl; [|exact Hall]. intros i Hi.
      destruct (scaled_by_one f i E1) as [-> _]. exact Hi. }
    exists texts. split; [exact Hl|].
    clear Hl. induction Ht2 as [|i text l texts' Hi _ IH]; [constructor|].
    inversion Hall as [|? ? Hfi Hrest]; subst.
    constructor; [|now apply IH].
    destruct (scaled_by_one f i E1) as [_ <-]; assumption.
  - intros Hex. apply scale_loop_raises.
    apply List.Exists_exists in Hex as (i & Hin & Hi).
    apply List.Exists_exists. exists i. split; [exact Hin|].
    destruct (scaled_by_one f i E1) as [-> _]. exact Hi.
Qed.

(** C10 as stated fails: with a quantity that is NaN the call raises, for a
    nonpositive target too. *)
Lemma nan_quantity_raises :
  (0 < default_servings unmeasured_rice)%Z
  /\ scale_ingredients unmeasured_rice 0
     = Raise (ValueError "cannot convert float NaN to integer").
Proof. split; reflexivity. Qed.

Lemma scale_ingredients_nonpositive_target_witness :
  (0 < default_servings jasmine_rice)%Z
  /\ (-2 <= 0)%Z
  /\ exists texts,
       scale_ingredients jasmine_rice (-2) = Ok texts
       /\ Forall2 (fun i text => unscaled_text i = Ok text)
            (ingredients jasmine_rice) texts.
Proof.
  split; [reflexivity | split; [discriminate |]].
  destruct (scale_ingredients_nonpositive_target jasmine_rice (-2))
    as (_ & _ & _ & H & _); [reflexivity | discriminate |].
  apply H. repeat constructor.
Defined.

End RecipeStoreFacts.

(** ** The fallback of the orchestration *)

Section OrchestratorFacts.
Import Orchestrator.

Variable call_a2a_agent : string -> string -> a2a_result.
Variable json_loads : string -> option ingredient_response.

Lemma fallback_result_shape (recipe_text : string) :
  dict_get "status" (fallback_result recipe_text) = Some (VStr "success")
  /\ keys (fallback_result recipe_text) = ["status"; "message"; "ingredients"]
  /\ dict_get "ingredients" (fallback_result recipe_text)
     = Some (VList (extract_ingredients recipe_text)).
Proof. repeat split. Qed.

(** C1, as the code has it: when the call to the ingredient matcher fails,
    the result is the fallback dictionary: its status is "success", and its
    only other entries are a message and the raw ingredient list, so it
    carries no product data. *)
Theorem matcher_failure_gives_fallback (recipe_text user_id error : string) :
  call_a2a_agent matcher_url
    (ingredients_message (extract_ingredients recipe_text)) = A2AError error ->
  let r := process_recipe call_a2a_agent json_loads recipe_text user_id in
  r = fallback_result recipe_text
  /\ dict_get "status" r = Some (VStr "success")
  /\ keys r = ["status"; "message"; "ingredients"]
  /\ dict_get "ingredients" r = Some (VList (extract_ingredients recipe_text)).
Proof.
  intros H r.
  assert (E : r = fallback_result recipe_text).
  { subst r. unfold process_recipe. rewrite H. reflexivity. }
  rewrite E. split; [reflexivity | apply fallback_result_shape].
Qed.

(** C2, as the code has it: when the matcher answers and the call to the
    cart adder then fails, the result is again the fallback dictionary: the
    matched products are dropped from it, and its status is "success". *)
Theorem cart_failure_gives_fallback
  (recipe_text user_id response_text error : string) :
  call_a2a_agent matcher_url
    (ingredients_message (extract_ingredients recipe_text))
  = A2ASuccess response_text ->
  should_add_to_cart recipe_text = true ->
  call_a2a_agent adder_url
    (cart_message user_id
       (product_ids (parse_match_response json_loads response_text)))
  = A2AError error ->
  let r := process_recipe call_a2a_agent json_loads recipe_text user_id in
  r = fallback_result recipe_text
  /\ dict_get "status" r = Some (VStr "success")
  /\ keys r = ["status"; "message"; "ingredients"]
  /\ dict_get "matched_products" r = None
  /\ dict_get "product_details" r = None.
Proof.
  intros Hm Hadd Hc r.
  assert (E : r = fallback_result recipe_text).
  { subst r. unfold process_recipe. rewrite Hm, Hadd, Hc. reflexivity. }
  rewrite E. repeat split.
Qed.

End OrchestratorFacts.

(** C1 as stated fails: with the matcher out of reach the status of the
    result is "success", not "degraded". *)
Lemma matcher_failure_status_not_degraded :
  Orchestrator.matcher_down Orchestrator.matcher_url
    (Orchestrator.ingredients_message
       (Orchestrator.extract_ingredients "garlic, quinoa"))
  = Orchestrator.A2AError "connection refused"
  /\ Orchestrator.dict_get "status"
       (Orchestrator.process_recipe Orchestrator.matcher_down
          Orchestrator.one_garlic "garlic, quinoa" "u1")
     = Some (Orchestrator.VStr "success")
  /\ Orchestrator.dict_get "status"
       (Orchestrator.process_recipe Orchestrator.matcher_down
          Orchestrator.one_garlic "garlic, quinoa" "u1")
     <> Some (Orchestrator.VStr "degraded").
Proof. repeat split. vm_compute. discriminate. Qed.

Lemma matcher_failure_gives_fallback_witness :
  Orchestrator.matcher_down Orchestrator.matcher_url
    (Orchestrator.ingredients_message
       (Orchestrator.extract_ingredients "garlic, quinoa"))
  = Orchestrator.A2AError "connection refused"
  /\ Orchestrator.process_recipe Orchestrator.matcher_down
       Orchestrator.one_garlic "garlic, quinoa" "u1"
     = [ ("status", Orchestrator.VStr "success");
         ("message",
          Orchestrator.VStr
            "Recipe processed successfully (fallback). Extracted 2 ingredients: garlic, quinoa");
         ("ingredients", Orchestrator.VList ["garlic"; "quinoa"]) ].
Proof.
  split; [reflexivity |].
  destruct (matcher_failure_gives_fallback Orchestrator.matcher_down
              Orchestrator.one_garlic "garlic, quinoa" "u1" "connection refused")
    as (H & _); [reflexivity |].
  rewrite H. reflexivity.
Defined.

(** C2 as stated fails: with the cart adder out of reach after a successful
    match the status of the result is "success", not "failed". *)
Lemma cart_failure_status_not_failed :
  Orchestrator.adder_down Orchestrator.matcher_url
    (Orchestrator.ingredients_message
       (Orchestrator.extract_ingredients "garlic, quinoa"))
  = Orchestrator.A2ASuccess "reply"
  /\ Orchestrator.should_add_to_cart "garlic, quinoa" = true
  /\ Orchestrator.adder_down Orchestrator.adder_url
       (Orchestrator.cart_message "u1" ["GARLIC001"])
     = Orchestrator.A2AError "connection refused"
  /\ Orchestrator.dict_get "status"
       (Orchestrator.process_recipe Orchestrator.adder_down
          Orchestrator.one_garlic "garlic, quinoa" "u1")
     <> Some (Orchestrator.VStr "failed").
Proof. repeat split. vm_compute. discriminate. Qed.

Lemma cart_failure_gives_fallback_witness :
  Orchestrator.adder_down Orchestrator.matcher_url
    (Orchestrator.ingredients_message
       (Orchestrator.extract_ingredients "garlic, quinoa"))
  = Orchestrator.A2ASuccess "reply"
  /\ Orchestrator.should_add_to_cart "garlic, quinoa" = true
  /\ Orchestrator.adder_down Orchestrator.adder_url
       (Orchestrator.cart_message "u1"
          (Orchestrator.product_ids
             (Orchestrator.parse_match_response Orchestrator.one_garlic "reply")))
     = Orchestrator.A2AError "connection refused"
  /\ Orchestrator.dict_get "status"
       (Orchestrator.process_recipe Orchestrator.adder_down
          Orchestrator.one_garlic "garlic, quinoa" "u1")
     = Some (Orchestrator.VStr "success")
  /\ Orchestrator.dict_get "matched_products"
       (Orchestrator.process_recipe Orchestrator.adder_down
          Orchestrator.one_garlic "garlic, quinoa" "u1")
     = None.
Proof.
  split; [reflexivity | split; [reflexivity | split; [reflexivity |]]].
  destruct (cart_failure_gives_fallback Orchestrator.adder_down
              Orchestrator.one_garlic "garlic, quinoa" "u1" "reply"
              "connection refused")
    as (_ & Hs & _ & Hm & _); [reflexivity | reflexivity | reflexivity |].
  split; [exact Hs | exact Hm].
Defined.

(** ** Sorting strings *)

Section SortedFacts.

Lemma ascii_compare_trans_le (a b c : ascii) :
  Ascii.compare a b <> Gt -> Ascii.compare b c <> Gt -> Ascii.compare a c <> Gt.
Proof.
  unfold Ascii.compare. rewrite !N.compare_le_iff. apply N.le_trans.
Qed.

Lemma ascii_compare_eq (a b : ascii) : Ascii.compare a b = Eq -> a = b.
Proof. apply Ascii.compare_eq_iff. Qed.

Lemma ascii_compare_refl (a : ascii) : Ascii.compare a a = Eq.
Proof. unfold Ascii.compare. apply N.compare_refl. Qed.

Lemma string_compare_trans_le (s1 s2 s3 : string) :
  String.compare s1 s2 <> Gt -> String.compare s2 s3 <> Gt ->
  String.compare s1 s3 <> Gt.
Proof.
  revert s2 s3.
  induction s1 as [|a s1 IH]; intros [|b s2] [|c s3]; simpl;
    try congruence.
  intros H12 H23.
  destruct (Ascii.compare a b) eqn:Eab.
  - apply ascii_compare_eq in Eab. subst b.
    destruct (Ascii.compare a c) eqn:Eac; try congruence.
    now apply (IH s2 s3).
  - destruct (Ascii.compare b c) eqn:Ebc.
    + apply ascii_compare_eq in Ebc. subst c. rewrite Eab. discriminate.
    + assert (Hle : Ascii.compare a c <> Gt)
        by (apply (ascii_compare_trans_le a b c); congruence).
      destruct (Ascii.compare a c) eqn:Eac; try congruence.
      apply ascii_compare_eq in Eac. subst c.
      rewrite Ascii.compare_antisym, Eab in Ebc. discriminate.
    + congruence.
  - congruence.
Qed.

Lemma leb_trans (s1 s2 s3 : string) :
  String.leb s1 s2 = true -> String.leb s2 s3 = true -> String.leb s1 s3 = true.
Proof.
  unfold String.leb. intros H12 H23.
  pose proof (string_compare_trans_le s1 s2 s3) as H.
  destruct (String.compare s1 s2), (String.compare s2 s3),
    (String.compare s1 s3); try reflexivity; try discriminate;
    exfalso; apply H; congruence.
Qed.

Lemma leb_false_flip (x y : string) :
  String.leb x y = false -> String.leb y x = true.
Proof.
  intros H. destruct (String.leb_total x y) as [E|E]; [congruence | exact E].
Qed.

(** Insertions commute, whatever the list. *)
Lemma insert_sorted_comm (x y : string) (l : list string) :
  Py.insert_sorted x (Py.insert_sorted y l)
  = Py.insert_sorted y (Py.insert_sorted x l).
Proof.
  induction l as [|z l IH]; simpl.
  - destruct (String.leb x y) eqn:Exy, (String.leb y x) eqn:Eyx;
      try reflexivity.
    + now rewrite (String.leb_antisym x y Exy Eyx).
    + apply leb_false_flip in Exy. congruence.
  - destruct (String.leb y z) eqn:Eyz, (String.leb x z) eqn:Exz; simpl;
      rewrite ?Eyz, ?Exz.
    + destruct (String.leb x y) eqn:Exy, (String.leb y x) eqn:Eyx;
        try reflexivity.
      * now rewrite (String.leb_antisym x y Exy Eyx).
      * apply leb_false_flip in Exy. congruence.
    + destruct (String.leb x y) eqn:Exy; [|reflexivity].
      rewrite (leb_trans x y z Exy Eyz) in Exz. discriminate.
    + destruct (String.leb y x) eqn:Eyx; [|reflexivity].
      rewrite (leb_trans y x z Eyx Exz) in Eyz. discriminate.
    + now rewrite IH.
Qed.

(** [Py.sorted] gives an ordered permutation of its argument, which is what
    any sort of strings gives. *)
Lemma insert_sorted_perm (x : string) (l : list string) :
  Permutation (x :: l) (Py.insert_sorted x l).
Proof.
  induction l as [|y l IH]; simpl; [reflexivity|].
  destruct (String.leb x y); [reflexivity|].
  rewrite perm_swap. now apply perm_skip.
Qed.

Lemma sorted_perm (l : list string) : Permutation l (Py.sorted l).
Proof.
  induction l as [|x l IH]; simpl; [reflexivity|].
  rewrite <- insert_sorted_perm. now apply perm_skip.
Qed.

Lemma insert_sorted_ordered (x : string) (l : list string) :
  StronglySorted (fun a b => String.leb a b = true) l ->
  StronglySorted (fun a b => String.leb a b = true) (Py.insert_sorted x l).
Proof.
  induction 1 as [|y l Hs IH Hy]; simpl.
  - repeat constructor.
  - destruct (String.leb x y) eqn:E.
    + constructor; [now constructor|].
      constructor; [exact E|].
      eapply List.Forall_impl; [|exact Hy].
      intros z Hz. exact (leb_trans x y z E Hz).
    + constructor; [exact IH|].
      apply (Permutation_Forall (insert_sorted_perm x l)).
      constructor; [now apply leb_false_flip | exact Hy].
Qed.

Lemma sorted_ordered (l : list string) :
  StronglySorted (fun a b => String.leb a b = true) (Py.sorted l).
Proof.
  induction l as [|x l IH]; simpl; [constructor|].
  now apply insert_sorted_ordered.
Qed.

Lemma sorted_permutation (l1 l2 : list string) :
  Permutation l1 l2 -> Py.sorted l1 = Py.sorted l2.
Proof.
  induction 1 as [| x l l' _ IH | x y l | l l' l'' _ IH1 _ IH2]; simpl.
  - reflexivity.
  - now rewrite IH.
  - apply insert_sorted_comm.
  - now rewrite IH1.
Qed.

End SortedFacts.

(** ** The recipe cache *)

Section GeneratorFacts.
Import RecipeGenerator.

Variable md5_hexdigest : string -> string.
Variable adk_agent : list string -> adk_outcome.
Variable json_loads : string -> option json_top.
Variable _format_ingredients : list string -> list string -> list ingredient.
Variable generate_image : recipe -> option string.
Variable image_url_of : string -> string.

Abbreviation cache_key := (_generate_cache_key md5_hexdigest).
Abbreviation generate :=
  (generate_suggested_recipes md5_hexdigest adk_agent json_loads
     _format_ingredients).
Abbreviation enrich :=
  (generate_images_for_recipes md5_hexdigest generate_image image_url_of).

(** C5: the cache key of a cart does not depend on the order of its items. *)
Theorem cache_key_permutation (cart1 cart2 : list string) (session_id : string) :
  Permutation cart1 cart2 ->
  _generate_cache_key md5_hexdigest cart1 session_id
  = _generate_cache_key md5_hexdigest cart2 session_id.
Proof.
  intros H. unfold _generate_cache_key.
  now rewrite (sorted_permutation cart1 cart2 H).
Qed.

Lemma fallback_length (cart_items : list string) :
  List.length (_get_fallback_recipes cart_items) = 3%nat.
Proof. reflexivity. Qed.

Lemma format_all_length (index : nat) (recipes_data : list draft)
  (cart_items : list string) :
  (List.length (format_all md5_hexdigest _format_ingredients index recipes_data
                  cart_items)
   <= List.length recipes_data)%nat.
Proof.
  revert index.
  induction recipes_data as [|d ds IH]; intros index; simpl; [lia|].
  destruct (_format_recipe _ _ d index cart_items); simpl;
    specialize (IH (S index)); lia.
Qed.

Lemma firstn_3_length {A : Type} (l : list A) :
  (List.length (firstn 3 l) <= 3)%nat.
Proof. rewrite length_firstn. lia. Qed.

Lemma run_adk_agent_length (final_response_text : option string)
  (cart_items : list string) (recipes : list recipe) :
  _run_adk_agent md5_hexdigest json_loads _format_ingredients
    final_response_text cart_items = Ok recipes ->
  (List.length recipes <= 3)%nat.
Proof.
  unfold _run_adk_agent.
  destruct final_response_text as [text|]; [|discriminate].
  destruct (Py.strip text) as [|c s] eqn:Es; [discriminate|].
  destruct (json_loads _) as [[ds|s'|]|]; try discriminate;
    intros H; injection H as <-.
  - etransitivity; [apply format_all_length | apply firstn_3_length].
  - etransitivity; [apply format_all_length | apply firstn_3_length].
Qed.

Lemma generate_with_adk_length (cart_items : list string)
  (recipes : list recipe) :
  _generate_with_adk md5_hexdigest adk_agent json_loads _format_ingredients
    cart_items = Ok recipes ->
  (List.length recipes <= 3)%nat.
Proof.
  unfold _generate_with_adk.
  destruct (adk_agent cart_items) as [| |final].
  - intros H. injection H as <-. now rewrite fallback_length.
  - discriminate.
  - apply run_adk_agent_length.
Qed.

Lemma cache_bounded_insert (st : state) (key : string) (recipes : list recipe) :
  cache_bounded st -> (List.length recipes <= 3)%nat ->
  forall k rs, <[key := recipes]> (cache st) !! k = Some rs ->
               (List.length rs <= 3)%nat.
Proof.
  intros Hb Hl k rs.
  destruct (decide (key = k)) as [->|Hne].
  - rewrite lookup_insert_eq. intros H. injection H as <-. exact Hl.
  - rewrite lookup_insert_ne by exact Hne. apply Hb.
Qed.

(** C4, as the code has it: a call returns at most three recipes, given a
    cache whose sets have at most three, and leaves the cache so; with fewer
    than two cart items it returns exactly the three fallback recipes. *)
Theorem generate_at_most_three (st : state) (cart_items : list string)
  (session_id : string) :
  cache_bounded st ->
  (List.length (fst (generate st cart_items session_id)) <= 3)%nat
  /\ cache_bounded (snd (generate st cart_items session_id))
  /\ ((List.length cart_items < 2)%nat ->
      fst (generate st cart_items session_id) = _get_fallback_recipes cart_items
      /\ List.length (fst (generate st cart_items session_id)) = 3%nat).
Proof.
  intros Hb. unfold generate_suggested_recipes.
  destruct (Nat.ltb_spec (List.length cart_items) 2) as [Hlt|Hge].
  - cbn [fst snd]. rewrite fallback_length. repeat split; try lia; exact Hb.
  - destruct (cache st !! cache_key cart_items session_id) as [recipes|] eqn:Ec.
    + cbn [fst snd]. split; [exact (Hb _ _ Ec) | split; [exact Hb | lia]].
    + destruct (adk_available st && recipe_agent st).
      * destruct (_generate_with_adk _ _ _ _ cart_items) as [recipes|e] eqn:Eg.
        -- pose proof (generate_with_adk_length _ _ Eg) as Hl. cbn [fst snd].
           split; [exact Hl | split; [|lia]].
           intros k rs. apply (cache_bounded_insert st); assumption.
        -- cbn [fst snd]. rewrite fallback_length.
           split; [lia | split; [exact Hb | lia]].
      * cbn [fst snd]. rewrite fallback_length. split; [lia | split; [|lia]].
        intros k rs. apply (cache_bounded_insert st); [assumption|].
        now rewrite fallback_length.
Qed.

(** C3, as the code has it: on a cache hit the cached set is returned, the
    agent is not run and the cache is left as it is; one thread is started on
    [generate_images_for_recipes] with two arguments, the recipes and the
    session id, and its call raises [TypeError] for the missing third one, in
    whatever state it runs: no image is generated and no entry replaced. *)
Theorem cache_hit_starts_failing_thread (st : state) (cart_items : list string)
  (session_id : string) (recipes : list recipe) :
  (2 <= List.length cart_items)%nat ->
  cache st !! cache_key cart_items session_id = Some recipes ->
  generate st cart_items session_id
  = (recipes, start_thread st [PRecipes recipes; PStr session_id])
  /\ adk_runs (snd (generate st cart_items session_id)) = adk_runs st
  /\ cache (snd (generate st cart_items session_id)) = cache st
  /\ threads (snd (generate st cart_items session_id))
     = threads st ++ [[PRecipes recipes; PStr session_id]]
  /\ forall st' : state,
       enrich st' [PRecipes recipes; PStr session_id]
       = Raise (TypeError "RecipeGenerator.generate_images_for_recipes() missing 1 required positional argument: 'session_id'").
Proof.
  intros Hlen Hhit.
  assert (E : generate st cart_items session_id
              = (recipes, start_thread st [PRecipes recipes; PStr session_id])).
  { unfold generate_suggested_recipes.
    destruct (Nat.ltb_spec (List.length cart_items) 2); [lia|].
    now rewrite Hhit. }
  rewrite E. repeat split.
Qed.

(** The thread started on a miss keeps the cache within three recipes a
    key. *)
Lemma enrich_cache_bounded (st st' : state) (recipes : list recipe)
  (cart_items : list string) (session_id : string) :
  cache_bounded st -> (List.length recipes <= 3)%nat ->
  enrich st [PRecipes recipes; PItems cart_items; PStr session_id] = Ok st' ->
  cache_bounded st'.
Proof.
  intros Hb Hl. unfold generate_images_for_recipes.
  destruct (negb (genai_available st)).
  - intros H. injection H as <-. exact Hb.
  - destruct (_add_images_to_recipes_parallel _ _ recipes) as [|r rs] eqn:E.
    + intros H. injection H as <-. exact Hb.
    + intros H. injection H as <-. intros k v.
      apply (cache_bounded_insert st); [exact Hb|].
      rewrite <- E. unfold _add_images_to_recipes_parallel.
      now rewrite length_map.
Qed.

(** On a miss the thread is started with all three arguments, and its call
    replaces the entry of the same key by the enriched set. *)
Lemma enrich_replaces_entry (st : state) (recipes : list recipe)
  (cart_items : list string) (session_id : string) :
  genai_available st = true ->
  recipes <> [] ->
  enrich st [PRecipes recipes; PItems cart_items; PStr session_id]
  = Ok (set_cache st
          (<[cache_key cart_items session_id :=
               _add_images_to_recipes_parallel generate_image image_url_of
                 recipes]> (cache st))).
Proof.
  intros Hg Hne. unfold generate_images_for_recipes. rewrite Hg. simpl.
  destruct recipes as [|r rs]; [congruence | reflexivity].
Qed.

End GeneratorFacts.

Lemma cache_key_permutation_witness :
  Permutation ["Garlic"; "Lemon"] ["Lemon"; "Garlic"]
  /\ RecipeGenerator._generate_cache_key World.md5_hexdigest
       ["Garlic"; "Lemon"] "s1"
     = RecipeGenerator._generate_cache_key World.md5_hexdigest
         ["Lemon"; "Garlic"] "s1".
Proof.
  split; [apply perm_swap |].
  apply (cache_key_permutation World.md5_hexdigest). apply perm_swap.
Defined.

(** C4 as stated fails: the agent answers with an empty array, and the call
    returns no recipe at all. *)
Lemma generate_returns_no_recipe :
  fst (RecipeGenerator.generate_suggested_recipes World.md5_hexdigest
         World.adk_agent World.json_loads World._format_ingredients
         World.started ["Garlic"; "Lemon"] "s1") = []
  /\ ~ (1 <= List.length
              (fst (RecipeGenerator.generate_suggested_recipes
                      World.md5_hexdigest World.adk_agent World.json_loads
                      World._format_ingredients World.started
                      ["Garlic"; "Lemon"] "s1")))%nat.
Proof.
  assert (E : fst (RecipeGenerator.generate_suggested_recipes
                     World.md5_hexdigest World.adk_agent World.json_loads
                     World._format_ingredients World.started
                     ["Garlic"; "Lemon"] "s1") = []).
  { unfold RecipeGenerator.generate_suggested_recipes. cbn [List.length Nat.ltb Nat.leb].
    unfold World.started at 1. cbn [RecipeGenerator.cache].
    rewrite lookup_empty. reflexivity. }
  rewrite E. split; [reflexivity | simpl; lia].
Qed.

Lemma started_cache_bounded : RecipeGenerator.cache_bounded World.started.
Proof.
  intros key recipes H. unfold World.started in H.
  cbn [RecipeGenerator.cache] in H. rewrite lookup_empty in H. discriminate.
Defined.

Lemma generate_at_most_three_witness :
  RecipeGenerator.cache_bounded World.started
  /\ (List.length
        (fst (RecipeGenerator.generate_suggested_recipes World.md5_hexdigest
                World.adk_agent World.json_loads World._format_ingredients
                World.started ["Garlic"] "s1")) <= 3)%nat.
Proof.
  split; [exact started_cache_bounded |].
  apply (generate_at_most_three World.md5_hexdigest World.adk_agent
           World.json_loads World._format_ingredients World.started
           ["Garlic"] "s1" started_cache_bounded).
Defined.

Lemma cache_hit_starts_failing_thread_witness :
  (2 <= List.length ["Lemon"; "Garlic"])%nat
  /\ RecipeGenerator.cache World.warmed
       !! RecipeGenerator._generate_cache_key World.md5_hexdigest
            ["Lemon"; "Garlic"] "s1"
     = Some World.garlic_lemon
  /\ RecipeGenerator.generate_images_for_recipes World.md5_hexdigest
       World.generate_image World.image_url_of World.warmed
       [RecipeGenerator.PRecipes World.garlic_lemon; RecipeGenerator.PStr "s1"]
     = Raise (TypeError "RecipeGenerator.generate_images_for_recipes() missing 1 required positional argument: 'session_id'").
Proof.
  assert (Hlen : (2 <= List.length ["Lemon"; "Garlic"])%nat) by (simpl; lia).
  assert (Hhit : RecipeGenerator.cache World.warmed
                   !! RecipeGenerator._generate_cache_key World.md5_hexdigest
                        ["Lemon"; "Garlic"] "s1"
                 = Some World.garlic_lemon) by reflexivity.
  split; [exact Hlen | split; [exact Hhit |]].
  destruct (cache_hit_starts_failing_thread World.md5_hexdigest World.adk_agent
              World.json_loads World._format_ingredients World.generate_image
              World.image_url_of World.warmed ["Lemon"; "Garlic"] "s1"
              World.garlic_lemon Hlen Hhit) as (_ & _ & _ & _ & H).
  apply H.
Defined.

(** ** Matching a batch of ingredients *)

Section MatchingFacts.
Import IngredientMatcher.

Variable SearchProducts : string -> result (list catalog_product).

Abbreviation search := (_search_products SearchProducts).
Abbreviation loop := (match_loop SearchProducts).

(** The loop adds the products of each ingredient in turn and keeps apart
    the ingredients without any. *)
Lemma fold_match_step (ingredients : list string)
  (acc : list product * list string) :
  fold_left (match_step SearchProducts) ingredients acc
  = (fst acc ++ concat (map search ingredients),
     snd acc ++ List.filter (found_nothing SearchProducts) ingredients).
Proof.
  revert acc.
  induction ingredients as [|i l IH]; intros [m u]; simpl.
  - now rewrite !app_nil_r.
  - rewrite IH. unfold found_nothing, match_step.
    destruct (search i) as [|p ps]; simpl.
    + now rewrite <- List.app_assoc.
    + now rewrite <- !List.app_assoc.
Qed.

Lemma match_loop_eq (ingredients : list string) :
  loop ingredients
  = (concat (map search ingredients),
     List.filter (found_nothing SearchProducts) ingredients).
Proof. unfold match_loop. now rewrite fold_match_step. Qed.

Lemma match_loop_app (before after : list string) :
  loop (before ++ after)
  = (fst (loop before) ++ fst (loop after),
     snd (loop before) ++ snd (loop after)).
Proof.
  rewrite !match_loop_eq. simpl.
  now rewrite map_app, concat_app, List.filter_app.
Qed.

(** C6, as the code has it: within a batch, an ingredient whose search
    returns no result, or whose search fails while the mock table has nothing
    for it, is put among the unmatched and adds no product, the ingredients
    before and after it being matched as they are on their own; an ingredient
    whose search fails while the mock table has products for it adds these
    products and is not put among the unmatched. *)
Theorem match_loop_isolates (before after : list string) (ingredient : string) :
  (SearchProducts ingredient = Ok []
   \/ ((exists e, SearchProducts ingredient = Raise e)
       /\ _mock_search_products ingredient = []) ->
   loop (before ++ ingredient :: after)
   = (fst (loop before) ++ fst (loop after),
      snd (loop before) ++ ingredient :: snd (loop after)))
  /\ ((exists e, SearchProducts ingredient = Raise e) ->
      _mock_search_products ingredient <> [] ->
      loop (before ++ ingredient :: after)
      = (fst (loop before) ++ _mock_search_products ingredient
           ++ fst (loop after),
         snd (loop before) ++ snd (loop after))).
Proof.
  split.
  - intros H.
    assert (E : search ingredient = []).
    { unfold _search_products.
      destruct H as [-> | [[e ->] Hm]]; [reflexivity | exact Hm]. }
    rewrite match_loop_app. f_equal.
    + f_equal. rewrite (match_loop_eq (ingredient :: after)), match_loop_eq.
      simpl. now rewrite E.
    + f_equal. rewrite (match_loop_eq (ingredient :: after)), match_loop_eq.
      simpl. unfold found_nothing at 1. now rewrite E.
  - intros [e He] Hm.
    assert (E : search ingredient = _mock_search_products ingredient).
    { unfold _search_products. now rewrite He. }
    rewrite match_loop_app. f_equal.
    + f_equal. rewrite (match_loop_eq (ingredient :: after)), match_loop_eq.
      simpl. now rewrite E.
    + f_equal. rewrite (match_loop_eq (ingredient :: after)), match_loop_eq.
      simpl. unfold found_nothing at 1. rewrite E.
      destruct (_mock_search_products ingredient); [congruence | reflexivity].
Qed.

End MatchingFacts.

(** C6 as stated fails: the search for garlic fails, yet garlic is matched to
    the product of the mock table and is not among the unmatched. *)
Lemma failed_search_still_matches :
  IngredientMatcher.catalog_down "Garlic"
  = Raise (Exception "failed to connect to all addresses")
  /\ IngredientMatcher.match_loop IngredientMatcher.catalog_down ["Garlic"]
     = ([IngredientMatcher.mock_product "GARLIC001" "Garlic"
           "Fresh garlic bulbs" "$1.49"], [])
  /\ ~ In "Garlic"
         (snd (IngredientMatcher.match_loop IngredientMatcher.catalog_down
                 ["Garlic"])).
Proof. repeat split. vm_compute. intros []. Qed.

Lemma match_loop_isolates_witness :
  (IngredientMatcher.catalog_down "quinoa"
   = Raise (Exception "failed to connect to all addresses")
   /\ IngredientMatcher._mock_search_products "quinoa" = [])
  /\ snd (IngredientMatcher.match_loop IngredientMatcher.catalog_down
            (["Garlic"] ++ "quinoa" :: ["Ground Beef"]))
     = ["quinoa"].
Proof.
  split; [split; reflexivity |].
  destruct (match_loop_isolates IngredientMatcher.catalog_down
              ["Garlic"] ["Ground Beef"] "quinoa") as [H _].
  rewrite H; [reflexivity |].
  right. split; [eexists; reflexivity | reflexivity].
Defined.

(** ** The backtracking matcher *)

Section ReFacts.
Import Re.
Local Open Scope string_scope.

Lemma star_stop (p : ascii -> bool) prev s cs k :
  Py.head_not p s = true -> star p prev s cs k = k prev s cs.
Proof.
  destruct s as [|c s]; simpl; [reflexivity|].
  intros H. apply negb_true_iff in H. now rewrite H.
Qed.

Lemma star_greedy (p : ascii -> bool) ds : forall prev t cs k res,
  Py.all_of p ds = true -> Py.head_not p t = true ->
  k (after prev ds) t cs = Some res ->
  star p prev (ds ++ t) cs k = Some res.
Proof.
  induction ds as [|c ds IH]; simpl; intros prev t cs k res Hall Hhead Hk.
  - rewrite star_stop; assumption.
  - apply andb_true_iff in Hall as [Hc Hall]. rewrite Hc.
    now rewrite (IH (Some c) t cs k res).
Qed.

Lemma star_none (P : string -> Prop) (p : ascii -> bool) cs k :
  (forall c s, P (String c s) -> p c = true -> P s) ->
  (forall prev s, P s -> k prev s cs = None) ->
  forall s prev, P s -> star p prev s cs k = None.
Proof.
  intros Hstep Hk. induction s as [|c s IH]; simpl; intros prev HP.
  - now apply Hk.
  - destruct (p c) eqn:Hc.
    + rewrite (IH (Some c)); [now apply Hk | now apply (Hstep c)].
    + now apply Hk.
Qed.

Lemma sub_from_skip r pre : forall prev rest,
  sub_from r (String.length pre) prev (pre ++ rest) = sub_from r 0 (after prev pre) rest.
Proof.
  induction pre as [|c pre IH]; simpl; intros prev rest.
  - destruct rest; reflexivity.
  - apply IH.
Qed.

Lemma sub_from_anchored r :
  (forall c s, match_at r (Some c) s = None) ->
  forall s c, sub_from r 0 (Some c) s = s.
Proof.
  intros H. induction s as [|a s IH]; cbn [sub_from]; intros c; [reflexivity|].
  now rewrite H, IH.
Qed.

Lemma sub_anchored_none r s :
  (forall c s, match_at r (Some c) s = None) ->
  match_at r None s = None -> sub r s = s.
Proof.
  intros H Hn. unfold sub. destruct s as [|a s]; cbn [sub_from]; [reflexivity|].
  rewrite Hn. now rewrite sub_from_anchored.
Qed.

Lemma length_append (a b : string) : String.length (a ++ b) = String.length a + String.length b.
Proof. induction a as [|c a IH]; simpl; [reflexivity | now rewrite IH]. Qed.

Lemma sub_anchored_some r pre rest cs :
  (forall c s, match_at r (Some c) s = None) ->
  pre <> "" ->
  match_at r None (pre ++ rest) = Some (rest, cs) -> sub r (pre ++ rest) = rest.
Proof.
  intros H Hne Hm. unfold sub. destruct pre as [|a pre]; [congruence|].
  change (String a pre ++ rest) with (String a (pre ++ rest)) in *.
  cbn [sub_from]. rewrite Hm. cbn [String.length].
  replace (S (String.length (pre ++ rest)) - String.length rest) with (S (String.length pre))
    by (rewrite length_append; lia).
  rewrite sub_from_skip.
  destruct (after (Some a) pre) as [c|] eqn:E.
  - now apply sub_from_anchored.
  - exfalso. clear -E. revert a E. induction pre; simpl; intros; [discriminate | eauto].
Qed.

End ReFacts.

(** ** The quantity prefix of the extractor *)

Section QuantityPrefixFacts.
Import Re IngredientMatcher.
Local Open Scope string_scope.

Lemma quantity_prefix_anchored c s : match_at quantity_prefix (Some c) s = None.
Proof. reflexivity. Qed.

Lemma quantity_prefix_digit d s :
  Py.is_digit d = true ->
  match_at quantity_prefix None (String d s)
  = star Py.is_digit (Some d) s [] (fun prev s cs => run quantity_tail prev s cs accept).
Proof.
  intros H. unfold match_at. 
  change quantity_prefix with (Seq Bol (Seq (Seq (Class Py.is_digit) (Star Py.is_digit)) quantity_tail)).
  cbn [run]. now rewrite H.
Qed.

Lemma digit_cases (P : ascii -> Prop) :
  P "0"%char -> P "1"%char -> P "2"%char -> P "3"%char -> P "4"%char ->
  P "5"%char -> P "6"%char -> P "7"%char -> P "8"%char -> P "9"%char ->
  forall c, Py.is_digit c = true -> P c.
Proof.
  intros. destruct c as [[] [] [] [] [] [] [] []]; try discriminate; assumption.
Qed.

Lemma tail_fails_on_digit c s prev cs :
  Py.is_digit c = true -> run quantity_tail prev (String c s) cs accept = None.
Proof. revert c. apply digit_cases; reflexivity. Qed.

Lemma tail_fails_on_slash s prev cs :
  run quantity_tail prev (String "/" s) cs accept = None.
Proof. reflexivity. Qed.

Lemma digits_then_fail (n t : string) :
  n <> "" -> Py.all_of Py.is_digit n = true ->
  Py.head_not Py.is_digit t = true ->
  (forall prev cs, run quantity_tail prev t cs accept = None) ->
  strip_quantity (n ++ t) = n ++ t.
Proof.
  intros Hne Hn Ht Hfail. unfold strip_quantity.
  apply sub_anchored_none; [exact quantity_prefix_anchored|].
  destruct n as [|d n]; [congruence|]. simpl in Hn.
  apply andb_true_iff in Hn as [Hd Hn].
  change (String d n ++ t) with (String d (n ++ t)).
  rewrite quantity_prefix_digit by exact Hd.
  apply (star_none (fun s => exists ds, Py.all_of Py.is_digit ds = true /\ s = ds ++ t)).
  - intros c s [ds [Hds E]] Hc.
    destruct ds as [|e ds].
    + change (String c s = t) in E. rewrite <- E in Ht. simpl in Ht.
      rewrite Hc in Ht. discriminate.
    + change (String c s = String e (ds ++ t)) in E. injection E as -> ->.
      simpl in Hds.
      apply andb_true_iff in Hds as [_ Hds]. now exists ds.
  - intros prev s [ds [Hds ->]]. destruct ds as [|e ds].
    + apply Hfail.
    + simpl in Hds. apply andb_true_iff in Hds as [He _].
      now apply tail_fails_on_digit.
  - now exists n.
Qed.

Lemma append_assoc (a b c : string) : (a ++ b) ++ c = a ++ b ++ c.
Proof.
  induction a as [|x a IH]; [reflexivity|].
  change (String x ((a ++ b) ++ c) = String x (a ++ b ++ c)). now f_equal.
Qed.

Lemma digits_then_match (n pre rest : string) :
  n <> "" -> Py.all_of Py.is_digit n = true ->
  Py.head_not Py.is_digit (pre ++ rest) = true ->
  (forall prev, run quantity_tail prev (pre ++ rest) [] accept = Some (rest, [])) ->
  strip_quantity (n ++ pre ++ rest) = rest.
Proof.
  intros Hne Hn Ht Hm. unfold strip_quantity.
  rewrite <- append_assoc.
  apply (sub_anchored_some _ _ _ []); [exact quantity_prefix_anchored | |].
  - destruct n; [congruence | discriminate].
  - rewrite append_assoc.
    destruct n as [|d n]; [congruence|]. simpl in Hn.
    apply andb_true_iff in Hn as [Hd Hn].
    change (String d n ++ pre ++ rest) with (String d (n ++ pre ++ rest)).
    rewrite quantity_prefix_digit by exact Hd.
    apply star_greedy; [assumption | assumption | apply Hm].
Qed.

End QuantityPrefixFacts.

(** ** What a match reads *)

Section ReadFacts.
Import Re.
Local Open Scope string_scope.

Lemma in_all_ascii (x : ascii) : In x all_ascii.
Proof.
  unfold all_ascii. rewrite <- (ascii_nat_embedding x).
  apply List.in_map. apply List.in_seq. pose proof (nat_ascii_bounded x). lia.
Qed.

Lemma occurs_app (c : ascii) (a b : string) :
  Py.occurs c (a ++ b) = Py.occurs c a || Py.occurs c b.
Proof.
  induction a as [|x a IH]; [reflexivity|].
  change (Py.occurs c (String x (a ++ b)) = Py.occurs c (String x a) || Py.occurs c b).
  cbn [Py.occurs]. rewrite IH. now rewrite orb_assoc.
Qed.

(** A successful run hands the rest of the input to its continuation, and
    has read the characters the pattern needs. *)
Lemma run_reads (c : ascii) (r : regex) :
  forall prev s cs k res,
    run r prev s cs k = Some res ->
    exists m prev' s' cs',
      s = m ++ s' /\ k prev' s' cs' = Some res
      /\ (needs c r = true -> Py.occurs c m = true).
Proof.
  induction r as [| p | r1 IH1 r2 IH2 | r1 IH1 r2 IH2 | p | | | | n r IH];
    intros prev s cs k res H; cbn [run] in H.
  - exists "", prev, s, cs. repeat split; [assumption | discriminate].
  - destruct s as [|x s]; [discriminate|].
    destruct (p x) eqn:Hp; [|discriminate].
    exists (String x ""), (Some x), s, cs. repeat split; [assumption|].
    cbn [needs]. intros Hn. rewrite List.forallb_forall in Hn.
    specialize (Hn x (in_all_ascii x)). rewrite Hp in Hn. simpl in Hn.
    cbn [Py.occurs]. now rewrite Hn.
  - apply IH1 in H as (m1 & p1 & s1 & cs1 & -> & H & Hn1).
    apply IH2 in H as (m2 & p2 & s2 & cs2 & -> & H & Hn2).
    exists (m1 ++ m2), p2, s2, cs2. repeat split.
    + clear. induction m1 as [|x m1 IH]; [reflexivity|].
      change (String x (m1 ++ m2 ++ s2) = String x ((m1 ++ m2) ++ s2)). now f_equal.
    + assumption.
    + cbn [needs]. rewrite occurs_app. intros Hn.
      apply orb_true_iff in Hn as [Hn|Hn]; [rewrite Hn1 | rewrite Hn2, orb_true_r]; auto.
  - cbn [needs].
    destruct (run r1 prev s cs k) as [res1|] eqn:E1.
    + injection H as <-. apply IH1 in E1 as (m & p' & s' & cs' & -> & Hk & Hn).
      exists m, p', s', cs'. repeat split; [assumption|].
      intros Hb. apply andb_true_iff in Hb as [Hb _]. auto.
    + apply IH2 in H as (m & p' & s' & cs' & -> & Hk & Hn).
      exists m, p', s', cs'. repeat split; [assumption|].
      intros Hb. apply andb_true_iff in Hb as [_ Hb]. auto.
  - revert prev H. induction s as [|x s IHs]; intros prev H; cbn [star] in H.
    + exists "", prev, "", cs. repeat split; [assumption | discriminate].
    + destruct (p x).
      * destruct (star p (Some x) s cs k) as [res1|] eqn:E.
        -- injection H as <-. apply IHs in E as (m & p' & s' & cs' & -> & Hk & _).
           exists (String x m), p', s', cs'. repeat split; [assumption | discriminate].
        -- exists "", prev, (String x s), cs. repeat split; [assumption | discriminate].
      * exists "", prev, (String x s), cs. repeat split; [assumption | discriminate].
  - destruct prev; [discriminate|].
    exists "", None, s, cs. repeat split; [assumption | discriminate].
  - destruct (at_end s); [|discriminate].
    exists "", prev, s, cs. repeat split; [assumption | discriminate].
  - destruct (xorb _ _); [|discriminate].
    exists "", prev, s, cs. repeat split; [assumption | discriminate].
  - apply IH in H as (m & p' & s' & cs' & -> & Hk & Hn).
    eexists m, p', s', _. repeat split; [exact Hk | exact Hn].
Qed.

Lemma match_at_reads (c : ascii) (r : regex) prev s res :
  needs c r = true -> match_at r prev s = Some res -> Py.occurs c s = true.
Proof.
  intros Hn H. unfold match_at in H.
  apply (run_reads c) in H as (m & p' & s' & cs' & -> & _ & Hm).
  rewrite occurs_app, Hm; auto.
Qed.

Lemma search_from_none (c : ascii) (r : regex) :
  needs c r = true ->
  forall s prev, Py.occurs c s = false -> search_from r prev s = None.
Proof.
  intros Hn. induction s as [|x s IH]; intros prev Ho; cbn [search_from].
  - destruct (match_at r prev "") as [[rest cs]|] eqn:E; [|reflexivity].
    apply (match_at_reads c) in E; [congruence | assumption].
  - destruct (match_at r prev (String x s)) as [[rest cs]|] eqn:E.
    + apply (match_at_reads c) in E; [congruence | assumption].
    + apply IH. cbn [Py.occurs] in Ho. now apply orb_false_iff in Ho as [_ Ho].
Qed.

End ReadFacts.

(** ** Splitting and joining *)

Section JoinFacts.
Local Open Scope string_scope.

Lemma split_on_plain (sep : ascii) (x : string) :
  Py.occurs sep x = false -> Py.split_on sep x = [x].
Proof.
  induction x as [|c x IH]; cbn [Py.occurs Py.split_on]; [reflexivity|].
  intros H. apply orb_false_iff in H as [Hc Hx].
  rewrite Hc, (IH Hx). reflexivity.
Qed.

Lemma split_on_cons (sep : ascii) (s : string) :
  exists piece rest, Py.split_on sep s = piece :: rest.
Proof.
  induction s as [|c s (piece & rest & IH)]; cbn [Py.split_on]; [eauto|].
  destruct (Ascii.eqb c sep); [eauto|]. rewrite IH. eauto.
Qed.

Lemma split_on_prefix (sep : ascii) (x y piece : string) (rest : list string) :
  Py.occurs sep x = false ->
  Py.split_on sep y = piece :: rest ->
  Py.split_on sep (x ++ y) = (x ++ piece) :: rest.
Proof.
  intros Hx Hy. induction x as [|c x IH]; [exact Hy|].
  cbn [Py.occurs] in Hx. apply orb_false_iff in Hx as [Hc Hx].
  change (Py.split_on sep (String c (x ++ y)) = String c (x ++ piece) :: rest).
  cbn [Py.split_on]. now rewrite Hc, (IH Hx).
Qed.

Lemma split_on_sep (sep : ascii) (y : string) :
  Py.split_on sep (String sep y) = "" :: Py.split_on sep y.
Proof. cbn [Py.split_on]. now rewrite Ascii.eqb_refl. Qed.

Lemma join_cons (sep x y : string) (l : list string) :
  Py.join sep (x :: y :: l) = x ++ sep ++ Py.join sep (y :: l).
Proof. reflexivity. Qed.

Lemma string_app_nil_r (x : string) : x ++ "" = x.
Proof.
  induction x as [|c x IH]; [reflexivity|].
  change (String c (x ++ "") = String c x). now f_equal.
Qed.

(** The items of a list joined with a comma and a comma-free padding are the
    head of the list and the padded others. *)
Lemma split_join (pad : string) (l : list string) : forall x,
  Py.occurs "," pad = false ->
  Forall (fun y => Py.occurs "," y = false) (x :: l) ->
  Py.split_on "," (Py.join (String "," pad) (x :: l))
  = x :: map (fun y => pad ++ y) l.
Proof.
  induction l as [|y l IH]; intros x Hpad Hall.
  - apply split_on_plain. now inversion Hall.
  - rewrite join_cons. inversion Hall as [|? ? Hx Hrest]; subst.
    change (String "," pad ++ Py.join (String "," pad) (y :: l))
      with (String "," (pad ++ Py.join (String "," pad) (y :: l))).
    pose proof (IH y Hpad Hrest) as E.
    rewrite (split_on_prefix "," x _ "" ((pad ++ y) :: map (fun y => pad ++ y) l)).
    + now rewrite string_app_nil_r.
    + exact Hx.
    + rewrite split_on_sep. f_equal.
      now apply split_on_prefix.
Qed.

Lemma contains_char (c : ascii) (s : string) :
  Py.contains (String c "") s = Py.occurs c s.
Proof.
  induction s as [|x s IH]; [reflexivity|].
  cbn [Py.contains Py.occurs Py.startswith]. rewrite IH.
  rewrite (Ascii.eqb_sym c x). destruct (Ascii.eqb x c); reflexivity.
Qed.

Lemma occurs_join (c : ascii) (sep : string) (l : list string) :
  Py.occurs c sep = false ->
  Forall (fun y => Py.occurs c y = false) l ->
  Py.occurs c (Py.join sep l) = false.
Proof.
  intros Hsep. induction l as [|x l IH]; intros Hall; [reflexivity|].
  inversion Hall as [|? ? Hx Hl]; subst.
  destruct l as [|y l]; [exact Hx|].
  rewrite join_cons, !occurs_app, Hx, Hsep. now apply IH.
Qed.

Lemma occurs_join_sep (c : ascii) (pad x y : string) (l : list string) :
  Py.occurs c (Py.join (String c pad) (x :: y :: l)) = true.
Proof.
  rewrite join_cons, !occurs_app. cbn [Py.occurs].
  rewrite Ascii.eqb_refl. now rewrite orb_true_r.
Qed.

End JoinFacts.

(** ** The parse of the parser's own output *)

Section ParserFacts.
Import Re IngredientMatcher.
Local Open Scope string_scope.

Lemma mem_In (x : string) (l : list string) : Py.mem x l = true <-> In x l.
Proof.
  unfold Py.mem. rewrite List.existsb_exists. split.
  - intros (y & Hy & E). apply String.eqb_eq in E. now subst.
  - intros H. exists x. split; [assumption | apply String.eqb_refl].
Qed.

Lemma add_ingredient_NoDup (found : list string) (raw : string) :
  List.NoDup found -> List.NoDup (add_ingredient found raw).
Proof.
  intros H. unfold add_ingredient.
  destruct (recorded_name raw) as [x|]; [|exact H].
  destruct (Py.mem x found) eqn:E; [exact H|].
  apply List.NoDup_app; [exact H | repeat constructor; intros [] | ].
  intros y Hy [<-|[]]. apply mem_In in Hy. congruence.
Qed.

Lemma fold_add_NoDup (raws found : list string) :
  List.NoDup found -> List.NoDup (fold_left add_ingredient raws found).
Proof.
  revert found. induction raws as [|raw raws IH]; intros found H; [exact H|].
  apply IH. now apply add_ingredient_NoDup.
Qed.

Lemma parse_NoDup (text : string) : List.NoDup (_parse_ingredients text).
Proof.
  unfold _parse_ingredients.
  destruct (match search cart_pattern text with Some m => Some m | None => search availability_pattern text end) as [m|].
  - destruct (group 1 m); [apply fold_add_NoDup|]; constructor.
  - destruct (Py.contains "," text); [apply fold_add_NoDup|]; constructor.
Qed.

Lemma fold_add_recorded (raws names : list string) : forall found,
  Forall2 (fun raw x => recorded_name raw = Some x) raws names ->
  List.NoDup (found ++ names) ->
  fold_left add_ingredient raws found = (found ++ names)%list.
Proof.
  revert names. induction raws as [|raw raws IH]; intros names found HF Hnd;
    inversion HF as [|? x ? names' Hrec HF']; subst; cbn [fold_left].
  - now rewrite List.app_nil_r.
  - unfold add_ingredient at 2. rewrite Hrec.
    assert (Hx : Py.mem x found = false).
    { destruct (Py.mem x found) eqn:E; [|reflexivity].
      apply mem_In in E. apply List.NoDup_remove_2 in Hnd.
      exfalso. apply Hnd. apply List.in_or_app. now left. }
    rewrite Hx. rewrite (IH names' (found ++ [x])%list HF').
    + now rewrite <- List.app_assoc.
    + now rewrite <- List.app_assoc.
Qed.

Lemma comes_back_spec (pad x : string) :
  comes_back pad x = true ->
  Py.occurs "," x = false /\ Py.occurs ":" x = false
  /\ recorded_name (Py.strip x) = Some x
  /\ recorded_name (Py.strip (pad ++ x)) = Some x.
Proof.
  unfold comes_back. intros H.
  apply andb_true_iff in H as [H H4]. apply andb_true_iff in H as [H H3].
  apply andb_true_iff in H as [H1 H2].
  apply negb_true_iff in H1, H2.
  destruct (recorded_name (Py.strip x)) as [y|]; [|discriminate].
  destruct (recorded_name (Py.strip (pad ++ x))) as [z|]; [|discriminate].
  apply String.eqb_eq in H3, H4. subst. auto.
Qed.

Lemma stable_names_come_back :
  forallb (comes_back "") stable_names = true
  /\ forallb (comes_back " ") stable_names = true.
Proof. split; vm_compute; reflexivity. Qed.

Lemma patterns_need_colon :
  needs ":" cart_pattern = true /\ needs ":" availability_pattern = true.
Proof. split; vm_compute; reflexivity. Qed.

Lemma reparse_joined (pad : string) (names : list string) :
  Py.occurs "," pad = false -> Py.occurs ":" pad = false ->
  (2 <= List.length names)%nat -> List.NoDup names ->
  Forall (fun x => comes_back pad x = true) names ->
  _parse_ingredients (Py.join (String "," pad) names) = names.
Proof.
  intros Hp1 Hp2 Hlen Hnd Hall.
  destruct names as [|x [|y l]]; [simpl in Hlen; lia | simpl in Hlen; lia |].
  assert (Hall' : Forall (fun z => Py.occurs "," z = false /\ Py.occurs ":" z = false
                    /\ recorded_name (Py.strip z) = Some z
                    /\ recorded_name (Py.strip (pad ++ z)) = Some z) (x :: y :: l)).
  { eapply List.Forall_impl; [|exact Hall]. intros z. apply comes_back_spec. }
  assert (Hcolon : Py.occurs ":" (Py.join (String "," pad) (x :: y :: l)) = false).
  { apply occurs_join; [exact Hp2|].
    eapply List.Forall_impl; [|exact Hall']. now intros z (_ & H & _). }
  unfold _parse_ingredients.
  unfold search.
  rewrite (search_from_none ":" cart_pattern (proj1 patterns_need_colon) _ None Hcolon).
  rewrite (search_from_none ":" availability_pattern (proj2 patterns_need_colon) _ None Hcolon).
  rewrite (contains_char "," _), occurs_join_sep.
  unfold raw_items. rewrite split_join; [|exact Hp1|].
  2:{ eapply List.Forall_impl; [|exact Hall']. now intros z (H & _). }
  apply (fold_add_recorded _ (x :: y :: l) []); [|exact Hnd].
  inversion Hall' as [|? ? (_ & _ & Hx & _) Hrest]; subst.
  change (map Py.strip (x :: map (fun y => pad ++ y) (y :: l)))
    with (Py.strip x :: map Py.strip (map (fun y => pad ++ y) (y :: l))).
  constructor; [exact Hx|].
  clear -Hrest. revert Hrest. generalize (y :: l) as zs. intros zs Hrest.
  induction Hrest as [|z zs (_ & _ & _ & Hz) _ IH]; cbn [map]; constructor;
    assumption.
Qed.

Lemma stable_names_alone :
  forallb (fun x => match _parse_ingredients (Py.join "," [x]) with
                    | [] => true
                    | _ => false
                    end) stable_names = true.
Proof. vm_compute. reflexivity. Qed.

(** C9, as the code has it: take a text whose parse gives catalog names that
    the cleaning leaves recognisable.  When there are two or more of them, the
    parse of these names joined with a comma, with or without a blank after
    it, gives the same list again.  When there is one, the joined text has no
    comma and no header, and its parse is empty. *)
Theorem reparse_catalog_names (text : string) :
  forallb (fun x => Py.mem x stable_names) (_parse_ingredients text) = true ->
  ((2 <= List.length (_parse_ingredients text))%nat ->
   _parse_ingredients (Py.join "," (_parse_ingredients text))
   = _parse_ingredients text
   /\ _parse_ingredients (Py.join ", " (_parse_ingredients text))
      = _parse_ingredients text)
  /\ (List.length (_parse_ingredients text) = 1%nat ->
      _parse_ingredients (Py.join "," (_parse_ingredients text)) = []).
Proof.
  intros Hall. rewrite List.forallb_forall in Hall. split.
  - intros Hlen.
    destruct stable_names_come_back as [H0 H1].
    rewrite List.forallb_forall in H0, H1.
    split.
    + apply (reparse_joined ""); try reflexivity; try assumption.
      * apply parse_NoDup.
      * apply List.Forall_forall. intros x Hx. apply H0, mem_In, Hall, Hx.
    + apply (reparse_joined " "); try reflexivity; try assumption.
      * apply parse_NoDup.
      * apply List.Forall_forall. intros x Hx. apply H1, mem_In, Hall, Hx.
  - intros Hlen.
    destruct (_parse_ingredients text) as [|x [|y l]]; try discriminate.
    pose proof stable_names_alone as Ha.
    rewrite List.forallb_forall in Ha.
    specialize (Ha x (proj1 (mem_In x stable_names) (Hall x (or_introl eq_refl)))).
    destruct (_parse_ingredients (Py.join "," [x])); [reflexivity | discriminate].
Qed.

End ParserFacts.

(** C7 as stated fails: an item that begins with a fraction or with a mixed
    number keeps its quantity and its unit, and is recorded with them. *)
Lemma fraction_prefix_not_removed :
  IngredientMatcher.strip_quantity "1/2 cup quinoa" <> "quinoa"
  /\ IngredientMatcher.strip_quantity "1 1/2 cups quinoa" <> "quinoa"
  /\ IngredientMatcher._parse_ingredients "1 1/2 cups quinoa, 1/2 cup oats"
     = ["1 1/2 cups quinoa"; "1/2 cup oats"].
Proof. repeat split; vm_compute; discriminate. Qed.

(** C9 as stated fails: a text with one ingredient parses to one name, and
    that name alone parses to nothing. *)
Lemma reparse_single_name_lost :
  IngredientMatcher._parse_ingredients "cart (serves 4): garlic" = ["Garlic"]
  /\ IngredientMatcher._parse_ingredients
       (Py.join ","
          (IngredientMatcher._parse_ingredients "cart (serves 4): garlic"))
     = []
  /\ IngredientMatcher._parse_ingredients
       (Py.join ","
          (IngredientMatcher._parse_ingredients "cart (serves 4): garlic"))
     <> IngredientMatcher._parse_ingredients "cart (serves 4): garlic".
Proof. repeat split. vm_compute. discriminate. Qed.

Lemma reparse_catalog_names_witness :
  forallb (fun x => Py.mem x IngredientMatcher.stable_names)
    (IngredientMatcher._parse_ingredients
       "cart (serves 4): 2 cups Roma Tomatoes, 1 lb Ground Beef, fresh garlic")
  = true
  /\ IngredientMatcher._parse_ingredients
       "cart (serves 4): 2 cups Roma Tomatoes, 1 lb Ground Beef, fresh garlic"
     = ["Roma Tomatoes"; "Ground Beef"; "Garlic"]
  /\ IngredientMatcher._parse_ingredients
       (Py.join ","
          (IngredientMatcher._parse_ingredients
             "cart (serves 4): 2 cups Roma Tomatoes, 1 lb Ground Beef, fresh garlic"))
     = IngredientMatcher._parse_ingredients
         "cart (serves 4): 2 cups Roma Tomatoes, 1 lb Ground Beef, fresh garlic".
Proof.
  split; [reflexivity | split; [reflexivity |]].
  destruct (reparse_catalog_names
              "cart (serves 4): 2 cups Roma Tomatoes, 1 lb Ground Beef, fresh garlic")
    as [H _]; [reflexivity |].
  destruct H as [H _]; [vm_compute; lia | exact H].
Defined.

(** * Further properties *)

(** ** The parser of the ingredient matcher *)

Section ParserMoreFacts.
Import Re IngredientMatcher.
Local Open Scope string_scope.

(** X1: the names [_parse_ingredients] returns are pairwise distinct. *)
Theorem parse_names_distinct (text : string) :
  List.NoDup (_parse_ingredients text).
Proof. apply parse_NoDup. Qed.

Lemma mapping_get_value (key : string) (table : list (string * string))
  (v : string) :
  mapping_get key table = Some v -> In v (map snd table).
Proof.
  induction table as [|[k w] table IH]; cbn [mapping_get map snd];
    [discriminate|].
  destruct (String.eqb key k).
  - intros H. injection H as <-. now left.
  - intros H. right. now apply IH.
Qed.

Lemma mapping_partial_value (name : string) (table : list (string * string))
  (v : string) :
  mapping_partial name table = Some v -> In v (map snd table).
Proof.
  induction table as [|[k w] table IH]; cbn [mapping_partial map snd];
    [discriminate|].
  destruct (Py.contains k name).
  - intros H. injection H as <-. now left.
  - intros H. right. now apply IH.
Qed.

Lemma catalog_names_not_empty (v : string) :
  In v (map snd ingredient_mapping) -> v <> "".
Proof.
  assert (H : forallb (fun x => negb (String.eqb x ""))
                (map snd ingredient_mapping) = true) by (vm_compute; reflexivity).
  rewrite List.forallb_forall in H. intros Hin E.
  specialize (H v Hin). subst v. discriminate.
Qed.

(** A recorded name is a catalog name or the cleaned text itself. *)
Lemma recorded_name_cases (raw x : string) :
  recorded_name raw = Some x ->
  In x (map snd ingredient_mapping)
  \/ (x = clean_ingredient_name (strip_quantity raw) /\ x <> "").
Proof.
  unfold recorded_name.
  destruct (clean_ingredient_name (strip_quantity raw)) as [|c s] eqn:E;
    [discriminate|].
  intros H. injection H as <-. unfold mapped_or_clean.
  destruct (mapping_get _ ingredient_mapping) as [v|] eqn:E1.
  - left. now apply mapping_get_value in E1.
  - destruct (mapping_partial _ ingredient_mapping) as [v|] eqn:E2.
    + left. now apply mapping_partial_value in E2.
    + right. split; [reflexivity | discriminate].
Qed.

Lemma fold_add_names (P : string -> Prop) (raws : list string) :
  (forall raw x, recorded_name raw = Some x -> P x) ->
  forall found, Forall P found -> Forall P (fold_left add_ingredient raws found).
Proof.
  intros HP. induction raws as [|raw raws IH]; intros found Hf; [exact Hf|].
  cbn [fold_left]. apply IH. unfold add_ingredient.
  destruct (recorded_name raw) as [x|] eqn:E; [|exact Hf].
  destruct (Py.mem x found); [exact Hf|].
  apply Forall_app. split; [exact Hf|].
  constructor; [now apply (HP raw) | constructor].
Qed.

Lemma parse_names (P : string -> Prop) (text : string) :
  (forall raw x, recorded_name raw = Some x -> P x) ->
  Forall P (_parse_ingredients text).
Proof.
  intros HP. unfold _parse_ingredients.
  destruct (match search cart_pattern text with
            | Some m => Some m
            | None => search availability_pattern text
            end) as [m|].
  - destruct (group 1 m); [apply fold_add_names; [exact HP|]|]; constructor.
  - destruct (Py.contains "," text);
      [apply fold_add_names; [exact HP|]|]; constructor.
Qed.

(** X2: no name [_parse_ingredients] returns is empty: each one is a catalog
    name of the synonym table or a cleaned item that is not empty. *)
Theorem parse_names_not_empty (text : string) :
  Forall (fun x => x <> ""
                   /\ (In x (map snd ingredient_mapping)
                       \/ exists raw,
                            x = clean_ingredient_name (strip_quantity raw)))
         (_parse_ingredients text).
Proof.
  apply parse_names. intros raw x H.
  destruct (recorded_name_cases raw x H) as [Hin | [-> Hne]].
  - split; [now apply catalog_names_not_empty | now left].
  - split; [exact Hne | right; now exists raw].
Qed.

End ParserMoreFacts.

Section ParserPlainText.
Import Re IngredientMatcher.
Local Open Scope string_scope.

Variable SearchProducts : string -> result (list catalog_product).

(** X3: a text with neither a colon nor a comma has no header and no list:
    its parse is empty, and the agent replies that it found no ingredient,
    whatever the catalog. *)
Theorem plain_text_has_no_ingredient (text : string) :
  Py.occurs ":" text = false ->
  Py.occurs "," text = false ->
  _parse_ingredients text = []
  /\ match_ingredients_from_text SearchProducts text = NoIngredients text.
Proof.
  intros Hcolon Hcomma.
  assert (E : _parse_ingredients text = []).
  { unfold _parse_ingredients, search.
    rewrite (search_from_none ":" cart_pattern (proj1 patterns_need_colon)
               text None Hcolon).
    rewrite (search_from_none ":" availability_pattern
               (proj2 patterns_need_colon) text None Hcolon).
    now rewrite (contains_char "," text), Hcomma. }
  split; [exact E|]. unfold match_ingredients_from_text. now rewrite E.
Qed.

End ParserPlainText.

Lemma plain_text_has_no_ingredient_witness :
  Py.occurs ":" "two cups of quinoa" = false
  /\ Py.occurs "," "two cups of quinoa" = false
  /\ IngredientMatcher.match_ingredients_from_text
       IngredientMatcher.catalog_down "two cups of quinoa"
     = IngredientMatcher.NoIngredients "two cups of quinoa".
Proof.
  split; [reflexivity | split; [reflexivity |]].
  apply (plain_text_has_no_ingredient IngredientMatcher.catalog_down);
    reflexivity.
Defined.

(** ** The replies of the ingredient matcher *)

Section ReplyFacts.
Import IngredientMatcher.

Variable SearchProducts : string -> result (list catalog_product).

Lemma filter_found_nothing_In (ingredients : list string) (x : string) :
  In x (List.filter (found_nothing SearchProducts) ingredients)
  <-> In x ingredients /\ _search_products SearchProducts x = [].
Proof.
  rewrite List.filter_In. unfold found_nothing.
  destruct (_search_products SearchProducts x); split; intros [H1 H2];
    split; auto; discriminate.
Qed.

Lemma filter_partition_length {A : Type} (f g : A -> bool) (l : list A) :
  (forall x, In x l -> g x = negb (f x)) ->
  List.length (List.filter g l) + List.length (List.filter f l) = List.length l.
Proof.
  induction l as [|a l IH]; intros H; [reflexivity|].
  cbn [List.filter]. rewrite (H a (or_introl eq_refl)).
  specialize (IH (fun x Hx => H x (or_intror Hx))).
  destruct (f a); cbn [negb List.length]; lia.
Qed.

(** X4: in the reply for a batch, an ingredient is unmatched exactly when its
    search gave no product and matched otherwise, so the two lists split the
    batch; the product ids are those of the products, in order; and the
    message counts the matched ingredients. *)
Theorem match_reply_splits_batch (ingredients : list string) :
  exists matched unmatched product_ids products message,
    match_ingredients SearchProducts ingredients
    = Matched matched unmatched product_ids products message
    /\ (forall x, In x unmatched
                  <-> In x ingredients /\ _search_products SearchProducts x = [])
    /\ (forall x, In x matched
                  <-> In x ingredients /\ _search_products SearchProducts x <> [])
    /\ List.length matched + List.length unmatched = List.length ingredients
    /\ product_ids = map id products
    /\ products = concat (map (_search_products SearchProducts) ingredients)
    /\ message
       = ("Successfully matched " ++ Py.str_of_nat (List.length matched)
            ++ " of " ++ Py.str_of_nat (List.length ingredients)
            ++ " ingredients to " ++ Py.str_of_nat (List.length products)
            ++ " products")%string.
Proof.
  unfold match_ingredients. rewrite match_loop_eq.
  set (unmatched := List.filter (found_nothing SearchProducts) ingredients).
  set (matched := List.filter (fun i => negb (Py.mem i unmatched)) ingredients).
  assert (Hmem : forall x, In x ingredients ->
            negb (Py.mem x unmatched) = negb (found_nothing SearchProducts x)).
  { intros x Hx. f_equal. apply eq_true_iff_eq. rewrite mem_In.
    unfold unmatched. rewrite List.filter_In. tauto. }
  assert (Hlen : List.length matched + List.length unmatched
                 = List.length ingredients).
  { apply filter_partition_length. exact Hmem. }
  eexists _, _, _, _, _. split; [reflexivity|].
  split; [apply filter_found_nothing_In|].
  split.
  { intros x. fold unmatched. fold matched. unfold matched.
    rewrite List.filter_In. split.
    - intros [Hx Hm]. split; [exact Hx|].
      rewrite (Hmem x Hx) in Hm. unfold found_nothing in Hm.
      destruct (_search_products SearchProducts x); [discriminate | discriminate].
    - intros [Hx Hs]. split; [exact Hx|]. rewrite (Hmem x Hx).
      unfold found_nothing.
      destruct (_search_products SearchProducts x); [congruence | reflexivity]. }
  split; [exact Hlen|].
  split; [reflexivity|]. split; [reflexivity|].
  fold unmatched. replace (List.length ingredients - List.length unmatched)
    with (List.length matched) by lia.
  reflexivity.
Qed.

Lemma mock_get_entry (ingredient : string)
  (table : list (string * list product)) (ps : list product) :
  mock_get ingredient table = Some ps -> In (ingredient, ps) table.
Proof.
  induction table as [|[k v] table IH]; cbn [mock_get]; [discriminate|].
  destruct (String.eqb_spec ingredient k) as [->|_].
  - intros H. injection H as <-. now left.
  - intros H. right. now apply IH.
Qed.

Lemma mock_partial_entry (ingredient : string)
  (table : list (string * list product)) (ps : list product) :
  mock_partial ingredient table = Some ps ->
  exists key, In (key, ps) table
    /\ (Py.contains (Py.lower key) (Py.lower ingredient)
        || Py.contains (Py.lower ingredient) (Py.lower key)) = true.
Proof.
  induction table as [|[k v] table IH]; cbn [mock_partial]; [discriminate|].
  destruct (_ || _) eqn:E.
  - intros H. injection H as <-. exists k. split; [now left | exact E].
  - intros H. destruct (IH H) as (key & Hin & Hc).
    exists key. split; [now right | exact Hc].
Qed.

Lemma startswith_refl (s : string) : Py.startswith s s = true.
Proof.
  induction s as [|c s IH]; [reflexivity|].
  cbn [Py.startswith]. now rewrite Ascii.eqb_refl, IH.
Qed.

Lemma contains_refl (s : string) : Py.contains s s = true.
Proof. destruct s; cbn [Py.contains]; now rewrite startswith_refl. Qed.

(** Every entry of the mock table holds one product, named as its key. *)
Lemma mock_products_entries (key : string) (ps : list product) :
  In (key, ps) mock_products -> exists p, ps = [p] /\ name p = key.
Proof.
  assert (H : forallb (fun e => match snd e with
                                | [p] => String.eqb (name p) (fst e)
                                | _ => false
                                end) mock_products = true)
    by (vm_compute; reflexivity).
  rewrite List.forallb_forall in H. intros Hin. specialize (H _ Hin).
  cbn [fst snd] in H. destruct ps as [|p [|q ps]]; try discriminate.
  exists p. split; [reflexivity | now apply String.eqb_eq].
Qed.

(** X5: the mock search gives at most one product for an ingredient, and a
    product it gives is the entry of a mock name that contains the ingredient
    or is contained in it, letter case apart. *)
Theorem mock_search_at_most_one (ingredient : string) :
  (List.length (_mock_search_products ingredient) <= 1)%nat
  /\ forall p, In p (_mock_search_products ingredient) ->
       In (name p, [p]) mock_products
       /\ (Py.contains (Py.lower (name p)) (Py.lower ingredient)
           || Py.contains (Py.lower ingredient) (Py.lower (name p))) = true.
Proof.
  unfold _mock_search_products.
  destruct (mock_get ingredient mock_products) as [ps|] eqn:Eg.
  - apply mock_get_entry in Eg.
    destruct (mock_products_entries _ _ Eg) as (p & -> & Hn).
    split; [simpl; lia|]. intros q [<-|[]]. rewrite Hn.
    split; [exact Eg|]. now rewrite contains_refl.
  - destruct (mock_partial ingredient mock_products) as [ps|] eqn:Ep.
    + apply mock_partial_entry in Ep as (key & Hin & Hc).
      destruct (mock_products_entries _ _ Hin) as (p & -> & Hn).
      split; [simpl; lia|]. intros q [<-|[]]. rewrite Hn.
      split; [exact Hin | exact Hc].
    + split; [simpl; lia | intros p []].
Qed.

(** The two digits of an amount of cents. *)
Lemma format_02d_two_digits (c : Z) :
  (0 <= c < 100)%Z ->
  exists a b, Py.is_digit a = true /\ Py.is_digit b = true
              /\ format_02d c = String a (String b "").
Proof.
  intros Hc.
  assert (H : forallb (fun n => match format_02d (Z.of_nat n) with
                                | String a (String b "") =>
                                    Py.is_digit a && Py.is_digit b
                                | _ => false
                                end) (List.seq 0 100) = true)
    by (vm_compute; reflexivity).
  rewrite List.forallb_forall in H.
  specialize (H (Z.to_nat c)). rewrite Z2Nat.id in H by lia.
  assert (Hin : In (Z.to_nat c) (List.seq 0 100)) by (apply List.in_seq; lia).
  specialize (H Hin).
  destruct (format_02d c) as [|a [|b [|? ?]]]; try discriminate.
  apply andb_true_iff in H as [Ha Hb]. now exists a, b.
Qed.

(** X6: for a [Money] amount whose nanos are within a unit, the price text
    is a dollar sign, the units, a point and exactly two digits, those of the
    cents rounded down. *)
Theorem price_text_two_decimals (units nanos : Z) :
  (0 <= nanos < 1000000000)%Z ->
  exists a b, Py.is_digit a = true /\ Py.is_digit b = true
    /\ price_text units nanos
       = ("$" ++ Py.str_of_Z units ++ "." ++ String a (String b ""))%string
    /\ format_02d (nanos / 10000000) = String a (String b "").
Proof.
  intros Hn.
  destruct (format_02d_two_digits (nanos / 10000000)) as (a & b & Ha & Hb & E).
  { split; [apply Z.div_pos; lia | apply Z.div_lt_upper_bound; lia]. }
  exists a, b. unfold price_text. rewrite E. auto.
Qed.

End ReplyFacts.

Lemma price_text_two_decimals_witness :
  (0 <= 50000000 < 1000000000)%Z
  /\ IngredientMatcher.price_text 8 50000000 = "$8.05".
Proof.
  split; [lia |].
  destruct (price_text_two_decimals 8 50000000) as (a & b & _ & _ & H & E);
    [lia |].
  vm_compute in E. injection E as <- <-. exact H.
Defined.

(** ** More on the orchestration *)

Section OrchestratorMoreFacts.
Import Orchestrator.

Variable json_loads : string -> option ingredient_response.

(** X7: whatever the two agents answer, the result of [process_recipe] has
    the status "success" and lists under "ingredients" the comma-separated
    pieces of the request; the one of [get_cart_contents] has the status
    "success" and an empty list of cart items. *)
Theorem orchestrator_always_reports_success
  (call_a2a_agent : string -> string -> a2a_result)
  (recipe_text user_id : string) :
  dict_get "status" (process_recipe call_a2a_agent json_loads recipe_text user_id)
  = Some (VStr "success")
  /\ dict_get "ingredients"
       (process_recipe call_a2a_agent json_loads recipe_text user_id)
     = Some (VList (extract_ingredients recipe_text))
  /\ dict_get "status" (get_cart_contents call_a2a_agent user_id)
     = Some (VStr "success")
  /\ dict_get "cart_items" (get_cart_contents call_a2a_agent user_id)
     = Some (VList []).
Proof.
  unfold process_recipe, get_cart_contents.
  repeat match goal with
         | |- context [call_a2a_agent ?u ?m] => destruct (call_a2a_agent u m)
         | |- context [should_add_to_cart ?t] => destruct (should_add_to_cart t)
         end;
    repeat split.
Qed.

(** X8: for a request that starts with "check ingredient availability", in
    any letter case, the result depends neither on the cart adder nor on the
    user: two worlds with the same ingredient matcher give the same result. *)
Theorem availability_check_ignores_cart_adder
  (call1 call2 : string -> string -> a2a_result)
  (recipe_text user1 user2 : string) :
  should_add_to_cart recipe_text = false ->
  (forall message_text,
     call1 matcher_url message_text = call2 matcher_url message_text) ->
  process_recipe call1 json_loads recipe_text user1
  = process_recipe call2 json_loads recipe_text user2.
Proof.
  intros Hcheck Hsame. unfold process_recipe.
  rewrite Hcheck, Hsame. reflexivity.
Qed.

(** X9: a reply of the matcher that is empty or does not decode counts as a
    match of nothing: when the cart adder then answers, or is not asked, the
    result has no product, and its message names the pieces of the request. *)
Theorem undecodable_reply_matches_nothing
  (call_a2a_agent : string -> string -> a2a_result)
  (recipe_text user_id response_text : string) :
  call_a2a_agent matcher_url
    (ingredients_message (extract_ingredients recipe_text))
  = A2ASuccess response_text ->
  response_text = "" \/ json_loads response_text = None ->
  should_add_to_cart recipe_text = false
  \/ (exists reply,
        call_a2a_agent adder_url (cart_message user_id []) = A2ASuccess reply) ->
  let r := process_recipe call_a2a_agent json_loads recipe_text user_id in
  dict_get "matched_products" r = Some (VList [])
  /\ dict_get "product_details" r = Some (VProducts [])
  /\ dict_get "unmatched_ingredients" r = Some (VList [])
  /\ dict_get "message" r
     = Some (VStr ("Recipe processed via A2A protocol. No products matched from ingredients: "
                     ++ Py.join ", " (extract_ingredients recipe_text))%string).
Proof.
  intros Hm Hbad Hcart r.
  assert (E : parse_match_response json_loads response_text = empty_response).
  { unfold parse_match_response.
    destruct Hbad as [-> | ->]; [reflexivity | now destruct response_text]. }
  assert (Er : r = final_result (extract_ingredients recipe_text) empty_response).
  { subst r. unfold process_recipe. rewrite Hm, E.
    destruct Hcart as [-> | [reply Hr]]; [reflexivity|].
    cbn [product_ids empty_response]. rewrite Hr.
    now destruct (should_add_to_cart recipe_text). }
  rewrite Er. repeat split.
Qed.

End OrchestratorMoreFacts.

Lemma availability_check_ignores_cart_adder_witness :
  Orchestrator.should_add_to_cart "Check ingredient availability: garlic" = false
  /\ Orchestrator.process_recipe Orchestrator.adder_down Orchestrator.one_garlic
       "Check ingredient availability: garlic" "u1"
     = Orchestrator.process_recipe (fun _ _ => Orchestrator.A2ASuccess "reply")
         Orchestrator.one_garlic "Check ingredient availability: garlic" "u2".
Proof.
  split; [reflexivity |].
  apply (availability_check_ignores_cart_adder Orchestrator.one_garlic);
    [reflexivity |].
  intros message_text. reflexivity.
Defined.

Lemma undecodable_reply_matches_nothing_witness :
  Orchestrator.dict_get "matched_products"
    (Orchestrator.process_recipe (fun _ _ => Orchestrator.A2ASuccess "oops")
       (fun _ => None) "garlic, quinoa" "u1")
  = Some (Orchestrator.VList []).
Proof.
  destruct (undecodable_reply_matches_nothing (fun _ => None)
              (fun _ _ => Orchestrator.A2ASuccess "oops")
              "garlic, quinoa" "u1" "oops") as (H & _).
  - reflexivity.
  - right. reflexivity.
  - right. exists "oops". reflexivity.
  - exact H.
Defined.

(** ** The recipe store and the service in front of it *)

Section StoreFacts.
Import RecipeStore.



Lemma to_recipe_id (recipe_data : recipe_row) (recipe : Recipe) :
  to_recipe recipe_data = Ok recipe ->
  row_recipe_id recipe_data = Some (recipe_id recipe).
Proof.
  unfold to_recipe.
  destruct (to_ingredients _); [|discriminate].
  destruct (row_recipe_id recipe_data) as [rid|]; [|discriminate].
  destruct (row_title recipe_data); [|discriminate].
  destruct (row_default_servings recipe_data); [|discriminate].
  cbn [required]. intros H. injection H as <-. reflexivity.
Qed.

(** X11: when every row of the store converts, [list_recipes] gives one
    recipe for each row, and [get_recipe] gives the first recipe of that list
    with the wanted id, or [None] when the list has none. *)
Theorem get_recipe_is_first_listed (recipes : list recipe_row)
  (all : list Recipe) (wanted : string) :
  list_recipes recipes = Ok all ->
  List.length all = List.length recipes
  /\ get_recipe recipes wanted
     = Ok (List.find (fun recipe => String.eqb (recipe_id recipe) wanted) all).
Proof.
  revert all. induction recipes as [|row rows IH]; intros all H.
  - injection H as <-. split; reflexivity.
  - cbn [list_recipes] in H.
    destruct (to_recipe row) as [recipe|] eqn:Er; [|discriminate].
    destruct (list_recipes rows) as [others|]; [|discriminate].
    injection H as <-. destruct (IH others eq_refl) as [Hl Hg].
    split; [cbn [List.length]; now rewrite Hl|].
    cbn [get_recipe List.find]. rewrite (to_recipe_id _ _ Er).
    cbn [required]. rewrite Er.
    destruct (String.eqb (recipe_id recipe) wanted); [reflexivity | exact Hg].
Qed.

End StoreFacts.


Lemma get_recipe_is_first_listed_witness :
  (exists all, RecipeStore.list_recipes RecipeStore.pantry = Ok all
               /\ List.length all = 2%nat)
  /\ (exists recipe,
        RecipeStore.get_recipe RecipeStore.pantry "empty_plate" = Ok (Some recipe)
        /\ RecipeStore.title recipe = "Empty Plate").
Proof.
  destruct (RecipeStore.list_recipes RecipeStore.pantry) as [all|] eqn:E;
    [|discriminate].
  destruct (get_recipe_is_first_listed RecipeStore.pantry all "empty_plate" E)
    as [Hl Hg].
  split.
  - exists all. split; [reflexivity | exact Hl].
  - rewrite Hg. vm_compute in E. injection E as <-.
    eexists. split; reflexivity.
Defined.

Section ServiceFacts.
Import GrpcServer.

Variable call_a2a_agent : string -> string -> Orchestrator.a2a_result.
Variable json_loads : string -> option Orchestrator.ingredient_response.

Lemma process_recipe_is_success (recipe_text user : string) :
  read_text "status" (process_recipe call_a2a_agent json_loads recipe_text user)
  = Ok "success".
Proof.
  unfold read_text, process_recipe, Orchestrator.process_recipe.
  repeat match goal with
         | |- context [call_a2a_agent ?u ?m] => destruct (call_a2a_agent u m)
         | |- context [Orchestrator.should_add_to_cart ?t] =>
             destruct (Orchestrator.should_add_to_cart t)
         end;
    reflexivity.
Qed.

Lemma process_recipe_has_message (recipe_text user : string) :
  exists text,
    Orchestrator.dict_get "message"
      (process_recipe call_a2a_agent json_loads recipe_text user)
    = Some (Orchestrator.VStr text).
Proof.
  unfold process_recipe, Orchestrator.process_recipe.
  repeat match goal with
         | |- context [call_a2a_agent ?u ?m] => destruct (call_a2a_agent u m)
         | |- context [Orchestrator.should_add_to_cart ?t] =>
             destruct (Orchestrator.should_add_to_cart t)
         end;
    eexists; reflexivity.
Qed.

Lemma process_recipe_ingredients (recipe_text user : string) :
  get_list "ingredients" (process_recipe call_a2a_agent json_loads recipe_text user)
  = Orchestrator.extract_ingredients recipe_text.
Proof.
  unfold get_list, process_recipe, Orchestrator.process_recipe.
  repeat match goal with
         | |- context [call_a2a_agent ?u ?m] => destruct (call_a2a_agent u m)
         | |- context [Orchestrator.should_add_to_cart ?t] =>
             destruct (Orchestrator.should_add_to_cart t)
         end;
    reflexivity.
Qed.

(** X12: a request without a recipe id is always answered with a success,
    whatever the agents do: the message is the one [process_recipe] gives for
    the request's message and user, "default_user" without one, and the
    ingredients are the comma-separated pieces of the request's message. *)
Theorem free_text_request_always_succeeds
  (recipes : list RecipeStore.recipe_row) (request : ProcessRecipeRequestMsg) :
  recipe_id request = "" ->
  let response :=
    ProcessRecipeRequest recipes call_a2a_agent json_loads request in
  success response = true
  /\ Orchestrator.dict_get "message"
       (process_recipe call_a2a_agent json_loads (message request)
          (or_text (user_id request) "default_user"))
     = Some (Orchestrator.VStr (response_message response))
  /\ ingredients response
     = Orchestrator.extract_ingredients (message request).
Proof.
  intros Hid response. subst response. unfold ProcessRecipeRequest.
  rewrite Hid. unfold respond. rewrite process_recipe_is_success.
  cbn [String.eqb Ascii.eqb Bool.eqb].
  destruct (process_recipe_has_message (message request)
              (or_text (user_id request) "default_user")) as [text Ht].
  unfold read_text. rewrite Ht.
  cbn [success response_message ingredients].
  split; [reflexivity | split; [reflexivity | apply process_recipe_ingredients]].
Qed.

(** X13: the answer to a request with a recipe id is settled by the store
    and the scaling alone, whatever the agents do: a failure "not found" when
    the store has no such recipe; a failure with the text of the exception
    when the scaling of the recipe raises, which is "division by zero" when
    the recipe's [default_servings] is zero; and a success with the message
    "Successfully processed ..." when the scaling returns. *)
Theorem structured_request_outcome
  (recipes : list RecipeStore.recipe_row) (request : ProcessRecipeRequestMsg) :
  recipe_id request <> "" ->
  let response :=
    ProcessRecipeRequest recipes call_a2a_agent json_loads request in
  (RecipeStore.get_recipe recipes (recipe_id request) = Ok None ->
   response = failure ("Recipe " ++ recipe_id request ++ " not found"))
  /\ (forall recipe e,
        RecipeStore.get_recipe recipes (recipe_id request) = Ok (Some recipe) ->
        RecipeStore.scale_ingredients recipe
          (or_int (servings request) (RecipeStore.default_servings recipe))
        = Raise e ->
        response = failure ("Error processing recipe: " ++ exn_text e))
  /\ (forall recipe,
        RecipeStore.get_recipe recipes (recipe_id request) = Ok (Some recipe) ->
        RecipeStore.default_servings recipe = 0%Z ->
        response = failure "Error processing recipe: division by zero")
  /\ (forall recipe scaled_ingredients,
        RecipeStore.get_recipe recipes (recipe_id request) = Ok (Some recipe) ->
        RecipeStore.scale_ingredients recipe
          (or_int (servings request) (RecipeStore.default_servings recipe))
        = Ok scaled_ingredients ->
        success response = true
        /\ response_message response
           = ("Successfully processed " ++ RecipeStore.title recipe ++ " for "
                ++ Py.str_of_Z (or_int (servings request)
                                  (RecipeStore.default_servings recipe))
                ++ " servings")%string).
Proof.
  intros Hid response. subst response. unfold ProcessRecipeRequest.
  destruct (recipe_id request) as [|c wanted] eqn:E; [congruence|].
  split; [|split; [|split]].
  - intros ->. reflexivity.
  - intros recipe e -> He. unfold process_structured. rewrite He. reflexivity.
  - intros recipe -> Hz. unfold process_structured.
    unfold RecipeStore.scale_ingredients, RecipeStore.scale_factor.
    rewrite Hz. reflexivity.
  - intros recipe scaled_ingredients -> Hs. unfold process_structured.
    rewrite Hs. unfold respond. rewrite process_recipe_is_success.
    split; reflexivity.
Qed.

(** X14: without a usable data file (no file, a file that is not JSON, a
    file without "recipes") the store is empty, and every request with a
    recipe id is answered "not found". *)
Theorem empty_store_finds_nothing (file : RecipeStore.data_file)
  (request : ProcessRecipeRequestMsg) :
  file = RecipeStore.FileNotFound \/ file = RecipeStore.InvalidJson
  \/ file = RecipeStore.Loaded None ->
  recipe_id request <> "" ->
  RecipeStore.get_recipe (RecipeStore._load_recipes file) (recipe_id request)
  = Ok None
  /\ ProcessRecipeRequest (RecipeStore._load_recipes file) call_a2a_agent
       json_loads request
     = failure ("Recipe " ++ recipe_id request ++ " not found").
Proof.
  intros Hfile Hid.
  assert (E : RecipeStore._load_recipes file = []).
  { destruct Hfile as [-> | [-> | ->]]; reflexivity. }
  rewrite E. split; [reflexivity|].
  unfold ProcessRecipeRequest.
  destruct (recipe_id request); [congruence | reflexivity].
Qed.

End ServiceFacts.

Lemma free_text_request_always_succeeds_witness :
  GrpcServer.success
    (GrpcServer.ProcessRecipeRequest RecipeStore.pantry Orchestrator.matcher_down
       Orchestrator.one_garlic
       {| GrpcServer.recipe_id := ""; GrpcServer.servings := 0;
          GrpcServer.message := "garlic, quinoa"; GrpcServer.user_id := "" |})
  = true.
Proof.
  apply (free_text_request_always_succeeds Orchestrator.matcher_down
           Orchestrator.one_garlic RecipeStore.pantry). reflexivity.
Defined.

Lemma structured_request_outcome_witness :
  GrpcServer.ProcessRecipeRequest RecipeStore.pantry Orchestrator.matcher_down
    Orchestrator.one_garlic
    {| GrpcServer.recipe_id := "empty_plate"; GrpcServer.servings := 2;
       GrpcServer.message := ""; GrpcServer.user_id := "u1" |}
  = GrpcServer.failure "Error processing recipe: division by zero"
  /\ GrpcServer.response_message
       (GrpcServer.ProcessRecipeRequest RecipeStore.pantry
          Orchestrator.matcher_down Orchestrator.one_garlic
          {| GrpcServer.recipe_id := "rice_bowl"; GrpcServer.servings := 0;
             GrpcServer.message := ""; GrpcServer.user_id := "u1" |})
     = "Successfully processed Rice Bowl for 4 servings".
Proof.
  split.
  - destruct (structured_request_outcome Orchestrator.matcher_down
                Orchestrator.one_garlic RecipeStore.pantry
                {| GrpcServer.recipe_id := "empty_plate";
                   GrpcServer.servings := 2; GrpcServer.message := "";
                   GrpcServer.user_id := "u1" |}) as (_ & _ & H & _);
      [discriminate |].
    eapply H; reflexivity.
  - destruct (structured_request_outcome Orchestrator.matcher_down
                Orchestrator.one_garlic RecipeStore.pantry
                {| GrpcServer.recipe_id := "rice_bowl";
                   GrpcServer.servings := 0; GrpcServer.message := "";
                   GrpcServer.user_id := "u1" |}) as (_ & _ & _ & H);
      [discriminate |].
    edestruct H as [_ Hm]; [reflexivity | reflexivity | exact Hm].
Defined.

Lemma empty_store_finds_nothing_witness :
  GrpcServer.ProcessRecipeRequest
    (RecipeStore._load_recipes RecipeStore.InvalidJson)
    Orchestrator.matcher_down Orchestrator.one_garlic
    {| GrpcServer.recipe_id := "rice_bowl"; GrpcServer.servings := 0;
       GrpcServer.message := ""; GrpcServer.user_id := "u1" |}
  = GrpcServer.failure "Recipe rice_bowl not found".
Proof.
  apply (empty_store_finds_nothing Orchestrator.matcher_down
           Orchestrator.one_garlic RecipeStore.InvalidJson);
    [right; left; reflexivity | discriminate].
Defined.

(** ** More on the recipe generator *)

Section GeneratorMoreFacts.
Import RecipeGenerator.

Variable md5_hexdigest : string -> string.
Variable adk_agent : list string -> adk_outcome.
Variable json_loads : string -> option json_top.
Variable _format_ingredients : list string -> list string -> list ingredient.
Variable generate_image : recipe -> option string.
Variable image_url_of : string -> string.

(** X15: with fewer than two cart items the generator is left as it was: no
    entry is cached, the agent is not run and no thread is started. *)
Theorem short_cart_leaves_generator_untouched (st : state)
  (cart_items : list string) (session_id : string) :
  (List.length cart_items < 2)%nat ->
  generate_suggested_recipes md5_hexdigest adk_agent json_loads
    _format_ingredients st cart_items session_id
  = (_get_fallback_recipes cart_items, st).
Proof.
  intros H. unfold generate_suggested_recipes.
  destruct (Nat.ltb_spec (List.length cart_items) 2); [reflexivity | lia].
Qed.

Lemma generate_with_adk_raises (cart_items : list string) :
  adk_agent cart_items = AdkRaises
  \/ adk_agent cart_items = AdkFinal None
  \/ (exists text,
        adk_agent cart_items = AdkFinal (Some text)
        /\ (Py.strip text = ""
            \/ json_loads (clean_response (Py.strip text)) = None
            \/ json_loads (clean_response (Py.strip text)) = Some TopOther)) ->
  exists e,
    _generate_with_adk md5_hexdigest adk_agent json_loads _format_ingredients
      cart_items = Raise e.
Proof.
  unfold _generate_with_adk, _run_adk_agent.
  intros [-> | [-> | (text & -> & [-> | [H | H]])]]; eauto;
    (destruct (Py.strip text); [eauto|]; rewrite H; eauto).
Qed.

(** X16: on a cache miss with the agent in place, a timeout of the agent is
    answered with the fallback set, which is cached under the key and handed
    to an enrichment thread; a failure of the agent (it raises, gives no final
    text, or gives a text that is empty, does not decode or decodes to a
    value that cannot be sliced) is answered with the fallback set too, but nothing is cached and no thread is started.  The
    run of the agent is recorded in both cases. *)
Theorem miss_caches_on_timeout_not_on_failure (st : state)
  (cart_items : list string) (session_id : string) :
  (2 <= List.length cart_items)%nat ->
  cache st !! _generate_cache_key md5_hexdigest cart_items session_id = None ->
  adk_available st && recipe_agent st = true ->
  let out :=
    generate_suggested_recipes md5_hexdigest adk_agent json_loads
      _format_ingredients st cart_items session_id in
  (adk_agent cart_items = AdkTimeout ->
   fst out = _get_fallback_recipes cart_items
   /\ cache (snd out) !! _generate_cache_key md5_hexdigest cart_items session_id
      = Some (_get_fallback_recipes cart_items)
   /\ threads (snd out)
      = threads st ++ [[PRecipes (_get_fallback_recipes cart_items);
                        PItems cart_items; PStr session_id]]
   /\ adk_runs (snd out) = adk_runs st ++ [cart_items])
  /\ (adk_agent cart_items = AdkRaises
      \/ adk_agent cart_items = AdkFinal None
      \/ (exists text,
            adk_agent cart_items = AdkFinal (Some text)
            /\ (Py.strip text = ""
                \/ json_loads (clean_response (Py.strip text)) = None
                \/ json_loads (clean_response (Py.strip text))
                   = Some TopOther)) ->
      fst out = _get_fallback_recipes cart_items
      /\ cache (snd out) = cache st
      /\ threads (snd out) = threads st
      /\ adk_runs (snd out) = adk_runs st ++ [cart_items]).
Proof.
  intros Hlen Hmiss Hadk out. subst out.
  unfold generate_suggested_recipes.
  destruct (Nat.ltb_spec (List.length cart_items) 2); [lia|].
  rewrite Hmiss, Hadk. split.
  - intros Ht. unfold _generate_with_adk. rewrite Ht.
    cbn [fst snd cache set_cache start_thread threads adk_runs log_adk_run].
    rewrite lookup_insert_eq. repeat split.
  - intros Hf. destruct (generate_with_adk_raises cart_items Hf) as [e ->].
    repeat split.
Qed.

(** X17: a miss whose generation succeeds returns the generated set, and a
    request made on the state it leaves, for the same items in any order and
    the same session, is answered with that same set from the cache, without
    a new run of the agent and without a write to the cache. *)
Theorem cached_set_is_served_again (st : state)
  (cart_items cart_items' : list string) (session_id : string)
  (recipes : list recipe) :
  (2 <= List.length cart_items)%nat ->
  Permutation cart_items cart_items' ->
  cache st !! _generate_cache_key md5_hexdigest cart_items session_id = None ->
  (adk_available st && recipe_agent st = false
   /\ recipes = _get_fallback_recipes cart_items)
  \/ (adk_available st && recipe_agent st = true
      /\ _generate_with_adk md5_hexdigest adk_agent json_loads
           _format_ingredients cart_items = Ok recipes) ->
  let first :=
    generate_suggested_recipes md5_hexdigest adk_agent json_loads
      _format_ingredients st cart_items session_id in
  let second :=
    generate_suggested_recipes md5_hexdigest adk_agent json_loads
      _format_ingredients (snd first) cart_items' session_id in
  fst first = recipes
  /\ fst second = recipes
  /\ adk_runs (snd second) = adk_runs (snd first)
  /\ cache (snd second) = cache (snd first).
Proof.
  intros Hlen Hperm Hmiss Hgen first second.
  assert (Hkey : _generate_cache_key md5_hexdigest cart_items' session_id
                 = _generate_cache_key md5_hexdigest cart_items session_id).
  { unfold _generate_cache_key.
    now rewrite (sorted_permutation cart_items cart_items' Hperm). }
  assert (Hlen' : (2 <= List.length cart_items')%nat).
  { now rewrite <- (Permutation_length Hperm). }
  assert (Hfirst : fst first = recipes
                   /\ cache (snd first)
                        !! _generate_cache_key md5_hexdigest cart_items session_id
                      = Some recipes).
  { subst first. unfold generate_suggested_recipes.
    destruct (Nat.ltb_spec (List.length cart_items) 2); [lia|].
    rewrite Hmiss.
    destruct Hgen as [[-> ->] | [-> ->]];
      cbn [fst snd cache set_cache start_thread log_adk_run];
      rewrite lookup_insert_eq; split; reflexivity. }
  destruct Hfirst as [H1 H2]. split; [exact H1|].
  clearbody first. subst second. unfold generate_suggested_recipes.
  destruct (Nat.ltb_spec (List.length cart_items') 2); [lia|].
  rewrite Hkey, H2. repeat split.
Qed.

(** X18: run to its end on the three arguments of a miss, with image
    generation available and a set that is not empty, the enrichment thread
    leaves a state on which a request for that cart is answered with the
    enriched set: the same recipes in the same order as to ids, titles,
    ingredients and instructions.  Without image generation the thread
    changes nothing. *)
Theorem enrichment_is_served_on_next_hit (st : state) (recipes : list recipe)
  (cart_items : list string) (session_id : string) :
  (2 <= List.length cart_items)%nat ->
  recipes <> [] ->
  (genai_available st = false ->
   generate_images_for_recipes md5_hexdigest generate_image image_url_of st
     [PRecipes recipes; PItems cart_items; PStr session_id] = Ok st)
  /\ (genai_available st = true ->
      exists st' enriched,
        generate_images_for_recipes md5_hexdigest generate_image image_url_of
          st [PRecipes recipes; PItems cart_items; PStr session_id] = Ok st'
        /\ fst (generate_suggested_recipes md5_hexdigest adk_agent json_loads
                  _format_ingredients st' cart_items session_id) = enriched
        /\ map recipe_id enriched = map recipe_id recipes
        /\ map title enriched = map title recipes
        /\ map ingredients enriched = map ingredients recipes
        /\ map instructions enriched = map instructions recipes).
Proof.
  intros Hlen Hne. unfold generate_images_for_recipes. split.
  - intros ->. reflexivity.
  - intros ->. cbn [negb].
    destruct (_add_images_to_recipes_parallel generate_image image_url_of recipes)
      as [|r rs] eqn:E.
    { destruct recipes; [congruence | discriminate]. }
    eexists _, _. split; [reflexivity|].
    split.
    { unfold generate_suggested_recipes.
      destruct (Nat.ltb_spec (List.length cart_items) 2); [lia|].
      cbn [cache set_cache]. rewrite lookup_insert_eq. reflexivity. }
    rewrite <- E. unfold _add_images_to_recipes_parallel.
    cbn [fst]. rewrite !List.map_map.
    repeat split; apply map_ext; intros x; unfold with_image;
      destruct (generate_image x); reflexivity.
Qed.

(** X19: whatever the cart, the fallback set is made of the three recipes
    "fallback_skillet_medley", "fallback_fresh_combination" and
    "fallback_roasted_blend", without image; the first and the third list the
    first four cart items at most and the second the first three, each as one
    piece under its title-cased name. *)
Theorem fallback_recipes_shape (cart_items : list string) :
  map recipe_id (_get_fallback_recipes cart_items)
  = ["fallback_skillet_medley"; "fallback_fresh_combination";
     "fallback_roasted_blend"]
  /\ map ingredients (_get_fallback_recipes cart_items)
     = [fallback_ingredients (firstn 4 cart_items);
        fallback_ingredients (firstn 3 cart_items);
        fallback_ingredients (firstn 4 cart_items)]
  /\ Forall (fun r => image_data r = Some "" /\ image_url r = "")
       (_get_fallback_recipes cart_items)
  /\ Forall (fun r => Forall (fun i => quantity i = Finite 1 /\ unit i = "piece"
                                       /\ exists item, In item cart_items
                                                       /\ name i = Py.title item)
                             (ingredients r))
       (_get_fallback_recipes cart_items).
Proof.
  assert (Hmain : (if (4 <=? List.length cart_items)%nat
                   then firstn 4 cart_items else cart_items)
                  = firstn 4 cart_items).
  { destruct (Nat.leb_spec 4 (List.length cart_items)); [reflexivity|].
    symmetry. apply firstn_all2. lia. }
  assert (H3 : firstn 3 (firstn 4 cart_items) = firstn 3 cart_items).
  { rewrite firstn_firstn. reflexivity. }
  assert (Hing : forall n,
            Forall (fun i => quantity i = Finite 1 /\ unit i = "piece"
                             /\ exists item, In item cart_items
                                             /\ name i = Py.title item)
                   (fallback_ingredients (firstn n cart_items))).
  { intros n. unfold fallback_ingredients. apply List.Forall_forall.
    intros i Hi. apply List.in_map_iff in Hi as (item & <- & Hin).
    repeat split. exists item. split; [|reflexivity].
    rewrite <- (firstn_skipn n cart_items). apply in_or_app. now left. }
  unfold _get_fallback_recipes. rewrite Hmain.
  cbn [firstn map recipe_id ingredients]. rewrite H3.
  split; [reflexivity | split; [reflexivity | split]].
  - repeat constructor.
  - repeat constructor; cbn [ingredients]; apply Hing.
Qed.

End GeneratorMoreFacts.

Lemma short_cart_leaves_generator_untouched_witness :
  RecipeGenerator.generate_suggested_recipes World.md5_hexdigest
    World.adk_agent World.json_loads World._format_ingredients World.started
    ["Garlic"] "s1"
  = (RecipeGenerator._get_fallback_recipes ["Garlic"], World.started).
Proof.
  apply (short_cart_leaves_generator_untouched World.md5_hexdigest
           World.adk_agent World.json_loads World._format_ingredients
           World.started ["Garlic"] "s1").
  simpl. lia.
Defined.

Lemma miss_caches_on_timeout_not_on_failure_witness :
  (let out :=
     RecipeGenerator.generate_suggested_recipes World.md5_hexdigest
       (fun _ => RecipeGenerator.AdkTimeout) World.json_loads
       World._format_ingredients World.started ["Garlic"; "Lemon"] "s1" in
   RecipeGenerator.cache (snd out) !! "Garlic,Lemon:s1"
   = Some World.garlic_lemon
   /\ List.length (RecipeGenerator.threads (snd out)) = 1%nat)
  /\ (let out :=
        RecipeGenerator.generate_suggested_recipes World.md5_hexdigest
          (fun _ => RecipeGenerator.AdkRaises) World.json_loads
          World._format_ingredients World.started ["Garlic"; "Lemon"] "s1" in
      fst out = World.garlic_lemon
      /\ RecipeGenerator.cache (snd out) = RecipeGenerator.cache World.started
      /\ RecipeGenerator.threads (snd out) = []).
Proof.
  split.
  - destruct (miss_caches_on_timeout_not_on_failure World.md5_hexdigest
                (fun _ => RecipeGenerator.AdkTimeout) World.json_loads
                World._format_ingredients World.started ["Garlic"; "Lemon"]
                "s1") as [H _].
    + simpl. lia.
    + reflexivity.
    + reflexivity.
    + destruct (H eq_refl) as (_ & Hc & Ht & _). split.
      * exact Hc.
      * rewrite Ht. reflexivity.
  - destruct (miss_caches_on_timeout_not_on_failure World.md5_hexdigest
                (fun _ => RecipeGenerator.AdkRaises) World.json_loads
                World._format_ingredients World.started ["Garlic"; "Lemon"]
                "s1") as [_ H].
    + simpl. lia.
    + reflexivity.
    + reflexivity.
    + destruct (H (or_introl eq_refl)) as (Hf & Hc & Ht & _).
      repeat split; assumption.
Defined.

Lemma cached_set_is_served_again_witness :
  let first :=
    RecipeGenerator.generate_suggested_recipes World.md5_hexdigest
      (fun _ => RecipeGenerator.AdkTimeout) World.json_loads
      World._format_ingredients World.started ["Garlic"; "Lemon"] "s1" in
  let second :=
    RecipeGenerator.generate_suggested_recipes World.md5_hexdigest
      (fun _ => RecipeGenerator.AdkTimeout) World.json_loads
      World._format_ingredients (snd first) ["Lemon"; "Garlic"] "s1" in
  fst first = World.garlic_lemon
  /\ fst second = World.garlic_lemon
  /\ RecipeGenerator.adk_runs (snd second) = RecipeGenerator.adk_runs (snd first)
  /\ RecipeGenerator.cache (snd second) = RecipeGenerator.cache (snd first).
Proof.
  apply (cached_set_is_served_again World.md5_hexdigest
           (fun _ => RecipeGenerator.AdkTimeout) World.json_loads
           World._format_ingredients World.started ["Garlic"; "Lemon"]
           ["Lemon"; "Garlic"] "s1" World.garlic_lemon).
  - simpl. lia.
  - apply perm_swap.
  - reflexivity.
  - right. split; reflexivity.
Defined.

Lemma enrichment_is_served_on_next_hit_witness :
  exists st' enriched,
    RecipeGenerator.generate_images_for_recipes World.md5_hexdigest
      World.generate_image World.image_url_of World.started
      [RecipeGenerator.PRecipes World.garlic_lemon;
       RecipeGenerator.PItems ["Garlic"; "Lemon"]; RecipeGenerator.PStr "s1"]
    = Ok st'
    /\ fst (RecipeGenerator.generate_suggested_recipes World.md5_hexdigest
              World.adk_agent World.json_loads World._format_ingredients st'
              ["Garlic"; "Lemon"] "s1") = enriched
    /\ map RecipeGenerator.recipe_id enriched
       = map RecipeGenerator.recipe_id World.garlic_lemon
    /\ map RecipeGenerator.title enriched
       = map RecipeGenerator.title World.garlic_lemon
    /\ map RecipeGenerator.ingredients enriched
       = map RecipeGenerator.ingredients World.garlic_lemon
    /\ map RecipeGenerator.instructions enriched
       = map RecipeGenerator.instructions World.garlic_lemon.
Proof.
  destruct (enrichment_is_served_on_next_hit World.md5_hexdigest
              World.adk_agent World.json_loads World._format_ingredients
              World.generate_image World.image_url_of World.started
              World.garlic_lemon ["Garlic"; "Lemon"] "s1") as [_ H].
  - simpl. lia.
  - discriminate.
  - exact (H eq_refl).
Defined.

(** ** The cart adder *)

Section ReadInFacts.
Import Re.
Local Open Scope string_scope.

Lemma any_of_app (q : ascii -> bool) (a b : string) :
  Py.any_of q (a ++ b) = Py.any_of q a || Py.any_of q b.
Proof.
  induction a as [|x a IH]; [reflexivity|].
  change (Py.any_of q (String x (a ++ b))
          = Py.any_of q (String x a) || Py.any_of q b).
  cbn [Py.any_of]. rewrite IH. now rewrite orb_assoc.
Qed.

(** A successful run has read a character of the class the pattern needs. *)
Lemma run_reads_in (q : ascii -> bool) (r : regex) :
  forall prev s cs k res,
    run r prev s cs k = Some res ->
    exists m prev' s' cs',
      s = m ++ s' /\ k prev' s' cs' = Some res
      /\ (needs_in q r = true -> Py.any_of q m = true).
Proof.
  induction r as [| p | r1 IH1 r2 IH2 | r1 IH1 r2 IH2 | p | | | | n r IH];
    intros prev s cs k res H; cbn [run] in H.
  - exists "", prev, s, cs. repeat split; [assumption | discriminate].
  - destruct s as [|x s]; [discriminate|].
    destruct (p x) eqn:Hp; [|discriminate].
    exists (String x ""), (Some x), s, cs. repeat split; [assumption|].
    cbn [needs_in]. intros Hn. rewrite List.forallb_forall in Hn.
    specialize (Hn x (in_all_ascii x)). rewrite Hp in Hn. simpl in Hn.
    cbn [Py.any_of]. now rewrite Hn.
  - apply IH1 in H as (m1 & p1 & s1 & cs1 & -> & H & Hn1).
    apply IH2 in H as (m2 & p2 & s2 & cs2 & -> & H & Hn2).
    exists (m1 ++ m2), p2, s2, cs2. repeat split.
    + now rewrite append_assoc.
    + assumption.
    + cbn [needs_in]. rewrite any_of_app. intros Hn.
      apply orb_true_iff in Hn as [Hn|Hn];
        [rewrite Hn1 | rewrite Hn2, orb_true_r]; auto.
  - cbn [needs_in].
    destruct (run r1 prev s cs k) as [res1|] eqn:E1.
    + injection H as <-. apply IH1 in E1 as (m & p' & s' & cs' & -> & Hk & Hn).
      exists m, p', s', cs'. repeat split; [assumption|].
      intros Hb. apply andb_true_iff in Hb as [Hb _]. auto.
    + apply IH2 in H as (m & p' & s' & cs' & -> & Hk & Hn).
      exists m, p', s', cs'. repeat split; [assumption|].
      intros Hb. apply andb_true_iff in Hb as [_ Hb]. auto.
  - revert prev H. induction s as [|x s IHs]; intros prev H; cbn [star] in H.
    + exists "", prev, "", cs. repeat split; [assumption | discriminate].
    + destruct (p x).
      * destruct (star p (Some x) s cs k) as [res1|] eqn:E.
        -- injection H as <-. apply IHs in E as (m & p' & s' & cs' & -> & Hk & _).
           exists (String x m), p', s', cs'. repeat split; [assumption | discriminate].
        -- exists "", prev, (String x s), cs. repeat split; [assumption | discriminate].
      * exists "", prev, (String x s), cs. repeat split; [assumption | discriminate].
  - destruct prev; [discriminate|].
    exists "", None, s, cs. repeat split; [assumption | discriminate].
  - destruct (at_end s); [|discriminate].
    exists "", prev, s, cs. repeat split; [assumption | discriminate].
  - destruct (xorb _ _); [|discriminate].
    exists "", prev, s, cs. repeat split; [assumption | discriminate].
  - apply IH in H as (m & p' & s' & cs' & -> & Hk & Hn).
    eexists m, p', s', _. repeat split; [exact Hk | exact Hn].
Qed.

Lemma match_at_reads_in (q : ascii -> bool) (r : regex) prev s res :
  needs_in q r = true -> match_at r prev s = Some res -> Py.any_of q s = true.
Proof.
  intros Hn H. unfold match_at in H.
  apply (run_reads_in q) in H as (m & p' & s' & cs' & -> & _ & Hm).
  rewrite any_of_app, Hm; auto.
Qed.

Lemma findall_from_none (q : ascii -> bool) (r : regex) :
  needs_in q r = true ->
  forall s skip prev, Py.any_of q s = false -> findall_from r skip prev s = [].
Proof.
  intros Hn. induction s as [|x s IH]; intros skip prev Ho; [reflexivity|].
  assert (Hs : Py.any_of q s = false).
  { cbn [Py.any_of] in Ho. now apply orb_false_iff in Ho as [_ Ho]. }
  cbn [findall_from]. destruct skip as [|n]; [|now apply IH].
  destruct (match_at r prev (String x s)) as [[rest cs]|] eqn:E.
  - apply (match_at_reads_in q) in E; [congruence | assumption].
  - now apply IH.
Qed.

Lemma search_from_next (r : regex) prev c s :
  match_at r prev (String c s) = None ->
  search_from r prev (String c s) = search_from r (Some c) s.
Proof. intros H. cbn [search_from]. now rewrite H. Qed.

Lemma substring_prefix (a b : string) :
  substring 0 (String.length (a ++ b) - String.length b) (a ++ b) = a.
Proof.
  rewrite length_append.
  replace (String.length a + String.length b - String.length b)%nat
    with (String.length a) by lia.
  induction a as [|c a IH]; simpl.
  - now destruct b.
  - now f_equal.
Qed.

Lemma rstrip_head (c : ascii) (s : string) :
  Py.is_space c = false -> exists r, Py.rstrip (String c s) = String c r.
Proof.
  intros H. cbn [Py.rstrip]. rewrite H. destruct (Py.rstrip s); eauto.
Qed.

End ReadInFacts.

Section CartFacts.
Import CartAdder.
Local Open Scope string_scope.

Variable json_loads : string -> decoded.
Variable list_of_set : list string -> list string.
Variable AddItem : nat -> string -> string -> result unit.
Variable GetCart : string -> result (list cart_item).

Lemma add_items_app (user : string) (xs ys : list string) : forall call,
  add_items AddItem call user (xs ++ ys)
  = (add_items AddItem call user xs
       ++ add_items AddItem (call + List.length xs) user ys)%list.
Proof.
  induction xs as [|x xs IH]; intros call; cbn [add_items List.app List.length].
  - now rewrite Nat.add_0_r.
  - rewrite IH. replace (S call + List.length xs)%nat
      with (call + S (List.length xs))%nat by lia.
    now destruct (_add_item_to_cart AddItem call user x).
Qed.

Lemma add_items_sublist (user : string) (ids : list string) : forall call,
  sublist (add_items AddItem call user ids) ids.
Proof.
  induction ids as [|x ids IH]; intros call; cbn [add_items].
  - constructor.
  - destruct (_add_item_to_cart AddItem call user x).
    + apply sublist_skip, IH.
    + apply sublist_cons, IH.
Qed.

Lemma add_items_all (user : string) (ids : list string) : forall call,
  (forall n product, exists u, AddItem n user product = Ok u) ->
  add_items AddItem call user ids = ids.
Proof.
  intros call H. revert call.
  induction ids as [|x ids IH]; intros call; cbn [add_items]; [reflexivity|].
  unfold _add_item_to_cart. destruct (H call x) as [u ->]. now rewrite IH.
Qed.

(** X20: a product the cart service refuses is left out of the added
    items, and the products after it are still sent, each as the next call:
    the loop over [before ++ product :: later] adds what it adds of [before]
    and then what it adds of [later]. *)
Theorem refused_product_is_skipped (user product : string)
  (before later : list string) (call : nat) (e : py_exn) :
  AddItem (call + List.length before) user product = Raise e ->
  add_items AddItem call user (before ++ product :: later)
  = (add_items AddItem call user before
       ++ add_items AddItem (call + List.length before + 1) user later)%list.
Proof.
  intros H. rewrite add_items_app. f_equal.
  cbn [add_items]. unfold _add_item_to_cart. rewrite H.
  now rewrite Nat.add_1_r.
Qed.

(** X21: a request that decodes to an object with a non-empty "product_ids"
    is answered for the object's user, "default_user" without one: the added
    items are a sublist of the ids, in their order, and all of them when the
    cart service accepts every call; the total is the length of the cart the
    service lists and the contents are its first five items at most; when
    listing the cart fails the total is 0 and the contents are empty,
    whatever was added. *)
Theorem matcher_request_reply (text : string) (ids : list string)
  (user : option string) :
  Py.startswith "{" (Py.strip text) = true ->
  json_loads text = WithProductIds ids user ->
  ids <> [] ->
  exists added total contents message,
    process_cart_request json_loads list_of_set AddItem GetCart text
    = CartResult (match user with Some u => u | None => "default_user" end)
        added total contents message
    /\ sublist added ids
    /\ ((forall n u product, exists v, AddItem n u product = Ok v) ->
        added = ids)
    /\ (List.length contents <= 5)%nat
    /\ (forall items,
          GetCart (match user with Some u => u | None => "default_user" end)
          = Ok items ->
          total = List.length items /\ contents = firstn 5 items)
    /\ (forall e,
          GetCart (match user with Some u => u | None => "default_user" end)
          = Raise e ->
          total = 0%nat /\ contents = []).
Proof.
  intros Hs Hj Hne. unfold process_cart_request, _parse_product_data.
  rewrite Hs, Hj. cbn [product_ids CartAdder.user_id].
  destruct ids as [|i ids]; [congruence|].
  eexists _, _, _, _. split; [reflexivity|].
  split; [apply add_items_sublist|].
  split; [intros H; apply add_items_all; intros n p; apply H|].
  split; [rewrite length_firstn; lia|].
  unfold _get_cart_contents. split.
  - intros items ->. split; reflexivity.
  - intros e ->. split; reflexivity.
Qed.

Lemma product_pattern_needs_digit :
  Re.needs_in Py.is_digit product_pattern = true.
Proof. vm_compute. reflexivity. Qed.

Lemma parse_text_without_digit (text : string) :
  (forall x, In x (list_of_set []) -> False) ->
  Py.any_of Py.is_digit text = false ->
  product_ids (parse_text list_of_set text) = [].
Proof.
  intros Hset Hd. unfold parse_text. cbn [product_ids].
  unfold Re.findall.
  rewrite (findall_from_none Py.is_digit product_pattern
             product_pattern_needs_digit text 0 None Hd).
  destruct (list_of_set []) as [|x l] eqn:E; [reflexivity|].
  exfalso. apply (Hset x). now left.
Qed.

(** X22: a text without a digit holds no product id: unless it decodes to
    an object with "product_ids", the request is answered with the error
    reply that carries the text, whatever the cart service would do. *)
Theorem text_without_digit_adds_nothing (text : string) :
  (forall l x, In x (list_of_set l) <-> In x l) ->
  Py.any_of Py.is_digit text = false ->
  (forall ids user, Py.startswith "{" (Py.strip text) = true ->
                    json_loads text <> WithProductIds ids user) ->
  process_cart_request json_loads list_of_set AddItem GetCart text
  = NoProductIds text.
Proof.
  intros Hset Hd Hj.
  assert (Hp : product_ids (parse_text list_of_set text) = []).
  { apply parse_text_without_digit; [|assumption].
    intros x Hx. exact (proj1 (Hset [] x) Hx). }
  unfold process_cart_request, _parse_product_data.
  destruct (Py.startswith "{" (Py.strip text)) eqn:Hs.
  - destruct (json_loads text) as [|ids user|] eqn:E.
    + reflexivity.
    + exfalso. now apply (Hj ids user).
    + now rewrite Hp.
  - now rewrite Hp.
Qed.

(** X23: the message the orchestrator's [get_cart_contents] sends for a
    user id without a digit is not a request the cart adder can serve: it is
    answered with the error reply, and the cart of the user is not read. *)
Theorem contents_request_finds_no_product (user_id : string) :
  (forall l x, In x (list_of_set l) <-> In x l) ->
  Py.any_of Py.is_digit user_id = false ->
  process_cart_request json_loads list_of_set AddItem GetCart
    (Orchestrator.contents_message user_id)
  = NoProductIds (Orchestrator.contents_message user_id).
Proof.
  intros Hset Hd.
  assert (Hp : product_ids
                 (parse_text list_of_set (Orchestrator.contents_message user_id))
               = []).
  { apply parse_text_without_digit.
    - intros x Hx. exact (proj1 (Hset [] x) Hx).
    - unfold Orchestrator.contents_message. rewrite any_of_app, Hd. reflexivity. }
  unfold process_cart_request, _parse_product_data.
  replace (Py.startswith "{" (Py.strip (Orchestrator.contents_message user_id)))
    with false; [now rewrite Hp|].
  unfold Orchestrator.contents_message.
  change (Py.strip ("Get cart contents for user: " ++ user_id))
    with (Py.rstrip (String "G" ("et cart contents for user: " ++ user_id))).
  destruct (rstrip_head "G" ("et cart contents for user: " ++ user_id) eq_refl)
    as [r ->].
  reflexivity.
Qed.

End CartFacts.

Section CartMessageFacts.
Import CartAdder.
Local Open Scope string_scope.

Variable json_loads : string -> decoded.
Variable list_of_set : list string -> list string.

Lemma user_char_not_colon_space (c : ascii) :
  is_user_char c = true -> is_colon_or_space c = false.
Proof.
  assert (H : forallb (fun x => implb (is_user_char x)
                                      (negb (is_colon_or_space x)))
                      Re.all_ascii = true) by (vm_compute; reflexivity).
  rewrite List.forallb_forall in H. specialize (H c (in_all_ascii c)).
  intros Hc. rewrite Hc in H. cbn [implb] in H. now apply negb_true_iff.
Qed.

(** The pattern of the user id, at the word "user" followed by colons and
    blanks and then by an id. *)
Lemma match_user_here (prev : option ascii) (d c : ascii) (sep p rest : string) :
  is_colon_or_space d = true ->
  Py.all_of is_colon_or_space sep = true ->
  is_user_char c = true ->
  Py.all_of is_user_char p = true ->
  Py.head_not is_user_char rest = true ->
  Re.match_at user_pattern prev
    (String "u" (String "s" (String "e" (String "r" (String d
       (sep ++ String c (p ++ rest)))))))
  = Some (rest, [(1%nat, String c p)]).
Proof.
  intros Hd Hsep Hc Hall Hhead.
  unfold Re.match_at, user_pattern, Re.chr_i, Re.plus.
  cbn [Re.seq Re.lit_i Re.chr_i Re.run].
  unfold Re.chr_i. cbn [Re.run].
  change (Ascii.eqb (Py.lower_char "u") (Py.lower_char "u")) with true.
  change (Ascii.eqb (Py.lower_char "s") (Py.lower_char "s")) with true.
  change (Ascii.eqb (Py.lower_char "e") (Py.lower_char "e")) with true.
  change (Ascii.eqb (Py.lower_char "r") (Py.lower_char "r")) with true.
  cbv iota. rewrite Hd.
  apply star_greedy; [assumption | |].
  { cbn [Py.head_not]. now rewrite (user_char_not_colon_space c Hc). }
  rewrite Hc. apply star_greedy; [assumption | assumption |].
  unfold Re.accept.
  change (String c (p ++ rest)) with (String c p ++ rest).
  now rewrite substring_prefix.
Qed.

Lemma search_cart_message (d c : ascii) (sep p rest : string) :
  is_colon_or_space d = true ->
  Py.all_of is_colon_or_space sep = true ->
  is_user_char c = true ->
  Py.all_of is_user_char p = true ->
  Py.head_not is_user_char rest = true ->
  Re.search user_pattern
    ("Add these products to cart for user"
       ++ String d (sep ++ String c (p ++ rest)))
  = Some [(1%nat, String c p)].
Proof.
  intros Hd Hsep Hc Hall Hhead. unfold Re.search. cbv [String.append].
  fold String.append.
  do 31 (rewrite search_from_next by reflexivity).
  cbn [Re.search_from]. now rewrite match_user_here.
Qed.

Lemma head_not_app (q : ascii -> bool) (a b : string) :
  Py.head_not q a = true -> Py.head_not q b = true ->
  Py.head_not q (a ++ b) = true.
Proof. destruct a; [intros _ H; exact H | intros H _; exact H]. Qed.

Lemma cart_message_is_text (user_id : string) (matched_products : list string) :
  Py.startswith "{"
    (Py.strip (Orchestrator.cart_message user_id matched_products)) = false.
Proof.
  unfold Orchestrator.cart_message.
  set (t := user_id ++ ": " ++ Py.join ", " matched_products).
  change (Py.strip ("Add these products to cart for user " ++ t))
    with (Py.rstrip (String "A" ("dd these products to cart for user " ++ t))).
  destruct (rstrip_head "A" ("dd these products to cart for user " ++ t) eq_refl)
    as [r ->].
  reflexivity.
Qed.

(** X24: the user id the orchestrator writes into its cart message comes
    back to the cart adder as its longest prefix of letters, digits and
    hyphens: an id made of such characters only comes back whole, an id with
    another character is cut before it. *)
Theorem cart_message_user_prefix (user tail : string)
  (matched_products : list string) :
  user <> "" ->
  Py.all_of is_user_char user = true ->
  Py.head_not is_user_char tail = true ->
  user_id (_parse_product_data json_loads list_of_set
             (Orchestrator.cart_message (user ++ tail) matched_products))
  = user.
Proof.
  intros Hne Hall Hhead. destruct user as [|c user]; [congruence|].
  cbn [Py.all_of] in Hall. apply andb_true_iff in Hall as [Hc Hall].
  unfold _parse_product_data. rewrite cart_message_is_text.
  unfold Orchestrator.cart_message.
  set (products := Py.join ", " matched_products).
  unfold parse_text. cbn [user_id].
  replace ("Add these products to cart for user "
             ++ (String c user ++ tail) ++ ": " ++ products)
    with ("Add these products to cart for user"
            ++ String " " ("" ++ String c (user ++ (tail ++ ": " ++ products)))).
  - rewrite search_cart_message; try reflexivity; try assumption.
    apply head_not_app; [assumption | reflexivity].
  - change ("Add these products to cart for user"
              ++ String " " (String c (user ++ tail ++ ": " ++ products))
            = "Add these products to cart for user"
              ++ String " " (String c ((user ++ tail) ++ ": " ++ products))).
    now rewrite append_assoc.
Qed.

Lemma join_head (sep x : string) (l : list string) :
  Py.join sep (x :: l)
  = x ++ match l with [] => "" | _ :: _ => sep ++ Py.join sep l end.
Proof. destruct l; [now rewrite string_app_nil_r | reflexivity]. Qed.

(** X28: with an empty user id, as a request without one leaves it, the
    cart message reads "... for user : <products>", and the cart adder takes
    the first product id for the user. *)
Theorem empty_user_reads_first_product (product : string)
  (others : list string) :
  product <> "" ->
  Py.all_of is_user_char product = true ->
  user_id (_parse_product_data json_loads list_of_set
             (Orchestrator.cart_message "" (product :: others)))
  = product.
Proof.
  intros Hne Hall. destruct product as [|c product]; [congruence|].
  cbn [Py.all_of] in Hall. apply andb_true_iff in Hall as [Hc Hall].
  unfold _parse_product_data. rewrite cart_message_is_text.
  unfold Orchestrator.cart_message. rewrite join_head.
  set (rest := match others with
               | [] => ""
               | _ :: _ => ", " ++ Py.join ", " others
               end).
  unfold parse_text. cbn [user_id].
  change ("Add these products to cart for user " ++ "" ++ ": "
            ++ String c product ++ rest)
    with ("Add these products to cart for user"
            ++ String " " (": " ++ String c (product ++ rest))).
  rewrite search_cart_message; try reflexivity; try assumption.
  subst rest. now destruct others.
Qed.

End CartMessageFacts.

(** ** The recipes formatted from the agent's reply *)

Section FormatFacts.
Import RecipeGenerator.
Local Open Scope string_scope.

Variable md5_hexdigest : string -> string.
Variable adk_agent : list string -> adk_outcome.
Variable json_loads : string -> option json_top.
Variable _format_ingredients : list string -> list string -> list ingredient.

Lemma substring_length_le (s : string) : forall n,
  (String.length (substring 0 n s) <= n)%nat.
Proof.
  induction s as [|c s IH]; intros [|n]; simpl; try lia.
  specialize (IH n). lia.
Qed.

Lemma format_recipe_formatted (d : draft) (index : nat)
  (cart_items : list string) (r : recipe) :
  _format_recipe md5_hexdigest _format_ingredients d index cart_items = Some r ->
  formatted r.
Proof.
  destruct d as [n de p i ins|]; [|discriminate].
  cbn [_format_recipe]. intros [= <-]. unfold formatted.
  cbn [default_servings image_data image_url recipe_id].
  repeat split.
  change ("suggested_" ++ ?x) with (String "s" ("uggested_" ++ x)).
  cbn [String.length].
  pose proof (substring_length_le
                (md5_hexdigest (get_or n ("recipe_" ++ Py.str_of_nat index))) 8).
  rewrite length_append. cbn [String.length]. lia.
Qed.

Lemma format_all_formatted (ds : list draft) (cart_items : list string) :
  forall index,
    Forall formatted
      (format_all md5_hexdigest _format_ingredients index ds cart_items).
Proof.
  induction ds as [|d ds IH]; intros index; cbn [format_all]; [constructor|].
  destruct (_format_recipe md5_hexdigest _format_ingredients d index cart_items)
    as [r|] eqn:E; [|apply IH].
  constructor; [eapply format_recipe_formatted; eassumption | apply IH].
Qed.

Lemma format_all_chars (s : string) (cart_items : list string) : forall n index,
  format_all md5_hexdigest _format_ingredients index
    (firstn n (chars_as_drafts s)) cart_items = [].
Proof.
  induction s as [|c s IH]; intros [|n] index; try reflexivity.
  cbn [chars_as_drafts firstn format_all _format_recipe]. apply IH.
Qed.

(** X25: every recipe formatted from a reply of the agent serves four, has
    an empty image and an id made of "suggested_" and at most eight
    characters of a digest; a reply that decodes to a string instead of an
    array is formatted without an error into no recipe at all. *)
Theorem adk_reply_recipes (final_response_text : option string)
  (cart_items : list string) :
  (forall recipes,
     _run_adk_agent md5_hexdigest json_loads _format_ingredients
       final_response_text cart_items = Ok recipes ->
     Forall (fun r =>
               default_servings r = 4%Z /\ image_data r = Some ""
               /\ image_url r = ""
               /\ Py.startswith "suggested_" (recipe_id r) = true
               /\ (String.length (recipe_id r) <= 18)%nat) recipes)
  /\ (forall text s,
        final_response_text = Some text ->
        Py.strip text <> "" ->
        json_loads (clean_response (Py.strip text)) = Some (TopString s) ->
        _run_adk_agent md5_hexdigest json_loads _format_ingredients
          final_response_text cart_items = Ok []).
Proof.
  split.
  - intros recipes H. unfold _run_adk_agent in H.
    destruct final_response_text as [text|]; [|discriminate].
    destruct (Py.strip text) as [|c t]; [discriminate|].
    destruct (json_loads (clean_response (String c t))) as [[ds|s|]|];
      try discriminate; injection H as <-.
    + apply format_all_formatted.
    + apply format_all_formatted.
  - intros text s -> Hne Hj. unfold _run_adk_agent.
    destruct (Py.strip text) as [|c t]; [congruence|].
    rewrite Hj. now rewrite format_all_chars.
Qed.

End FormatFacts.

(** ** The quantity of an ingredient line *)

Section QuantityFacts.
Import RecipeGenerator.
Local Open Scope string_scope.

Lemma all_of_occurs (p : ascii -> bool) (c : ascii) (s : string) :
  p c = false -> Py.all_of p s = true -> Py.occurs c s = false.
Proof.
  intros Hc. induction s as [|x s IH]; [reflexivity|].
  cbn [Py.all_of Py.occurs]. intros H. apply andb_true_iff in H as [Hx Hs].
  rewrite (IH Hs), orb_false_r.
  destruct (Ascii.eqb_spec x c) as [->|]; [congruence | reflexivity].
Qed.

Lemma all_of_app (p : ascii -> bool) (a b : string) :
  Py.all_of p (a ++ b) = Py.all_of p a && Py.all_of p b.
Proof.
  induction a as [|x a IH]; [reflexivity|].
  change (Py.all_of p (String x (a ++ b))
          = Py.all_of p (String x a) && Py.all_of p b).
  cbn [Py.all_of]. rewrite IH. now rewrite andb_assoc.
Qed.

Lemma rstrip_no_space (s : string) :
  Py.all_of (fun c => negb (Py.is_space c)) s = true -> Py.rstrip s = s.
Proof.
  induction s as [|c s IH]; [reflexivity|].
  cbn [Py.all_of Py.rstrip]. intros H. apply andb_true_iff in H as [Hc Hs].
  rewrite (IH Hs). apply negb_true_iff in Hc. rewrite Hc. now destruct s.
Qed.

Lemma strip_no_space (s : string) :
  Py.all_of (fun c => negb (Py.is_space c)) s = true -> Py.strip s = s.
Proof.
  intros H. unfold Py.strip.
  replace (Py.lstrip s) with s; [now apply rstrip_no_space|].
  destruct s as [|c s]; [reflexivity|].
  cbn [Py.all_of] in H. apply andb_true_iff in H as [Hc _].
  apply negb_true_iff in Hc. cbn [Py.lstrip]. now rewrite Hc.
Qed.

Lemma words_from_no_space (s : string) : forall cur,
  Py.all_of (fun c => negb (Py.is_space c)) s = true ->
  cur ++ s <> "" ->
  Py.words_from cur s = [cur ++ s].
Proof.
  induction s as [|c s IH]; intros cur H Hne.
  - rewrite string_app_nil_r in *. cbn [Py.words_from].
    destruct cur; [congruence | reflexivity].
  - cbn [Py.all_of] in H. apply andb_true_iff in H as [Hc Hs].
    apply negb_true_iff in Hc. cbn [Py.words_from]. rewrite Hc.
    rewrite IH; [| assumption |].
    + now rewrite append_assoc.
    + rewrite append_assoc. exact Hne.
Qed.

Lemma all_of_impl (p q : ascii -> bool) (s : string) :
  (forall c, p c = true -> q c = true) ->
  Py.all_of p s = true -> Py.all_of q s = true.
Proof.
  intros Hpq. induction s as [|c s IH]; [reflexivity|].
  cbn [Py.all_of]. intros H. apply andb_true_iff in H as [Hc Hs].
  now rewrite (Hpq c Hc), (IH Hs).
Qed.

Lemma digit_or_slash_not_space (c : ascii) :
  Py.is_digit c || Ascii.eqb c "/" = true -> negb (Py.is_space c) = true.
Proof.
  assert (H : forallb (fun x => implb (Py.is_digit x || Ascii.eqb x "/")
                                      (negb (Py.is_space x)))
                      Re.all_ascii = true) by (vm_compute; reflexivity).
  rewrite List.forallb_forall in H. specialize (H c (in_all_ascii c)).
  intros Hc. rewrite Hc in H. exact H.
Qed.

Lemma float_of_digits (s : string) :
  s <> "" -> Py.all_of Py.is_digit s = true ->
  float_of s = Some (Py.fround (inject_Z (digits_value 0 s))).
Proof.
  intros Hne H. unfold float_of.
  rewrite (split_on_plain "." s) by (now apply (all_of_occurs Py.is_digit)).
  destruct s; [congruence|]. now rewrite H.
Qed.

Lemma digits_value_bounds (s : string) : forall acc,
  Py.all_of Py.is_digit s = true -> (0 <= acc)%Z ->
  (0 <= digits_value acc s < (acc + 1) * 10 ^ Z.of_nat (String.length s))%Z.
Proof.
  induction s as [|c s IH]; intros acc Hs Hacc.
  - cbn [digits_value String.length]. change (10 ^ Z.of_nat 0)%Z with 1%Z. lia.
  - cbn [Py.all_of] in Hs. apply andb_true_iff in Hs as [Hc Hs].
    cbn [digits_value String.length].
    assert (Hd : (0 <= Z.of_nat (nat_of_ascii c - 48) <= 9)%Z).
    { unfold Py.is_digit in Hc. apply andb_true_iff in Hc as [H1 H2].
      apply Nat.leb_le in H1, H2. lia. }
    specialize (IH (acc * 10 + Z.of_nat (nat_of_ascii c - 48))%Z Hs ltac:(lia)).
    rewrite Nat2Z.inj_succ, Z.pow_succ_r by lia.
    assert (Hp : (0 < 10 ^ Z.of_nat (String.length s))%Z)
      by (apply Z.pow_pos_nonneg; lia).
    split; [lia | nia].
Qed.

(** The float of a natural number. *)
Lemma fround_nonneg (v : Z) :
  (0 <= v)%Z ->
  Py.fround (inject_Z v)
  = if (Py.float_overflow <=? v)%Z then Infinite false else Finite (inject_Z v).
Proof.
  intros Hv. unfold Py.fround, Py.overflows, Py.negative, Qle_bool.
  cbn [Qabs inject_Z Qnum Qden]. rewrite Z.abs_eq by exact Hv.
  rewrite !Z.mul_1_r.
  destruct (Z.leb_spec Py.float_overflow v); [|reflexivity].
  destruct (Z.leb_spec 0 v); [reflexivity | lia].
Qed.

Lemma overflows_small (q : Q) (bound : Z) :
  (bound < Py.float_overflow)%Z ->
  (0 <= q)%Q -> (q <= inject_Z bound)%Q -> Py.overflows q = false.
Proof.
  intros Hb H0 Hq. unfold Py.overflows. apply not_true_is_false. intros H.
  apply Qle_bool_imp_le in H. rewrite (Qabs_pos q H0) in H.
  assert (Hc : (inject_Z Py.float_overflow <= inject_Z bound)%Q)
    by (eapply Qle_trans; eassumption).
  rewrite <- Zle_Qle in Hc. lia.
Qed.

Lemma quotient_bounds (a b : Z) :
  (0 <= a)%Z -> (0 < b)%Z ->
  (0 <= inject_Z a / inject_Z b)%Q /\ (inject_Z a / inject_Z b <= inject_Z a)%Q.
Proof.
  intros Ha Hb.
  assert (Hb' : (0 < inject_Z b)%Q).
  { change 0%Q with (inject_Z 0). rewrite <- Zlt_Qlt. exact Hb. }
  split.
  - apply Qle_shift_div_l; [exact Hb'|]. rewrite Qmult_0_l.
    change 0%Q with (inject_Z 0). rewrite <- Zle_Qle. exact Ha.
  - apply Qle_shift_div_r; [exact Hb'|].
    rewrite <- inject_Z_mult, <- Zle_Qle. nia.
Qed.

(** The quotient of the floats of two natural numbers. *)
Lemma fdiv_numerals (a b : Z) :
  (0 <= a)%Z -> (0 <= b)%Z ->
  Py.fdiv (Py.fround (inject_Z a)) (Py.fround (inject_Z b))
  = if (b =? 0)%Z then None
    else if (Py.float_overflow <=? b)%Z
         then if (Py.float_overflow <=? a)%Z then Some NaN else Some (Finite 0)
         else if (Py.float_overflow <=? a)%Z then Some (Infinite false)
              else Some (Finite (inject_Z a / inject_Z b)).
Proof.
  intros Ha Hb. rewrite !fround_nonneg by assumption.
  destruct (Z.eqb_spec b 0) as [->|Hb0].
  - change (Py.float_overflow <=? 0)%Z with false. cbv iota.
    destruct (Py.float_overflow <=? a)%Z; reflexivity.
  - destruct (Z.leb_spec Py.float_overflow b) as [|Hbt].
    + destruct (Py.float_overflow <=? a)%Z; reflexivity.
    + assert (E : Qeq_bool (inject_Z b) 0 = false).
      { apply not_true_is_false. intros H. apply Qeq_bool_eq in H.
        change 0%Q with (inject_Z 0) in H. rewrite inject_Z_injective in H.
        contradiction. }
      assert (N : Py.negative (inject_Z b) = false).
      { unfold Py.negative, Qle_bool. cbn [inject_Z Qnum Qden].
        rewrite !Z.mul_1_r. destruct (Z.leb_spec 0 b); [reflexivity | lia]. }
      destruct (Z.leb_spec Py.float_overflow a) as [|Hat]; cbn [Py.fdiv];
        rewrite E.
      * now rewrite N.
      * destruct (quotient_bounds a b Ha ltac:(lia)) as [H0 H1].
        unfold Py.fround.
        rewrite (overflows_small _ a ltac:(lia) H0 H1). reflexivity.
Qed.

(** The quantity string of a plain fraction goes to the division. *)
Lemma parse_fraction (numerator denominator : string) :
  numerator <> "" -> denominator <> "" ->
  Py.all_of Py.is_digit numerator = true ->
  Py.all_of Py.is_digit denominator = true ->
  parse_quantity (numerator ++ "/" ++ denominator)
  = match Py.fdiv (Py.fround (inject_Z (digits_value 0 numerator)))
                  (Py.fround (inject_Z (digits_value 0 denominator))) with
    | Some quantity => quantity
    | None => Finite 1
    end.
Proof.
  intros Hn Hd Hdn Hdd.
  assert (Hns : Py.all_of (fun c => negb (Py.is_space c)) numerator = true).
  { eapply all_of_impl; [|exact Hdn]. intros c Hc.
    apply digit_or_slash_not_space. now rewrite Hc. }
  assert (Hds : Py.all_of (fun c => negb (Py.is_space c)) denominator = true).
  { eapply all_of_impl; [|exact Hdd]. intros c Hc.
    apply digit_or_slash_not_space. now rewrite Hc. }
  assert (Hall : Py.all_of (fun c => negb (Py.is_space c))
                   (numerator ++ "/" ++ denominator) = true).
  { rewrite all_of_app, Hns. change ("/" ++ denominator)
      with (String "/" denominator). cbn [Py.all_of]. now rewrite Hds. }
  unfold parse_quantity. rewrite (strip_no_space _ Hall).
  rewrite contains_char, occurs_app.
  change (Py.occurs "/" ("/" ++ denominator)) with true.
  rewrite orb_true_r. unfold Py.split_ws.
  rewrite (words_from_no_space _ "" Hall)
    by (destruct numerator; [congruence | discriminate]).
  rewrite (split_on_prefix "/" numerator ("/" ++ denominator) "" [denominator]).
  - rewrite string_app_nil_r, (strip_no_space _ Hns), (strip_no_space _ Hds).
    unfold fraction_of.
    rewrite (float_of_digits _ Hn Hdn), (float_of_digits _ Hd Hdd).
    destruct numerator as [|a numerator]; [congruence|].
    destruct denominator as [|b denominator]; [congruence|].
    reflexivity.
  - now apply (all_of_occurs Py.is_digit).
  - change ("/" ++ denominator) with (String "/" denominator).
    rewrite split_on_sep. f_equal. apply split_on_plain.
    now apply (all_of_occurs Py.is_digit).
Qed.

(** X26: a quantity written as a fraction of two numerals is 1.0 when the
    denominator denotes zero, the [ZeroDivisionError] being caught, and
    otherwise the quotient of the two floats: the quotient of the numbers
    when both are within the floats; an infinity when the numerator alone is
    beyond them, zero when the denominator alone is, and NaN when both
    are. *)
Theorem fraction_quantity (numerator denominator : string) :
  numerator <> "" -> denominator <> "" ->
  Py.all_of Py.is_digit numerator = true ->
  Py.all_of Py.is_digit denominator = true ->
  parse_quantity (numerator ++ "/" ++ denominator)
  = if (digits_value 0 denominator =? 0)%Z then Finite 1
    else if (Py.float_overflow <=? digits_value 0 denominator)%Z
         then if (Py.float_overflow <=? digits_value 0 numerator)%Z
              then NaN else Finite 0
         else if (Py.float_overflow <=? digits_value 0 numerator)%Z
              then Infinite false
              else Finite (inject_Z (digits_value 0 numerator)
                           / inject_Z (digits_value 0 denominator)).
Proof.
  intros Hn Hd Hdn Hdd.
  rewrite (parse_fraction _ _ Hn Hd Hdn Hdd).
  destruct (digits_value_bounds numerator 0 Hdn ltac:(lia)) as [Hvn _].
  destruct (digits_value_bounds denominator 0 Hdd ltac:(lia)) as [Hvd _].
  rewrite (fdiv_numerals _ _ Hvn Hvd).
  destruct (digits_value 0 denominator =? 0)%Z; [reflexivity|].
  destruct (Py.float_overflow <=? digits_value 0 denominator)%Z;
    destruct (Py.float_overflow <=? digits_value 0 numerator)%Z; reflexivity.
Qed.

End QuantityFacts.

(** ** The ingredients the orchestrator extracts *)

Section ExtractFacts.
Import Orchestrator.
Local Open Scope string_scope.

Lemma split_on_pieces (sep : ascii) (s : string) :
  Forall (fun piece => Py.occurs sep piece = false) (Py.split_on sep s).
Proof.
  induction s as [|c s IH]; cbn [Py.split_on].
  - repeat constructor.
  - destruct (Ascii.eqb c sep) eqn:E.
    + constructor; [reflexivity | exact IH].
    + destruct (Py.split_on sep s) as [|piece rest].
      * repeat constructor. cbn [Py.occurs]. now rewrite E.
      * inversion IH as [|? ? Hp Hr]; subst. constructor; [|exact Hr].
        cbn [Py.occurs]. now rewrite E, Hp.
Qed.

Lemma split_on_length (sep : ascii) (s : string) :
  List.length (Py.split_on sep s)
  = S (List.length (List.filter (fun c => Ascii.eqb c sep)
                      (list_ascii_of_string s))).
Proof.
  induction s as [|c s IH]; [reflexivity|].
  cbn [Py.split_on list_ascii_of_string List.filter].
  destruct (Ascii.eqb c sep).
  - cbn [List.length]. now rewrite IH.
  - rewrite <- IH. destruct (Py.split_on sep s); [discriminate | reflexivity].
Qed.

Lemma occurs_lstrip (c : ascii) (s : string) :
  Py.occurs c s = false -> Py.occurs c (Py.lstrip s) = false.
Proof.
  induction s as [|x s IH]; [reflexivity|].
  intros H. cbn [Py.lstrip]. destruct (Py.is_space x); [|exact H].
  apply IH. cbn [Py.occurs] in H. now apply orb_false_iff in H as [_ H].
Qed.

Lemma occurs_rstrip (c : ascii) (s : string) :
  Py.occurs c s = false -> Py.occurs c (Py.rstrip s) = false.
Proof.
  induction s as [|x s IH]; [reflexivity|].
  cbn [Py.occurs]. intros H. apply orb_false_iff in H as [Hx Hs].
  specialize (IH Hs). cbn [Py.rstrip].
  destruct (Py.rstrip s) as [|y r].
  - destruct (Py.is_space x); [reflexivity|].
    cbn [Py.occurs]. now rewrite Hx.
  - cbn [Py.occurs] in *. now rewrite Hx, IH.
Qed.

Lemma rstrip_idempotent (s : string) : Py.rstrip (Py.rstrip s) = Py.rstrip s.
Proof.
  induction s as [|x s IH]; [reflexivity|].
  cbn [Py.rstrip]. destruct (Py.rstrip s) as [|y r] eqn:E.
  - destruct (Py.is_space x) eqn:Hx; [reflexivity|].
    cbn [Py.rstrip]. now rewrite Hx.
  - change (Py.rstrip (String x (String y r))) with
      (match Py.rstrip (String y r) with
       | "" => if Py.is_space x then "" else String x ""
       | String a b => String x (String a b)
       end).
    now rewrite IH.
Qed.

Lemma lstrip_head (s : string) : Py.head_not Py.is_space (Py.lstrip s) = true.
Proof.
  induction s as [|x s IH]; [reflexivity|].
  cbn [Py.lstrip]. destruct (Py.is_space x) eqn:E; [exact IH|].
  cbn [Py.head_not]. now rewrite E.
Qed.

Lemma rstrip_keeps_head (s : string) :
  Py.head_not Py.is_space s = true ->
  Py.head_not Py.is_space (Py.rstrip s) = true.
Proof.
  destruct s as [|x s]; [reflexivity|]. cbn [Py.head_not]. intros H.
  apply negb_true_iff in H. destruct (rstrip_head x s H) as [r ->].
  cbn [Py.head_not]. now rewrite H.
Qed.

Lemma lstrip_at_head (s : string) :
  Py.head_not Py.is_space s = true -> Py.lstrip s = s.
Proof.
  destruct s as [|x s]; [reflexivity|]. cbn [Py.head_not Py.lstrip].
  intros H. apply negb_true_iff in H. now rewrite H.
Qed.

Lemma strip_idempotent (s : string) : Py.strip (Py.strip s) = Py.strip s.
Proof.
  unfold Py.strip.
  rewrite (lstrip_at_head (Py.rstrip (Py.lstrip s))).
  - apply rstrip_idempotent.
  - apply rstrip_keeps_head, lstrip_head.
Qed.

(** X27: the orchestrator extracts one ingredient more than the text has
    commas, so at least one, the empty text giving one empty ingredient;
    no ingredient holds a comma and none begins or ends with a blank. *)
Theorem extracted_ingredients (recipe_text : string) :
  List.length (extract_ingredients recipe_text)
  = S (List.length (List.filter (fun c => Ascii.eqb c ",")
                      (list_ascii_of_string recipe_text)))
  /\ Forall (fun ingredient =>
               Py.occurs "," ingredient = false
               /\ Py.strip ingredient = ingredient)
       (extract_ingredients recipe_text).
Proof.
  unfold extract_ingredients. split.
  - rewrite length_map. apply split_on_length.
  - apply List.Forall_forall. intros i Hi.
    apply List.in_map_iff in Hi as (piece & <- & Hin).
    split; [|apply strip_idempotent].
    pose proof (split_on_pieces "," recipe_text) as H.
    rewrite List.Forall_forall in H.
    unfold Py.strip. apply occurs_rstrip, occurs_lstrip, H, Hin.
Qed.

End ExtractFacts.

(** ** Examples of the properties above *)

Lemma refused_product_is_skipped_witness :
  CartAdder.add_items CartAdder.picky_add 0 "u1"
    (["GARLIC001"] ++ "BEEF001" :: ["ONION001"])
  = (CartAdder.add_items CartAdder.picky_add 0 "u1" ["GARLIC001"]
       ++ CartAdder.add_items CartAdder.picky_add 2 "u1" ["ONION001"])%list.
Proof.
  apply (refused_product_is_skipped CartAdder.picky_add "u1" "BEEF001"
           ["GARLIC001"] ["ONION001"] 0 (Exception "unavailable")).
  reflexivity.
Defined.

Lemma matcher_request_reply_witness :
  exists added total contents message,
    CartAdder.process_cart_request CartAdder.from_matcher CartAdder.distinct
      CartAdder.picky_add CartAdder.seven_items "{ product_ids }"
    = CartAdder.CartResult "u1" added total contents message
    /\ sublist added ["GARLIC001"; "BEEF001"; "ONION001"]
    /\ (List.length contents <= 5)%nat
    /\ total = 7%nat.
Proof.
  destruct (matcher_request_reply CartAdder.from_matcher CartAdder.distinct
              CartAdder.picky_add CartAdder.seven_items "{ product_ids }"
              ["GARLIC001"; "BEEF001"; "ONION001"] (Some "u1"))
    as (added & total & contents & message & H & Hsub & _ & Hlen & Hok & _).
  - reflexivity.
  - reflexivity.
  - discriminate.
  - exists added, total, contents, message.
    repeat split; try assumption.
    destruct (Hok _ eq_refl) as [-> _]. reflexivity.
Defined.

Lemma distinct_elements (l : list string) (x : string) :
  In x (CartAdder.distinct l) <-> In x l.
Proof. unfold CartAdder.distinct. apply nodup_In. Qed.

Lemma text_without_digit_adds_nothing_witness :
  CartAdder.process_cart_request CartAdder.from_matcher CartAdder.distinct
    CartAdder.picky_add CartAdder.seven_items "what is in my cart"
  = CartAdder.NoProductIds "what is in my cart".
Proof.
  apply (text_without_digit_adds_nothing CartAdder.from_matcher
           CartAdder.distinct CartAdder.picky_add CartAdder.seven_items
           "what is in my cart").
  - exact distinct_elements.
  - reflexivity.
  - intros ids user H. vm_compute in H. discriminate.
Defined.

Lemma contents_request_finds_no_product_witness :
  CartAdder.process_cart_request CartAdder.from_matcher CartAdder.distinct
    CartAdder.picky_add CartAdder.seven_items
    (Orchestrator.contents_message "default_user")
  = CartAdder.NoProductIds (Orchestrator.contents_message "default_user").
Proof.
  apply (contents_request_finds_no_product CartAdder.from_matcher
           CartAdder.distinct CartAdder.picky_add CartAdder.seven_items
           "default_user").
  - exact distinct_elements.
  - reflexivity.
Defined.

Lemma cart_message_user_prefix_witness :
  CartAdder.user_id
    (CartAdder._parse_product_data CartAdder.from_matcher CartAdder.distinct
       (Orchestrator.cart_message "default_user" ["GARLIC001"]))
  = "default".
Proof.
  apply (cart_message_user_prefix CartAdder.from_matcher CartAdder.distinct
           "default" "_user" ["GARLIC001"]).
  - discriminate.
  - reflexivity.
  - reflexivity.
Defined.

Lemma empty_user_reads_first_product_witness :
  CartAdder.user_id
    (CartAdder._parse_product_data CartAdder.from_matcher CartAdder.distinct
       (Orchestrator.cart_message "" ["GARLIC001"; "ONION001"]))
  = "GARLIC001".
Proof.
  apply (empty_user_reads_first_product CartAdder.from_matcher
           CartAdder.distinct "GARLIC001" ["ONION001"]).
  - discriminate.
  - reflexivity.
Defined.

Lemma fraction_quantity_witness :
  RecipeGenerator.parse_quantity "3/4" = Finite (inject_Z 3 / inject_Z 4)
  /\ RecipeGenerator.parse_quantity "3/0" = Finite 1.
Proof.
  split.
  - apply (fraction_quantity "3" "4"); (discriminate || reflexivity).
  - apply (fraction_quantity "3" "0"); (discriminate || reflexivity).
Defined.

(** ** The forms of a quantity *)

Section QuantityFormsFacts.
Import Re IngredientMatcher.
Local Open Scope string_scope.

Lemma space_cases (P : ascii -> Prop) :
  P "009"%char -> P "010"%char -> P "011"%char -> P "012"%char ->
  P "013"%char -> P "028"%char -> P "029"%char -> P "030"%char ->
  P "031"%char -> P " "%char ->
  forall c, Py.is_space c = true -> P c.
Proof.
  intros. destruct c as [[] [] [] [] [] [] [] []]; try discriminate; assumption.
Qed.

Lemma lower_eq_cons (u : string) (c : ascii) (w : string) :
  Py.lower u = String c w ->
  exists a u', u = String a u' /\ Py.lower_char a = c /\ Py.lower u' = w.
Proof.
  destruct u as [|a u']; [discriminate|]. cbn [Py.lower].
  intros H. injection H as Ha Hu. eauto.
Qed.

Lemma lower_eq_nil (u : string) : Py.lower u = "" -> u = "".
Proof. destruct u; [reflexivity | discriminate]. Qed.

Ltac spell H :=
  repeat match type of H with
         | Py.lower _ = String _ _ =>
             apply lower_eq_cons in H;
             let a := fresh "a" in
             let Ha := fresh "Ha" in
             destruct H as (a & ? & -> & Ha & H)
         end;
  apply lower_eq_nil in H; subst.

Lemma letter_not_space (a : ascii) :
  Py.is_alpha (Py.lower_char a) = true -> Py.is_space a = false.
Proof.
  assert (H : forallb (fun x => implb (Py.is_alpha (Py.lower_char x))
                                      (negb (Py.is_space x)))
                      all_ascii = true) by (vm_compute; reflexivity).
  rewrite List.forallb_forall in H. specialize (H a (in_all_ascii a)).
  intros Ha. rewrite Ha in H. now apply negb_true_iff.
Qed.

Lemma space_not_letter (x c : ascii) :
  Py.is_space x = true -> Py.is_alpha (Py.lower_char c) = true ->
  Ascii.eqb (Py.lower_char x) (Py.lower_char c) = false.
Proof.
  intros Hx Hc. destruct (Ascii.eqb_spec (Py.lower_char x) (Py.lower_char c)) as [E|];
    [|reflexivity].
  rewrite <- E in Hc. apply letter_not_space in Hc. congruence.
Qed.

Ltac fold_case :=
  repeat match goal with
         | Ha : Py.lower_char ?a = _ |- _ =>
             let Hs := fresh "Hs" in
             assert (Hs : Py.is_space a = false)
               by (apply (letter_not_space a); rewrite Ha; reflexivity);
             rewrite ?Hs; rewrite !Ha; clear Ha Hs
         end.

(** A unit of the vocabulary, in any letter case, followed by a whitespace
    character. *)
Lemma units_step_ci (u : string) (x : ascii) :
  In (Py.lower u) unit_words -> Py.is_space x = true ->
  forall prev t cs (k : cont),
    run (Seq units (Class Py.is_space)) prev (u ++ String x t) cs k
    = k (Some x) t cs.
Proof.
  intros Hu Hx prev t cs k.
  repeat (destruct Hu as [Hu | Hu];
          [symmetry in Hu; spell Hu; cbv [String.append];
           cbv [run units alt lit_s lit_i chr_i opt]; fold_case;
           rewrite ?Hx; repeat rewrite (space_not_letter x _ Hx) by reflexivity;
           cbv; destruct (k _ t cs); reflexivity |]);
    destruct Hu.
Qed.

Lemma unit_head (u t : string) :
  In (Py.lower u) unit_words -> Py.head_not Py.is_space (u ++ t) = true.
Proof.
  intros Hu.
  repeat (destruct Hu as [Hu | Hu];
          [symmetry in Hu; apply lower_eq_cons in Hu as (a & u' & -> & Ha & _);
           change (negb (Py.is_space a) = true);
           rewrite (letter_not_space a) by (rewrite Ha; reflexivity);
           reflexivity |]);
    destruct Hu.
Qed.

Lemma space_not_digit (x : ascii) : Py.is_space x = true -> Py.is_digit x = false.
Proof. revert x. apply space_cases; reflexivity. Qed.

Lemma space_not_point (x : ascii) :
  Py.is_space x = true -> Ascii.eqb "." x = false.
Proof. revert x. apply space_cases; reflexivity. Qed.

Lemma nonletter_not_letter (x c : ascii) :
  Py.is_alpha x = false -> Py.is_alpha (Py.lower_char c) = true ->
  Ascii.eqb (Py.lower_char x) (Py.lower_char c) = false.
Proof.
  assert (H : forallb (fun y => implb (Py.is_alpha (Py.lower_char y))
                                      (Py.is_alpha y))
                      all_ascii = true) by (vm_compute; reflexivity).
  rewrite List.forallb_forall in H. specialize (H x (in_all_ascii x)).
  intros Hx Hc.
  destruct (Ascii.eqb_spec (Py.lower_char x) (Py.lower_char c)) as [E|];
    [|reflexivity].
  rewrite <- E in Hc. rewrite Hc, Hx in H. discriminate.
Qed.

(** No unit begins with a character that is not a letter. *)
Lemma units_fail_first (x : ascii) (t : string) prev cs (k : cont) :
  Py.is_alpha x = false -> run units prev (String x t) cs k = None.
Proof.
  intros Hx. cbv [run units alt lit_s lit_i chr_i opt].
  repeat rewrite (nonletter_not_letter x _ Hx) by reflexivity.
  reflexivity.
Qed.

Lemma after_units_ci (u s1 s2 rest : string) prev cs :
  In (Py.lower u) unit_words ->
  s1 <> "" -> Py.all_of Py.is_space s1 = true ->
  s2 <> "" -> Py.all_of Py.is_space s2 = true ->
  Py.head_not Py.is_space rest = true ->
  run (seq [plus Py.is_space; units; plus Py.is_space]) prev
      (s1 ++ u ++ s2 ++ rest) cs accept
  = Some (rest, cs).
Proof.
  intros Hu Hne1 Hs1 Hne2 Hs2 Hr.
  destruct s1 as [|y s1]; [congruence|]. destruct s2 as [|x s2]; [congruence|].
  cbn [Py.all_of] in Hs1, Hs2.
  apply andb_true_iff in Hs1 as [Hy Hs1]. apply andb_true_iff in Hs2 as [Hx Hs2].
  change (run (Seq (Seq (Class Py.is_space) (Star Py.is_space))
                   (Seq units (Seq (Class Py.is_space) (Star Py.is_space))))
              prev (String y (s1 ++ u ++ String x (s2 ++ rest))) cs accept
          = Some (rest, cs)).
  cbn [run]. rewrite Hy.
  apply star_greedy; [exact Hs1 | now apply unit_head |].
  change (run (Seq units (Class Py.is_space)) (after (Some y) s1)
              (u ++ String x (s2 ++ rest)) cs
              (fun p s c => star Py.is_space p s c accept)
          = Some (rest, cs)).
  rewrite (units_step_ci u x Hu Hx).
  now apply star_greedy.
Qed.

Lemma tail_on_integer_ci (u s1 s2 rest : string) prev cs :
  In (Py.lower u) unit_words ->
  s1 <> "" -> Py.all_of Py.is_space s1 = true ->
  s2 <> "" -> Py.all_of Py.is_space s2 = true ->
  Py.head_not Py.is_space rest = true ->
  run quantity_tail prev (s1 ++ u ++ s2 ++ rest) cs accept = Some (rest, cs).
Proof.
  intros Hu Hne1 Hs1 Hne2 Hs2 Hr.
  pose proof (after_units_ci u s1 s2 rest prev cs Hu Hne1 Hs1 Hne2 Hs2 Hr) as H.
  destruct s1 as [|y s1]; [congruence|].
  cbn [Py.all_of] in Hs1. apply andb_true_iff in Hs1 as [Hy _].
  change quantity_tail
    with (Seq (Alt (Seq (chr ".") (plus Py.is_digit)) Eps)
              (seq [plus Py.is_space; units; plus Py.is_space])).
  change (String y s1 ++ u ++ s2 ++ rest)
    with (String y (s1 ++ u ++ s2 ++ rest)) in *.
  cbn [run chr]. rewrite (space_not_point y Hy). exact H.
Qed.

Lemma tail_on_decimal_ci (m u s1 s2 rest : string) prev cs :
  m <> "" -> Py.all_of Py.is_digit m = true ->
  In (Py.lower u) unit_words ->
  s1 <> "" -> Py.all_of Py.is_space s1 = true ->
  s2 <> "" -> Py.all_of Py.is_space s2 = true ->
  Py.head_not Py.is_space rest = true ->
  run quantity_tail prev ("." ++ m ++ s1 ++ u ++ s2 ++ rest) cs accept
  = Some (rest, cs).
Proof.
  intros Hne Hm Hu Hne1 Hs1 Hne2 Hs2 Hr.
  destruct m as [|e m]; [congruence|]. cbn [Py.all_of] in Hm.
  apply andb_true_iff in Hm as [He Hm].
  change quantity_tail
    with (Seq (Alt (Seq (chr ".") (Seq (Class Py.is_digit) (Star Py.is_digit))) Eps)
              (seq [plus Py.is_space; units; plus Py.is_space])).
  change ("." ++ String e m ++ s1 ++ u ++ s2 ++ rest)
    with (String "." (String e (m ++ s1 ++ u ++ s2 ++ rest))).
  cbn [run chr]. cbn [Ascii.eqb Bool.eqb]. rewrite He.
  rewrite (star_greedy Py.is_digit m (Some e) (s1 ++ u ++ s2 ++ rest) cs _ (rest, cs));
    try reflexivity; try assumption.
  - destruct s1 as [|y s1]; [congruence|]. cbn [Py.all_of] in Hs1.
    apply andb_true_iff in Hs1 as [Hy _].
    change (negb (Py.is_digit y) = true). now rewrite (space_not_digit y Hy).
  - now apply after_units_ci.
Qed.

Lemma digit_not_alpha (d : ascii) : Py.is_digit d = true -> Py.is_alpha d = false.
Proof. revert d. apply digit_cases; reflexivity. Qed.

Lemma digit_not_space (d : ascii) : Py.is_digit d = true -> Py.is_space d = false.
Proof. revert d. apply digit_cases; reflexivity. Qed.

(** After the digits, blanks and then a digit: the tail of the pattern fails,
    however many of the blanks it takes. *)
Lemma tail_fails_on_spaces_digit (s1 : string) (d : ascii) (t : string) prev cs :
  s1 <> "" -> Py.all_of Py.is_space s1 = true -> Py.is_digit d = true ->
  run quantity_tail prev (s1 ++ String d t) cs accept = None.
Proof.
  intros Hne Hs1 Hd.
  pose proof (digit_not_alpha d Hd) as Hda.
  pose proof (digit_not_space d Hd) as Hds.
  destruct s1 as [|y s1]; [congruence|]. cbn [Py.all_of] in Hs1.
  apply andb_true_iff in Hs1 as [Hy Hs1].
  change quantity_tail
    with (Seq (Alt (Seq (chr ".") (plus Py.is_digit)) Eps)
              (Seq (Seq (Class Py.is_space) (Star Py.is_space))
                   (Seq units (plus Py.is_space)))).
  change (String y s1 ++ String d t) with (String y (s1 ++ String d t)).
  cbn [run chr]. rewrite (space_not_point y Hy), Hy.
  apply (star_none (fun s => exists ws, Py.all_of Py.is_space ws = true
                                        /\ s = ws ++ String d t)).
  - intros c s [ws [Hws E]] Hc. destruct ws as [|e ws].
    + change (String c s = String d t) in E. injection E as -> _. congruence.
    + change (String c s = String e (ws ++ String d t)) in E.
      injection E as -> ->. cbn [Py.all_of] in Hws.
      apply andb_true_iff in Hws as [_ Hws]. now exists ws.
  - intros p s [ws [Hws ->]]. destruct ws as [|e ws].
    + change ("" ++ String d t) with (String d t).
      now apply units_fail_first.
    + change (String e ws ++ String d t) with (String e (ws ++ String d t)).
      apply units_fail_first. cbn [Py.all_of] in Hws.
      apply andb_true_iff in Hws as [He _].
      revert e He. apply space_cases; reflexivity.
  - now exists s1.
Qed.

End QuantityFormsFacts.

Section MixedQuantityFacts.
Import RecipeGenerator.
Local Open Scope string_scope.

Lemma append_empty (a b : string) : a ++ b = "" -> b = "".
Proof. destruct a; [trivial | discriminate]. Qed.

Lemma rstrip_app_no_space (a b : string) :
  b <> "" -> Py.all_of (fun c => negb (Py.is_space c)) b = true ->
  Py.rstrip (a ++ b) = a ++ b.
Proof.
  intros Hne Hb. induction a as [|c a IH]; [now apply rstrip_no_space|].
  change (String c a ++ b) with (String c (a ++ b)).
  cbn [Py.rstrip]. rewrite IH.
  destruct (a ++ b) eqn:E; [|reflexivity].
  apply append_empty in E. contradiction.
Qed.

Lemma words_from_word (a : string) : forall cur t,
  Py.all_of (fun c => negb (Py.is_space c)) a = true ->
  Py.words_from cur (a ++ t) = Py.words_from (cur ++ a) t.
Proof.
  induction a as [|c a IH]; intros cur t Ha.
  - now rewrite string_app_nil_r.
  - cbn [Py.all_of] in Ha. apply andb_true_iff in Ha as [Hc Ha].
    apply negb_true_iff in Hc.
    change (String c a ++ t) with (String c (a ++ t)).
    cbn [Py.words_from]. rewrite Hc, (IH _ _ Ha).
    now rewrite append_assoc.
Qed.

Lemma words_from_spaces (ws t : string) :
  Py.all_of Py.is_space ws = true ->
  Py.words_from "" (ws ++ t) = Py.words_from "" t.
Proof.
  induction ws as [|c ws IH]; intros H; [reflexivity|].
  cbn [Py.all_of] in H. apply andb_true_iff in H as [Hc Hws].
  change (String c ws ++ t) with (String c (ws ++ t)).
  cbn [Py.words_from]. rewrite Hc. now apply IH.
Qed.

Lemma digits_no_space (s : string) :
  Py.all_of Py.is_digit s = true ->
  Py.all_of (fun c => negb (Py.is_space c)) s = true.
Proof.
  apply all_of_impl. intros c Hc. apply digit_or_slash_not_space.
  now rewrite Hc.
Qed.

(** The quantity string of a mixed number goes to the float of the whole
    part plus the division. *)
Lemma parse_mixed (whole sp numerator denominator : string) :
  whole <> "" -> numerator <> "" -> denominator <> "" ->
  Py.all_of Py.is_digit whole = true ->
  Py.all_of Py.is_digit numerator = true ->
  Py.all_of Py.is_digit denominator = true ->
  sp <> "" -> Py.all_of Py.is_space sp = true ->
  parse_quantity (whole ++ sp ++ numerator ++ "/" ++ denominator)
  = match Py.fdiv (Py.fround (inject_Z (digits_value 0 numerator)))
                  (Py.fround (inject_Z (digits_value 0 denominator))) with
    | Some fraction =>
        Py.fadd (Py.fround (inject_Z (digits_value 0 whole))) fraction
    | None => Finite 1
    end.
Proof.
  intros Hw Hn Hd Hdw Hdn Hdd Hsp Hs.
  pose proof (digits_no_space _ Hdw) as Hws.
  pose proof (digits_no_space _ Hdn) as Hns.
  pose proof (digits_no_space _ Hdd) as Hds.
  set (f := numerator ++ "/" ++ denominator).
  assert (Hf : Py.all_of (fun c => negb (Py.is_space c)) f = true).
  { subst f. rewrite all_of_app, Hns.
    change ("/" ++ denominator) with (String "/" denominator).
    cbn [Py.all_of]. now rewrite Hds. }
  assert (Hfne : f <> "").
  { subst f. destruct numerator; [congruence | discriminate]. }
  assert (Hstrip : Py.strip (whole ++ sp ++ f) = whole ++ sp ++ f).
  { unfold Py.strip. rewrite lstrip_at_head.
    - rewrite <- append_assoc. now apply rstrip_app_no_space.
    - destruct whole as [|c whole]; [congruence|].
      cbn [Py.all_of] in Hws. apply andb_true_iff in Hws as [Hc _]. exact Hc. }
  unfold parse_quantity. rewrite Hstrip.
  assert (Hc : Py.contains "/" (whole ++ sp ++ f) = true).
  { rewrite contains_char, !occurs_app. subst f. rewrite occurs_app.
    change (Py.occurs "/" ("/" ++ denominator)) with true.
    now rewrite !orb_true_r. }
  rewrite Hc. unfold Py.split_ws.
  rewrite (words_from_word whole "" _ Hws).
  destruct sp as [|y sp]; [congruence|]. cbn [Py.all_of] in Hs.
  apply andb_true_iff in Hs as [Hy Hs].
  change ("" ++ whole) with whole.
  change (String y sp ++ f) with (String y (sp ++ f)).
  cbn [Py.words_from]. rewrite Hy.
  rewrite (words_from_spaces sp f Hs), (words_from_no_space f "" Hf)
    by (destruct f; [congruence | discriminate]).
  change ("" ++ f) with f.
  destruct whole as [|a whole]; [congruence|].
  rewrite (float_of_digits _ Hw Hdw).
  subst f.
  rewrite (split_on_prefix "/" numerator ("/" ++ denominator) "" [denominator]).
  - rewrite string_app_nil_r. unfold fraction_of.
    rewrite (float_of_digits _ Hn Hdn), (float_of_digits _ Hd Hdd).
    destruct (Py.fdiv _ _); reflexivity.
  - now apply (all_of_occurs Py.is_digit).
  - change ("/" ++ denominator) with (String "/" denominator).
    rewrite split_on_sep. f_equal. apply split_on_plain.
    now apply (all_of_occurs Py.is_digit).
Qed.

(** A numeral of at most 300 digits is within the floats. *)
Lemma numeral_small (s : string) :
  Py.all_of Py.is_digit s = true -> (String.length s <= 300)%nat ->
  (0 <= digits_value 0 s < 10 ^ 300)%Z.
Proof.
  intros Hs Hl. destruct (digits_value_bounds s 0 Hs ltac:(lia)) as [H0 H1].
  split; [exact H0|].
  eapply Z.lt_le_trans; [exact H1|]. rewrite Z.mul_1_l.
  apply Z.pow_le_mono_r; lia.
Qed.

Lemma small_in_floats : (2 * 10 ^ 300 < Py.float_overflow)%Z.
Proof. vm_compute. reflexivity. Qed.

End MixedQuantityFacts.

Section QuantityFormsClaim.
Import Re IngredientMatcher.
Local Open Scope string_scope.

(** C7, as the code has it.  The prefix pattern of the extractor accepts an
    integer or a decimal quantity: followed by whitespace, a unit of the
    vocabulary in any letter case and whitespace, it is removed with them.
    A simple fraction or a mixed number in the same place is not accepted,
    and the item is left as it is.  It is the recipe generator that reads
    fractions and mixed numbers, in the quantity it parses from an
    ingredient line: "n/d" as the quotient, "w n/d" as the whole part plus
    the quotient, and either as 1.0 when the denominator is zero (the
    numerals having 300 digits at most, so that they are within the
    floats). *)
Theorem quantity_prefix_forms
  (w n m u s1 s2 rest after_slash after_number : string) :
  w <> "" -> Py.all_of Py.is_digit w = true -> (String.length w <= 300)%nat ->
  n <> "" -> Py.all_of Py.is_digit n = true -> (String.length n <= 300)%nat ->
  m <> "" -> Py.all_of Py.is_digit m = true -> (String.length m <= 300)%nat ->
  In (Py.lower u) unit_words ->
  s1 <> "" -> Py.all_of Py.is_space s1 = true ->
  s2 <> "" -> Py.all_of Py.is_space s2 = true ->
  Py.head_not Py.is_space rest = true ->
  strip_quantity (n ++ s1 ++ u ++ s2 ++ rest) = rest
  /\ strip_quantity (n ++ "." ++ m ++ s1 ++ u ++ s2 ++ rest) = rest
  /\ strip_quantity (n ++ "/" ++ after_slash) = n ++ "/" ++ after_slash
  /\ strip_quantity (w ++ s1 ++ n ++ after_number) = w ++ s1 ++ n ++ after_number
  /\ RecipeGenerator.parse_quantity (n ++ "/" ++ m)
     = (if (RecipeGenerator.digits_value 0 m =? 0)%Z then Finite 1
        else Finite (inject_Z (RecipeGenerator.digits_value 0 n)
                     / inject_Z (RecipeGenerator.digits_value 0 m)))
  /\ RecipeGenerator.parse_quantity (w ++ s1 ++ n ++ "/" ++ m)
     = (if (RecipeGenerator.digits_value 0 m =? 0)%Z then Finite 1
        else Finite (inject_Z (RecipeGenerator.digits_value 0 w)
                     + inject_Z (RecipeGenerator.digits_value 0 n)
                       / inject_Z (RecipeGenerator.digits_value 0 m))).
Proof.
  intros Hw Hwd Hwl Hn Hnd Hnl Hm Hmd Hml Hu Hne1 Hs1 Hne2 Hs2 Hr.
  assert (Hhead : Py.head_not Py.is_digit (s1 ++ n ++ after_number) = true).
  { destruct s1 as [|y s1]; [congruence|]. cbn [Py.all_of] in Hs1.
    apply andb_true_iff in Hs1 as [Hy _].
    change (negb (Py.is_digit y) = true). now rewrite (space_not_digit y Hy). }
  pose proof (numeral_small w Hwd Hwl) as Bw.
  pose proof (numeral_small n Hnd Hnl) as Bn.
  pose proof (numeral_small m Hmd Hml) as Bm.
  pose proof small_in_floats as Bf.
  assert (Ediv : Py.fdiv (Py.fround (inject_Z (RecipeGenerator.digits_value 0 n)))
                   (Py.fround (inject_Z (RecipeGenerator.digits_value 0 m)))
                 = if (RecipeGenerator.digits_value 0 m =? 0)%Z then None
                   else Some (Finite (inject_Z (RecipeGenerator.digits_value 0 n)
                                      / inject_Z (RecipeGenerator.digits_value 0 m)))).
  { rewrite fdiv_numerals by lia.
    destruct (RecipeGenerator.digits_value 0 m =? 0)%Z; [reflexivity|].
    destruct (Z.leb_spec Py.float_overflow (RecipeGenerator.digits_value 0 m));
      [lia|].
    destruct (Z.leb_spec Py.float_overflow (RecipeGenerator.digits_value 0 n));
      [lia | reflexivity]. }
  split; [|split; [|split; [|split; [|split]]]].
  - replace (s1 ++ u ++ s2 ++ rest) with ((s1 ++ u ++ s2) ++ rest)
      by (now rewrite !append_assoc).
    apply (digits_then_match n (s1 ++ u ++ s2) rest); try assumption.
    + rewrite !append_assoc. destruct s1 as [|y s1]; [congruence|].
      cbn [Py.all_of] in Hs1. apply andb_true_iff in Hs1 as [Hy _].
      change (negb (Py.is_digit y) = true). now rewrite (space_not_digit y Hy).
    + intros prev. rewrite !append_assoc. now apply tail_on_integer_ci.
  - replace ("." ++ m ++ s1 ++ u ++ s2 ++ rest)
      with (("." ++ m ++ s1 ++ u ++ s2) ++ rest)
      by (now rewrite !append_assoc).
    apply (digits_then_match n ("." ++ m ++ s1 ++ u ++ s2) rest); try assumption.
    + reflexivity.
    + intros prev. rewrite !append_assoc. now apply tail_on_decimal_ci.
  - apply digits_then_fail; [assumption | assumption | reflexivity |].
    intros prev cs. apply tail_fails_on_slash.
  - apply digits_then_fail; [assumption | assumption | exact Hhead |].
    intros prev cs. destruct n as [|d n]; [congruence|].
    cbn [Py.all_of] in Hnd. apply andb_true_iff in Hnd as [Hd _].
    change (String d n ++ after_number) with (String d (n ++ after_number)).
    now apply tail_fails_on_spaces_digit.
  - rewrite (parse_fraction n m Hn Hm Hnd Hmd), Ediv.
    destruct (RecipeGenerator.digits_value 0 m =? 0)%Z; reflexivity.
  - rewrite (parse_mixed w s1 n m Hw Hn Hm Hwd Hnd Hmd Hne1 Hs1), Ediv.
    destruct (Z.eqb_spec (RecipeGenerator.digits_value 0 m) 0) as [|Hm0];
      [reflexivity|].
    rewrite fround_nonneg by lia.
    destruct (Z.leb_spec Py.float_overflow (RecipeGenerator.digits_value 0 w));
      [lia|].
    cbn [Py.fadd]. unfold Py.fround.
    destruct (quotient_bounds (RecipeGenerator.digits_value 0 n)
                (RecipeGenerator.digits_value 0 m) ltac:(lia) ltac:(lia))
      as [Q0 Q1].
    rewrite (overflows_small _ (2 * 10 ^ 300) Bf); [reflexivity | |].
    + apply (Qle_trans _ (inject_Z 0 + 0)); [discriminate|].
      apply Qplus_le_compat; [|exact Q0]. rewrite <- Zle_Qle. lia.
    + replace (2 * 10 ^ 300)%Z with (10 ^ 300 + 10 ^ 300)%Z by lia.
      rewrite inject_Z_plus. apply Qplus_le_compat.
      * rewrite <- Zle_Qle. lia.
      * eapply Qle_trans; [exact Q1|]. rewrite <- Zle_Qle. lia.
Qed.

End QuantityFormsClaim.

Lemma quantity_prefix_forms_witness :
  IngredientMatcher.strip_quantity "2 Cups  quinoa" = "quinoa"
  /\ IngredientMatcher.strip_quantity "2.5 Cups  quinoa" = "quinoa"
  /\ IngredientMatcher.strip_quantity "2/5 cups quinoa" = "2/5 cups quinoa"
  /\ IngredientMatcher.strip_quantity "1 2/5 cups quinoa" = "1 2/5 cups quinoa"
  /\ RecipeGenerator.parse_quantity "2/5" = Finite (inject_Z 2 / inject_Z 5)
  /\ RecipeGenerator.parse_quantity "1 2/5"
     = Finite (inject_Z 1 + inject_Z 2 / inject_Z 5).
Proof.
  apply (quantity_prefix_forms "1" "2" "5" "Cups" " " "  " "quinoa"
           "5 cups quinoa" "/5 cups quinoa");
    try discriminate; try reflexivity; try (cbn; lia).
  right. left. reflexivity.
Defined.

(** Three lines as the generator reads them, through its pattern: the
    quantity and the standard unit. *)
Lemma generator_reads_lines :
  RecipeGenerator.quantity_and_unit "1 1/2 cups Jasmine Rice"
  = (Finite (inject_Z 1 + inject_Z 1 / inject_Z 2), "cup")
  /\ RecipeGenerator.quantity_and_unit "1/2 cup Cheddar Cheese"
     = (Finite (inject_Z 1 / inject_Z 2), "cup")
  /\ RecipeGenerator.quantity_and_unit "1/0 cup Cheddar Cheese"
     = (Finite 1, "cup").
Proof. repeat split; vm_compute; reflexivity. Qed.
